(** * LifeTraker backend: analytics core (stats, streaks, rankings)

    Shallow embedding of the computations of
    [src/stats/stats.service.ts], [src/streaks/streaks.service.ts] and the
    rankings service, together with the properties of the specification that
    were checked against them.

    Conventions of the embedding.
    - A JavaScript [Date] is its time value: an integer number of
      milliseconds since 1970-01-01T00:00:00Z ([Z]).  The "Invalid Date"
      (time value NaN) is [None] of [TimeValue].
    - The [Date] built-ins are the abstract operations of ECMA-262
      (section "Date Objects"): [Day], [TimeWithinDay], [DayFromYear],
      [YearFromTime], [MonthFromTime], [DateFromTime], [WeekDay], [MakeDay],
      [MakeDate], [TimeClip], [Date.UTC].
    - All integers that occur are far below 2^53, so the double-precision
      arithmetic of the source is exact on them; a quotient of two integers
      that the source keeps as a number (a completion ratio) is a rational
      of [Q].
    - Thrown exceptions are the left summand of [Exc]. *)

From Stdlib Require Import ZArith List Bool Lia String Ascii QArith Qminmax
  Sorted Permutation DecimalString.
Import ListNotations.

Local Open Scope string_scope.
Local Open Scope Z_scope.

(** ** Exceptions *)

Inductive Exception : Type :=
| BadRequestException (msg : string)
| ForbiddenException (msg : string)
| NotFoundException (msg : string)
| RangeError
| DispatchRejected.

Definition Exc (A : Type) : Type := (Exception + A)%type.

Definition throw {A : Type} (e : Exception) : Exc A := inl e.
Definition ret {A : Type} (a : A) : Exc A := inr a.
Definition bind {A B : Type} (m : Exc A) (k : A -> Exc B) : Exc B :=
  match m with
  | inl e => inl e
  | inr a => k a
  end.

Notation "'do' x <- m ; k" := (bind m (fun x => k))
  (at level 10, x name, m at level 100, k at level 200).

(** ** ECMAScript time values *)

Module JSDate.

Definition msPerDay : Z := 86400000.
Definition msPerHour : Z := 3600000.
Definition msPerMinute : Z := 60000.
Definition msPerSecond : Z := 1000.

(** A time value, or NaN. *)
Definition TimeValue : Type := option Z.

Definition maxTime : Z := 8640000000000000.

Definition TimeClip (t : Z) : TimeValue :=
  if Z.abs t <=? maxTime then Some t else None.

Definition Day (t : Z) : Z := t / msPerDay.
Definition TimeWithinDay (t : Z) : Z := t mod msPerDay.

Definition DaysInYear (y : Z) : Z :=
  if negb (y mod 4 =? 0) then 365
  else if negb (y mod 100 =? 0) then 366
  else if negb (y mod 400 =? 0) then 365
  else 366.

Definition DayFromYear (y : Z) : Z :=
  365 * (y - 1970) + (y - 1969) / 4 - (y - 1901) / 100 + (y - 1601) / 400.

(** The largest [y] with [DayFromYear y <= d]: a linear estimate of the
    year, off by at most one, then settled by comparison. *)
Definition YearFromDay (d : Z) : Z :=
  let y := 1970 + (d * 400) / 146097 in
  if DayFromYear (y + 1) <=? d then y + 1
  else if DayFromYear y <=? d then y
  else y - 1.

Definition YearFromTime (t : Z) : Z := YearFromDay (Day t).

Definition InLeapYearOf (y : Z) : Z := if DaysInYear y =? 366 then 1 else 0.
Definition InLeapYear (t : Z) : Z := InLeapYearOf (YearFromTime t).

Definition DayWithinYear (t : Z) : Z := Day t - DayFromYear (YearFromTime t).

(** Number of days of the year before month [m] (0 = January). *)
Definition monthStart (m leap : Z) : Z :=
  match m with
  | 0 => 0
  | 1 => 31
  | 2 => 59 + leap
  | 3 => 90 + leap
  | 4 => 120 + leap
  | 5 => 151 + leap
  | 6 => 181 + leap
  | 7 => 212 + leap
  | 8 => 243 + leap
  | 9 => 273 + leap
  | 10 => 304 + leap
  | _ => 334 + leap
  end.

Definition MonthOfYearDay (d leap : Z) : Z :=
  if d <? 31 then 0
  else if d <? 59 + leap then 1
  else if d <? 90 + leap then 2
  else if d <? 120 + leap then 3
  else if d <? 151 + leap then 4
  else if d <? 181 + leap then 5
  else if d <? 212 + leap then 6
  else if d <? 243 + leap then 7
  else if d <? 273 + leap then 8
  else if d <? 304 + leap then 9
  else if d <? 334 + leap then 10
  else 11.

Definition MonthFromTime (t : Z) : Z :=
  MonthOfYearDay (DayWithinYear t) (InLeapYear t).

Definition DateFromTime (t : Z) : Z :=
  DayWithinYear t - monthStart (MonthFromTime t) (InLeapYear t) + 1.

(** 0 = Sunday ... 6 = Saturday; 1970-01-01 was a Thursday. *)
Definition WeekDay (t : Z) : Z := (Day t + 4) mod 7.

Definition HourFromTime (t : Z) : Z := (t / msPerHour) mod 24.
Definition MinFromTime (t : Z) : Z := (t / msPerMinute) mod 60.
Definition SecFromTime (t : Z) : Z := (t / msPerSecond) mod 60.
Definition msFromTime (t : Z) : Z := t mod msPerSecond.

Definition MakeDay (year month date : Z) : Z :=
  let ym := year + month / 12 in
  let mn := month mod 12 in
  DayFromYear ym + monthStart mn (InLeapYearOf ym) + date - 1.

Definition MakeDate (day time : Z) : Z := day * msPerDay + time.

(** [Date.UTC(year, month, date)], with its two-digit-year rule: a year
    between 0 and 99 stands for 1900 + year.  The result is given without
    [TimeClip]: by [normalizeDate_valid] below the clip is the identity on
    the days [normalizeDay] makes of the time values of [Date] objects. *)
Definition DateUTC (year month date : Z) : Z :=
  let yr := if (0 <=? year) && (year <=? 99) then 1900 + year else year in
  MakeDate (MakeDay yr month date) 0.

Definition getUTCFullYear : Z -> Z := YearFromTime.
Definition getUTCMonth : Z -> Z := MonthFromTime.
Definition getUTCDate : Z -> Z := DateFromTime.
Definition getUTCDay : Z -> Z := WeekDay.

(** [d.setUTCDate(date)]: the new time value of [d]. *)
Definition setUTCDate (t date : Z) : TimeValue :=
  TimeClip (MakeDate (MakeDay (YearFromTime t) (MonthFromTime t) date)
                     (TimeWithinDay t)).

End JSDate.

(** ** Strings: number formatting, [padStart], [toISOString] *)

Module JSString.
Import JSDate.

Definition digitChar (d : Z) : ascii := ascii_of_nat (48 + Z.to_nat d).

(** The last [k] decimal digits of [n], most significant first. *)
Fixpoint fixedDec (k : nat) (n : Z) : string :=
  match k with
  | O => EmptyString
  | S k' => fixedDec k' (n / 10) ++ String (digitChar (n mod 10)) EmptyString
  end.

(** [String(n)] for an integral number [n]. *)
Definition numberToString (n : Z) : string :=
  NilZero.string_of_int (Z.to_int n).

Fixpoint repeatChar (c : ascii) (n : nat) : string :=
  match n with
  | O => EmptyString
  | S n' => String c (repeatChar c n')
  end.

(** [s.padStart(targetLength, c)] for a one-character filler [c]. *)
Definition padStart (s : string) (targetLength : nat) (c : ascii) : string :=
  repeatChar c (targetLength - String.length s) ++ s.

(** [s.slice(0, n)]. *)
Definition slice0 (s : string) (n : nat) : string := substring 0 n s.

(** The year of [Date.prototype.toISOString]: four digits between 0 and
    9999, otherwise a sign and six digits. *)
Definition isoYear (y : Z) : string :=
  if (0 <=? y) && (y <=? 9999) then fixedDec 4 y
  else if y <? 0 then "-" ++ fixedDec 6 (- y)
  else "+" ++ fixedDec 6 y.

Definition toISOString (t : Z) : string :=
  isoYear (YearFromTime t) ++ "-" ++ fixedDec 2 (MonthFromTime t + 1) ++ "-"
    ++ fixedDec 2 (DateFromTime t) ++ "T" ++ fixedDec 2 (HourFromTime t)
    ++ ":" ++ fixedDec 2 (MinFromTime t) ++ ":" ++ fixedDec 2 (SecFromTime t)
    ++ "." ++ fixedDec 3 (msFromTime t) ++ "Z".

End JSString.

(** ** Insertion-ordered maps and stable sorting

    A JavaScript [Map] iterates in insertion order, and
    [Array.prototype.sort] is stable: an association list and an insertion
    sort that keeps equal elements in their order. *)

Module JSArray.

Section Sort.
Context {A : Type}.
(** The comparator: negative when the first argument goes first. *)
Variable compareFn : A -> A -> Z.

Fixpoint insertSorted (x : A) (l : list A) : list A :=
  match l with
  | [] => [x]
  | y :: l' =>
      if compareFn x y <=? 0 then x :: y :: l'
      else y :: insertSorted x l'
  end.

Definition sort (l : list A) : list A := fold_right insertSorted [] l.
End Sort.

(** [new Set(l).size]. *)
Definition setSize (l : list string) : Z :=
  Z.of_nat (List.length (nodup string_dec l)).

End JSArray.

(** ** The stats service *)

Module Stats.
Import JSDate JSString JSArray.

(** [new Date(Date.UTC(d.getUTCFullYear(), d.getUTCMonth(),
    d.getUTCDate()))] for a valid date [d]. *)
Definition normalizeDate (d : Z) : Z :=
  DateUTC (getUTCFullYear d) (getUTCMonth d) (getUTCDate d).

(** An ISO date string handed to [normalizeDay] is represented by the time
    value [new Date(iso)] parses it to, [None] when it does not parse; for
    a valid date [d], [d.toISOString()] parses back to [d], so
    [normalizeDay(d.toISOString())] is [normalizeDay (Some d)], which
    returns [normalizeDate d]. *)
Definition normalizeDay (iso : TimeValue) : Exc Z :=
  match iso with
  | None => throw (BadRequestException "date inválida")
  | Some d => ret (normalizeDate d)
  end.

(** [d.toISOString()], which throws a [RangeError] on an invalid date. *)
Definition isoOf (d : TimeValue) : Exc TimeValue :=
  match d with
  | None => throw RangeError
  | Some t => ret (Some t)
  end.

Inductive Period : Type := day | week | month.

(** [GoalRangeDto] and [ActivityMetricsDto]: an absent or empty [from] or
    [to] is [None]. *)
Record RangeDto : Type := {
  q_from : option TimeValue;
  q_to : option TimeValue;
  q_period : option Period
}.

Record DateRange : Type := { from : Z; to : Z }.

Definition resolveFrom (now : Z) (q : RangeDto) : Exc Z :=
  let defaultFrom := setUTCDate now (getUTCDate now - 30) in
  match q_from q with
  | Some iso => normalizeDay iso
  | None => do iso <- isoOf defaultFrom; normalizeDay iso
  end.

Definition resolveTo (now : Z) (q : RangeDto) : Exc Z :=
  match q_to q with
  | Some iso => normalizeDay iso
  | None => normalizeDay (Some now)
  end.

(** [now] is the clock reading of [new Date()]. *)
Definition resolveRange (now : Z) (q : RangeDto) : Exc DateRange :=
  do from <- resolveFrom now q;
  do to <- resolveTo now q;
  if from >? to then throw (ForbiddenException "from debe ser <= to")
  else ret {| from := from; to := to |}.

Inductive GoalTargetType : Type := DAILY | BOOLEAN | COUNT | WEEKLY.

(** Rows of the store.  A date is the time value of a valid [Date]; the
    value of a check-in and the target value of a goal are integral
    counts, absent when null. *)
Record Goal : Type := {
  goal_id : string;
  goal_userId : string;
  targetType : GoalTargetType;
  targetValue : option Z;
  startDate : Z;
  endDate : option Z
}.

Record GoalCheckin : Type := {
  gc_goalId : string;
  gc_userId : string;
  gc_date : Z;
  gc_done : bool;
  gc_value : option Z
}.

Record StreakCheckin : Type := {
  sc_streakId : string;
  sc_userId : string;
  sc_date : Z;
  sc_done : bool
}.

Definition getOwnedGoal (goals : list Goal) (userId goalId : string)
  : Exc Goal :=
  match find (fun g => String.eqb (goal_id g) goalId) goals with
  | None => throw (NotFoundException "Goal no encontrada")
  | Some goal =>
      if negb (String.eqb (goal_userId goal) userId)
      then throw (ForbiddenException EmptyString)
      else ret goal
  end.

(** [c.value ?? 0]. *)
Definition valueOr0 (c : GoalCheckin) : Z :=
  match gc_value c with Some v => v | None => 0 end.

(** [c.done || (c.value ?? 0) > 0]. *)
Definition isActive (c : GoalCheckin) : bool :=
  gc_done c || (valueOr0 c >? 0).

Definition inRange (r : DateRange) (d : Z) : bool :=
  (from r <=? d) && (d <=? to r).

Record GoalProgress : Type := {
  gp_goalId : string;
  gp_targetType : GoalTargetType;
  gp_targetValue : option Z;
  gp_from : Z;
  gp_to : Z;
  totalCheckins : Z;
  doneCount : Z;
  valueSum : Z;
  completion : option Q
}.

Definition MS_PER_DAY : Z := 24 * 60 * 60 * 1000.

(** [Math.floor(diffMs / MS_PER_DAY) + 1] of lines 88-89. *)
Definition daysBetweenInclusive (goalStart goalEnd : Z) : Z :=
  let diffMs := goalEnd - goalStart in
  diffMs / MS_PER_DAY + 1.

Definition doneDaysOf (doneCheckins : list GoalCheckin) : Z :=
  setSize (map (fun c => toISOString (normalizeDate (gc_date c)))
               doneCheckins).

Definition completionOf (goal : Goal) (to : Z) (doneDays valueSum : Z)
  : option Q :=
  let target := targetValue goal in
  match targetType goal with
  | DAILY =>
      let goalStart := normalizeDate (startDate goal) in
      let rawEnd := match endDate goal with Some e => e | None => to end in
      let goalEnd := normalizeDate rawEnd in
      if goalEnd >=? goalStart then
        let totalDays := daysBetweenInclusive goalStart goalEnd in
        if totalDays >? 0 then
          let clampedDone := Z.min doneDays totalDays in
          Some (inject_Z clampedDone / inject_Z totalDays)%Q
        else None
      else None
  | _ =>
      match target with
      | Some target =>
          if target >? 0
          then Some (Qmin 1 (inject_Z valueSum / inject_Z target))%Q
          else None
      | None => None
      end
  end.

(** [goalCheckin.findMany] with [where: { goalId, userId, date: { gte:
    from, lte: to } }]. *)
Definition findGoalCheckins (goalCheckin : list GoalCheckin)
  (goalId userId : string) (r : DateRange) : list GoalCheckin :=
  filter (fun c => String.eqb (gc_goalId c) goalId
                   && String.eqb (gc_userId c) userId
                   && inRange r (gc_date c)) goalCheckin.

Definition goalProgress (now : Z) (goals : list Goal)
  (goalCheckin : list GoalCheckin) (userId goalId : string) (q : RangeDto)
  : Exc GoalProgress :=
  do goal <- getOwnedGoal goals userId goalId;
  do r <- resolveRange now q;
  let checkins := findGoalCheckins goalCheckin goalId userId r in
  let total := Z.of_nat (List.length checkins) in
  let doneCheckins := filter isActive checkins in
  let doneCount := Z.of_nat (List.length doneCheckins) in
  let valueSum := fold_left (fun acc c => acc + valueOr0 c) checkins 0 in
  let doneDays := doneDaysOf doneCheckins in
  ret {| gp_goalId := goalId;
         gp_targetType := targetType goal;
         gp_targetValue := targetValue goal;
         gp_from := from r;
         gp_to := to r;
         totalCheckins := total;
         doneCount := doneCount;
         valueSum := valueSum;
         completion := completionOf goal (to r) doneDays valueSum |}.

Definition bucketKey (d : Z) (period : Period) : string :=
  match period with
  | day => slice0 (toISOString d) 10
  | month =>
      numberToString (getUTCFullYear d) ++ "-"
        ++ padStart (numberToString (getUTCMonth d + 1)) 2 "0"
  | week =>
      let dayNum := (getUTCDay d + 6) mod 7 in
      let weekStart :=
        DateUTC (getUTCFullYear d) (getUTCMonth d) (getUTCDate d - dayNum) in
      let firstThursday := DateUTC (getUTCFullYear weekStart) 0 4 in
      let weekNumber :=
        (weekStart - firstThursday) / (7 * 24 * 60 * 60 * 1000) + 1 in
      numberToString (getUTCFullYear weekStart) ++ "-W"
        ++ padStart (numberToString weekNumber) 2 "0"
  end.

Record Bucket : Type := {
  key : string;
  goalCheckins : Z;
  streakCheckins : Z;
  total : Z
}.

(** The [buckets] map, in insertion order. *)
Definition Buckets : Type := list Bucket.

Definition has (buckets : Buckets) (k : string) : bool :=
  existsb (fun b => String.eqb (key b) k) buckets.

Definition upsertBucket (k : string) (buckets : Buckets) : Buckets :=
  if negb (has buckets k)
  then (buckets ++ [{| key := k; goalCheckins := 0; streakCheckins := 0;
                       total := 0 |}])%list
  else buckets.

(** Mutation of the bucket object stored under [k]. *)
Definition modify (k : string) (f : Bucket -> Bucket) (buckets : Buckets)
  : Buckets :=
  map (fun b => if String.eqb (key b) k then f b else b) buckets.

Definition addGoalCheckin (period : Period) (buckets : Buckets)
  (c : GoalCheckin) : Buckets :=
  let day := normalizeDate (gc_date c) in
  let k := bucketKey day period in
  let buckets := upsertBucket k buckets in
  modify k (fun bucket =>
    let g := goalCheckins bucket + (if isActive c then 1 else 0) in
    {| key := key bucket; goalCheckins := g;
       streakCheckins := streakCheckins bucket;
       total := g + streakCheckins bucket |}) buckets.

Definition addStreakCheckin (period : Period) (buckets : Buckets)
  (c : StreakCheckin) : Buckets :=
  let day := normalizeDate (sc_date c) in
  let k := bucketKey day period in
  let buckets := upsertBucket k buckets in
  modify k (fun bucket =>
    let s := streakCheckins bucket + 1 in
    {| key := key bucket; goalCheckins := goalCheckins bucket;
       streakCheckins := s;
       total := goalCheckins bucket + s |}) buckets.

Record ActivityMetrics : Type := {
  am_period : Period;
  am_from : Z;
  am_to : Z;
  buckets : list Bucket
}.

Section ActivityMetrics.
(** [String.prototype.localeCompare], whose order is that of the host's
    collation. *)
Variable localeCompare : string -> string -> Z.

Definition activityMetrics (now : Z) (goalCheckin : list GoalCheckin)
  (streakCheckin : list StreakCheckin) (userId : string) (q : RangeDto)
  : Exc ActivityMetrics :=
  do r <- resolveRange now q;
  let period := match q_period q with Some p => p | None => day end in
  let goalCheckins :=
    filter (fun c => String.eqb (gc_userId c) userId
                     && inRange r (gc_date c)) goalCheckin in
  let streakCheckins :=
    filter (fun c => String.eqb (sc_userId c) userId
                     && inRange r (sc_date c) && sc_done c)
           streakCheckin in
  let buckets := fold_left (addGoalCheckin period) goalCheckins [] in
  let buckets := fold_left (addStreakCheckin period) streakCheckins buckets in
  let items :=
    sort (fun a b => localeCompare (key a) (key b)) buckets in
  ret {| am_period := period; am_from := from r; am_to := to r;
         buckets := items |}.
End ActivityMetrics.

End Stats.

(** ** The streaks service: run statistics of a member *)

Module Streaks.
Import JSDate JSArray.

Definition normalizeDate : Z -> Z := Stats.normalizeDate.

Record StreakMember : Type := {
  sm_streakId : string;
  sm_userId : string
}.

Record StreakStats : Type := {
  st_userId : string;
  current : Z;
  longest : Z;
  totalDone : Z
}.

(** The loop variables [longest], [current] and [prev]. *)
Record RunState : Type := {
  rs_longest : Z;
  rs_current : Z;
  rs_prev : option Z
}.

Definition initial : RunState :=
  {| rs_longest := 0; rs_current := 0; rs_prev := None |}.

(** One iteration of the loop over [rows]. *)
Definition step (s : RunState) (r : Z) : RunState :=
  let d := normalizeDate r in
  let current :=
    match rs_prev s with
    | None => 1
    | Some prev =>
        let diff := (inject_Z (d - prev) / inject_Z (1000 * 60 * 60 * 24))%Q in
        if Qeq_bool diff 1 then rs_current s + 1 else 1
    end in
  {| rs_longest := Z.max (rs_longest s) current;
     rs_current := current;
     rs_prev := Some d |}.

(** The run tracker: the loop of [statsForMember] over the dates of
    [rows], and the object it returns. *)
Definition runTracker (targetUser : string) (rows : list Z) : StreakStats :=
  let s := fold_left step rows initial in
  {| st_userId := targetUser;
     current := rs_current s;
     longest := rs_longest s;
     totalDone := Z.of_nat (List.length rows) |}.

Definition statsForMember (streakMember : list StreakMember)
  (streakCheckin : list Stats.StreakCheckin)
  (userId streakId : string) (memberUserId : option string)
  : Exc StreakStats :=
  if negb (existsb (fun m => String.eqb (sm_streakId m) streakId
                            && String.eqb (sm_userId m) userId) streakMember)
  then throw (ForbiddenException EmptyString)
  else
    let targetUser :=
      match memberUserId with Some u => u | None => userId end in
    let rows :=
      sort (fun a b => Stats.sc_date a - Stats.sc_date b)
        (filter (fun c => String.eqb (Stats.sc_streakId c) streakId
                          && String.eqb (Stats.sc_userId c) targetUser
                          && Stats.sc_done c) streakCheckin) in
    ret (runTracker targetUser (map Stats.sc_date rows)).

End Streaks.

(** ** The rankings service *)

Module Rankings.
Import JSArray.

Record Metadata : Type := { label : option string }.

Record ComputeRankingDto : Type := {
  dto_period : string;
  dto_from : Z;
  dto_to : Z;
  dto_metadata : option Metadata
}.

(** A row of a [groupBy userId] query with [_count._all]. *)
Record AggRow : Type := { agg_userId : string; agg_count : Z }.

Record RankingEntry : Type := {
  period : string;
  userId : string;
  score : Z;
  extra : option Metadata
}.

Inductive NotificationType : Type := RANKING_TOP3 | RANKING_RESULT.

Record Payload : Type := {
  p_period : string;
  p_rank : Z;
  p_score : Z;
  p_totalUsers : Z;
  p_label : option string
}.

Record Notification : Type := {
  n_type : NotificationType;
  n_payload : Payload
}.

(** The store and the notification sink: the [rankingEntry] table, and the
    calls of [createForUser] made so far, in order. *)
Record World : Type := {
  rankingEntry : list RankingEntry;
  dispatched : list (string * Notification)
}.

Inductive ComputeResult : Type :=
| Empty (period : string)
| Ranked (period : string) (from to : Z) (totalUsers : Z)
         (rankings : list RankingEntry).

(** [scoresMap]: a [Map<string, number>] in insertion order. *)
Definition ScoresMap : Type := list (string * Z).

Fixpoint get (m : ScoresMap) (k : string) : option Z :=
  match m with
  | [] => None
  | (k', v) :: m' => if String.eqb k' k then Some v else get m' k
  end.

Fixpoint set (m : ScoresMap) (k : string) (v : Z) : ScoresMap :=
  match m with
  | [] => [(k, v)]
  | (k', v') :: m' =>
      if String.eqb k' k then (k', v) :: m' else (k', v') :: set m' k v
  end.

Definition addRow (scoresMap : ScoresMap) (row : AggRow) : ScoresMap :=
  let prev := match get scoresMap (agg_userId row) with
              | Some p => p
              | None => 0
              end in
  set scoresMap (agg_userId row) (prev + agg_count row).

Definition scoresOf (goalAgg streakAgg : list AggRow) : ScoresMap :=
  fold_left addRow streakAgg (fold_left addRow goalAgg []).

Definition deleteMany (p : string) (table : list RankingEntry)
  : list RankingEntry :=
  filter (fun e => negb (String.eqb (period e) p)) table.

Definition createMany (table data : list RankingEntry) : list RankingEntry :=
  (table ++ data)%list.

(** [findMany] with [where: { period }] and [orderBy: { score: 'desc' }];
    rows of equal score come in the order of the table. *)
Definition findMany (p : string) (table : list RankingEntry)
  : list RankingEntry :=
  sort (fun a b => score b - score a)
       (filter (fun e => String.eqb (period e) p) table).

Definition entriesDataOf (dto : ComputeRankingDto) (scoresMap : ScoresMap)
  : list RankingEntry :=
  map (fun '(userId, score) =>
         {| period := dto_period dto; userId := userId; score := score;
            extra := dto_metadata dto |})
      (filter (fun '(_, score) => score >? 0) scoresMap).

Fixpoint mapIndexed {A B : Type} (f : A -> Z -> B) (index : Z) (l : list A)
  : list B :=
  match l with
  | [] => []
  | x :: l' => f x index :: mapIndexed f (index + 1) l'
  end.

Definition notificationFor (dto : ComputeRankingDto) (totalUsers : Z)
  (entry : RankingEntry) (index : Z) : string * Notification :=
  let rank := index + 1 in
  let isTop3 := rank <=? 3 in
  (userId entry,
   {| n_type := if isTop3 then RANKING_TOP3 else RANKING_RESULT;
      n_payload :=
        {| p_period := dto_period dto;
           p_rank := rank;
           p_score := score entry;
           p_totalUsers := totalUsers;
           p_label := match dto_metadata dto with
                      | Some m => label m
                      | None => None
                      end |} |}).

Section Compute.
(** Whether the promise of [notifications.createForUser(userId, n)]
    fulfils; the notifications service is a collaborator whose code is
    not part of the computation. *)
Variable createForUser : string -> Notification -> bool.
(** [setHours(23, 59, 59, 999)] of a date, in the host's time zone. *)
Variable endOfLocalDay : Z -> Z.

(** [Promise.all] over the promises of the calls in [calls]: every call
    has been made when it is awaited, and it rejects when one of them
    does. *)
Definition promiseAll (calls : list (string * Notification)) : Exc unit :=
  if forallb (fun c => createForUser (fst c) (snd c)) calls
  then ret tt
  else throw DispatchRejected.

Definition compute (dto : ComputeRankingDto)
  (goalAgg streakAgg : list AggRow) (w : World)
  : World * Exc ComputeResult :=
  let from := dto_from dto in
  let toInclusive := endOfLocalDay (dto_to dto) in
  let scoresMap := scoresOf goalAgg streakAgg in
  let table := deleteMany (dto_period dto) (rankingEntry w) in
  let entriesData := entriesDataOf dto scoresMap in
  if (List.length entriesData =? 0)%nat then
    ({| rankingEntry := table; dispatched := dispatched w |},
     ret (Empty (dto_period dto)))
  else
    let table := createMany table entriesData in
    let rankings := findMany (dto_period dto) table in
    let totalUsers := Z.of_nat (List.length rankings) in
    let calls := mapIndexed (notificationFor dto totalUsers) 0 rankings in
    let w' := {| rankingEntry := table;
                 dispatched := (dispatched w ++ calls)%list |} in
    (w',
     do _ <- promiseAll calls;
     ret (Ranked (dto_period dto) from toInclusive totalUsers rankings)).
End Compute.

End Rankings.

(** ** The stats service: heat maps and the parts of the week key *)

Module StatsQueries.
Import JSDate JSString JSArray Stats.

Definition assertStreakMember (streakMember : list Streaks.StreakMember)
  (userId streakId : string) : Exc Streaks.StreakMember :=
  match find (fun m => String.eqb (Streaks.sm_streakId m) streakId
                       && String.eqb (Streaks.sm_userId m) userId)
             streakMember with
  | None => throw (ForbiddenException "No eres miembro de esta racha")
  | Some member => ret member
  end.

(** A row of a [groupBy date] query with [_count._all]. *)
Record DateCount : Type := { g_date : Z; g_count : Z }.

(** One more record of date [d]: its group is counted up, or opened. *)
Fixpoint countDate (groups : list DateCount) (d : Z) : list DateCount :=
  match groups with
  | [] => [{| g_date := d; g_count := 1 |}]
  | g :: groups' =>
      if g_date g =? d
      then {| g_date := d; g_count := g_count g + 1 |} :: groups'
      else g :: countDate groups' d
  end.

(** [groupBy({ by: ['date'], _count: { _all: true } })] over records of
    the given dates; the groups come in the order their dates first
    occur (the store's order is not specified). *)
Definition groupByDate (dates : list Z) : list DateCount :=
  fold_left countDate dates [].

Record HeatmapCell : Type := { hm_date : string; hm_count : Z }.

Section Heatmap.
Variable localeCompare : string -> string -> Z.

(** [rows.map(...).sort((a, b) => a.date.localeCompare(b.date))]. *)
Definition heatmapOf (rows : list DateCount) : list HeatmapCell :=
  sort (fun a b => localeCompare (hm_date a) (hm_date b))
    (map (fun r => {| hm_date := toISOString (normalizeDate (g_date r));
                      hm_count := g_count r |}) rows).

Definition goalHeatmap (now : Z) (goals : list Goal)
  (goalCheckin : list GoalCheckin) (userId goalId : string) (q : RangeDto)
  : Exc (list HeatmapCell) :=
  do _ <- getOwnedGoal goals userId goalId;
  do r <- resolveRange now q;
  let rows :=
    groupByDate (map gc_date (findGoalCheckins goalCheckin goalId userId r)) in
  ret (heatmapOf rows).

(** The records [streakHeatmap] groups: those of the streak and the user
    in the range with [done: true]. *)
Definition findDoneStreakCheckins (streakCheckin : list StreakCheckin)
  (streakId userId : string) (r : DateRange) : list StreakCheckin :=
  filter (fun c => String.eqb (sc_streakId c) streakId
                   && String.eqb (sc_userId c) userId
                   && inRange r (sc_date c) && sc_done c) streakCheckin.

Definition streakHeatmap (now : Z) (streakMember : list Streaks.StreakMember)
  (streakCheckin : list StreakCheckin) (userId streakId : string)
  (q : RangeDto) : Exc (list HeatmapCell) :=
  do _ <- assertStreakMember streakMember userId streakId;
  do r <- resolveRange now q;
  let rows :=
    groupByDate
      (map sc_date (findDoneStreakCheckins streakCheckin streakId userId r)) in
  ret (heatmapOf rows).
End Heatmap.

(** The week start and the week number that [bucketKey] computes for the
    period [week] (its lines 179 to 182). *)
Definition weekStartOf (d : Z) : Z :=
  let dayNum := (getUTCDay d + 6) mod 7 in
  DateUTC (getUTCFullYear d) (getUTCMonth d) (getUTCDate d - dayNum).

Definition weekNumberOf (d : Z) : Z :=
  let weekStart := weekStartOf d in
  let firstThursday := DateUTC (getUTCFullYear weekStart) 0 4 in
  (weekStart - firstThursday) / (7 * 24 * 60 * 60 * 1000) + 1.

(** The records [activityMetrics] reads. *)
Definition metricsGoalRows (goalCheckin : list GoalCheckin) (userId : string)
  (r : DateRange) : list GoalCheckin :=
  filter (fun c => String.eqb (gc_userId c) userId
                   && inRange r (gc_date c)) goalCheckin.

Definition metricsStreakRows (streakCheckin : list StreakCheckin)
  (userId : string) (r : DateRange) : list StreakCheckin :=
  filter (fun c => String.eqb (sc_userId c) userId
                   && inRange r (sc_date c) && sc_done c) streakCheckin.

End StatsQueries.

(** ** The rankings service: listing a leaderboard *)

Module RankingsQueries.
Import JSArray Rankings.

(** [ListRankingsDto]; [limit] is a count of entries, absent when the
    request gives none. *)
Record ListRankingsDto : Type := {
  lq_period : string;
  lq_limit : option nat
}.

Record ListResult : Type := {
  lr_period : string;
  lr_totalUsers : Z;
  lr_rankings : list RankingEntry
}.

(** [findMany] with [take: q.limit ?? undefined]. *)
Definition findManyTake (p : string) (take : option nat)
  (table : list RankingEntry) : list RankingEntry :=
  match take with
  | Some n => firstn n (findMany p table)
  | None => findMany p table
  end.

(** [RankingsService.list]. *)
Definition listRankings (q : ListRankingsDto) (w : World) : ListResult :=
  let rankings := findManyTake (lq_period q) (lq_limit q) (rankingEntry w) in
  {| lr_period := lq_period q;
     lr_totalUsers := Z.of_nat (List.length rankings);
     lr_rankings := rankings |}.

End RankingsQueries.

(** ** The streaks service: streaks, members and check-ins

    The tables of the store are lists of rows in insertion order.  A row
    of [streakMember] is identified by its unique key [(streakId, userId)]
    and a row of [streakCheckin] by its unique key
    [(streakId, userId, date)], the keys the service looks rows up by; the
    [metadata] of a check-in, which no computation reads, is left out. *)

Module StreaksOps.
Import JSDate Stats.

Inductive Role : Type := OWNER | MEMBER.

Record Streak : Type := {
  s_id : string;
  s_title : string;
  s_description : option string;
  s_startDate : Z;
  s_endDate : option Z;
  s_createdById : string
}.

Record Member : Type := {
  m_streakId : string;
  m_userId : string;
  m_role : Role
}.

Record ChatRoom : Type := { room_id : string; room_streakId : string }.
Record ChatMember : Type := { cm_roomId : string; cm_userId : string }.

Record Db : Type := {
  db_streak : list Streak;
  db_streakMember : list Member;
  db_streakCheckin : list StreakCheckin;
  db_chatRoom : list ChatRoom;
  db_chatMember : list ChatMember;
  db_user : list string
}.

Record CreateStreakDto : Type := {
  cs_title : string;
  cs_description : option string;
  cs_startDate : TimeValue;
  cs_endDate : option TimeValue
}.

Record RecordStreakCheckinDto : Type := {
  rc_date : TimeValue;
  rc_done : option bool
}.

Definition assertOwner (userId : string) (streak : Streak) : Exc unit :=
  if negb (String.eqb (s_createdById streak) userId)
  then throw (ForbiddenException
                "Solo el creador puede realizar esta acción")
  else ret tt.

(** [streak.findUnique({ where: { id } })]. *)
Definition findStreak (db : Db) (streakId : string) : option Streak :=
  find (fun s => String.eqb (s_id s) streakId) (db_streak db).

Definition isMemberRow (streakId userId : string) (m : Member) : bool :=
  String.eqb (m_streakId m) streakId && String.eqb (m_userId m) userId.

(** [streakMember.findUnique({ where: { streakId_userId } })]. *)
Definition findMember (db : Db) (streakId userId : string) : option Member :=
  find (isMemberRow streakId userId) (db_streakMember db).

Definition withMembers (db : Db) (members : list Member) : Db :=
  {| db_streak := db_streak db; db_streakMember := members;
     db_streakCheckin := db_streakCheckin db; db_chatRoom := db_chatRoom db;
     db_chatMember := db_chatMember db; db_user := db_user db |}.

Definition withCheckins (db : Db) (checkins : list StreakCheckin) : Db :=
  {| db_streak := db_streak db; db_streakMember := db_streakMember db;
     db_streakCheckin := checkins; db_chatRoom := db_chatRoom db;
     db_chatMember := db_chatMember db; db_user := db_user db |}.

(** [create]; [newId] is the id the store gives the new streak. *)
Definition create (newId userId : string) (dto : CreateStreakDto) (db : Db)
  : Exc (Db * Streak) :=
  do start <- normalizeDay (cs_startDate dto);
  do end_ <- match cs_endDate dto with
             | Some iso => do e <- normalizeDay iso; ret (Some e)
             | None => ret None
             end;
  if match end_ with Some e => e <? start | None => false end
  then throw (BadRequestException "endDate debe ser >= startDate")
  else
    let streak :=
      {| s_id := newId; s_title := cs_title dto;
         s_description := cs_description dto; s_startDate := start;
         s_endDate := end_; s_createdById := userId |} in
    ret ({| db_streak := (db_streak db ++ [streak])%list;
            db_streakMember :=
              (db_streakMember db
               ++ [{| m_streakId := newId; m_userId := userId;
                      m_role := OWNER |}])%list;
            db_streakCheckin := db_streakCheckin db;
            db_chatRoom := db_chatRoom db;
            db_chatMember := db_chatMember db;
            db_user := db_user db |},
         streak).

Definition addMember (userId streakId dtoUserId : string) (db : Db)
  : Exc (Db * Member) :=
  match findStreak db streakId with
  | None => throw (NotFoundException "Streak no encontrada")
  | Some streak =>
      do _ <- assertOwner userId streak;
      match findMember db streakId dtoUserId with
      | Some _ => throw (BadRequestException "El usuario ya es miembro")
      | None =>
          let member := {| m_streakId := streakId; m_userId := dtoUserId;
                           m_role := MEMBER |} in
          ret (withMembers db (db_streakMember db ++ [member])%list, member)
      end
  end.

(** [streakMember.delete({ where: { id: member.id } })] for the member that
    [findUnique] gave: the first row of that key goes. *)
Fixpoint deleteMember (streakId userId : string) (members : list Member)
  : list Member :=
  match members with
  | [] => []
  | m :: members' =>
      if isMemberRow streakId userId m then members'
      else m :: deleteMember streakId userId members'
  end.

Definition removeMember (userId streakId memberUserId : string) (db : Db)
  : Exc (Db * Member) :=
  match findStreak db streakId with
  | None => throw (NotFoundException "Streak no encontrada")
  | Some streak =>
      do _ <- assertOwner userId streak;
      match findMember db streakId memberUserId with
      | None => throw (NotFoundException "Miembro no encontrado")
      | Some member =>
          ret (withMembers db
                 (deleteMember streakId memberUserId (db_streakMember db)),
               member)
      end
  end.

Definition isCheckinRow (streakId userId : string) (day : Z)
  (c : StreakCheckin) : bool :=
  String.eqb (sc_streakId c) streakId && String.eqb (sc_userId c) userId
  && (sc_date c =? day).

(** [streakCheckin.upsert] on the key [(streakId, userId, date)]: the row
    of that key gets the new [done], or a row is created. *)
Fixpoint upsert (streakId userId : string) (day : Z) (done : bool)
  (table : list StreakCheckin) : list StreakCheckin :=
  match table with
  | [] => [{| sc_streakId := streakId; sc_userId := userId; sc_date := day;
              sc_done := done |}]
  | c :: table' =>
      if isCheckinRow streakId userId day c
      then {| sc_streakId := sc_streakId c; sc_userId := sc_userId c;
              sc_date := sc_date c; sc_done := done |} :: table'
      else c :: upsert streakId userId day done table'
  end.

Definition recordCheckin (userId streakId : string)
  (dto : RecordStreakCheckinDto) (db : Db) : Exc (Db * StreakCheckin) :=
  match findStreak db streakId with
  | None => throw (NotFoundException "Streak no encontrada")
  | Some streak =>
      match findMember db streakId userId with
      | None => throw (ForbiddenException "No eres miembro de esta racha")
      | Some member =>
          do day <- normalizeDay (rc_date dto);
          let start := normalizeDate (s_startDate streak) in
          let end_ := option_map normalizeDate (s_endDate streak) in
          if day <? start
          then throw (BadRequestException "date antes de startDate")
          else if match end_ with Some e => day >? e | None => false end
          then throw (BadRequestException "date después de endDate")
          else
            let done := match rc_done dto with Some d => d | None => true end in
            ret (withCheckins db
                   (upsert streakId userId day done (db_streakCheckin db)),
                 {| sc_streakId := streakId; sc_userId := userId;
                    sc_date := day; sc_done := done |})
      end
  end.

(** The members as [statsForMember] reads them. *)
Definition memberKeys (db : Db) : list Streaks.StreakMember :=
  map (fun m => {| Streaks.sm_streakId := m_streakId m;
                   Streaks.sm_userId := m_userId m |}) (db_streakMember db).

Definition statsForMember (userId streakId : string)
  (memberUserId : option string) (db : Db) : Exc Streaks.StreakStats :=
  Streaks.statsForMember (memberKeys db) (db_streakCheckin db) userId streakId
    memberUserId.

Inductive Success : Type := success.

Section Invites.
(** [chatMember.create], which gives the new table or fails. *)
Variable chatMemberCreate :
  ChatMember -> list ChatMember -> option (list ChatMember).

(** [acceptInvite]; [now] is the clock reading of [new Date()]. *)
Definition acceptInvite (now : Z) (userId streakId : string) (db : Db)
  : Exc (Db * Success) :=
  match findStreak db streakId with
  | None => throw (NotFoundException "Streak no encontrada")
  | Some streak =>
      let alreadyMember :=
        existsb (fun m => String.eqb (m_userId m) userId)
          (filter (fun m => String.eqb (m_streakId m) streakId)
                  (db_streakMember db)) in
      if alreadyMember then ret (db, success)
      else if match s_endDate streak with
              | Some e => normalizeDate e <? normalizeDate now
              | None => false
              end
      then throw (BadRequestException "La racha ya terminó")
      else
        let db1 :=
          withMembers db
            (db_streakMember db
             ++ [{| m_streakId := streakId; m_userId := userId;
                    m_role := MEMBER |}])%list in
        let chat :=
          find (fun r => String.eqb (room_streakId r) streakId)
               (db_chatRoom db1) in
        let db2 :=
          match chat with
          | Some chat =>
              match chatMemberCreate
                      {| cm_roomId := room_id chat; cm_userId := userId |}
                      (db_chatMember db1) with
              | Some chatMembers =>
                  {| db_streak := db_streak db1;
                     db_streakMember := db_streakMember db1;
                     db_streakCheckin := db_streakCheckin db1;
                     db_chatRoom := db_chatRoom db1;
                     db_chatMember := chatMembers;
                     db_user := db_user db1 |}
              | None => db1
              end
          | None => db1
          end in
        ret (db2, success)
  end.
End Invites.

Definition rejectInvite (userId streakId : string) (db : Db) : Exc Success :=
  match findMember db streakId userId with
  | Some _ => throw (BadRequestException "Ya eres miembro de esta racha")
  | None => ret success
  end.

End StreaksOps.

(** ** The goals service

    A goal row carries the columns the statistics read ([Stats.Goal]) and
    its title, description, category and archive flag.  A field of an
    update request is [Undefined] when absent, [Null] when given as
    [null]; a date string of a request is empty or has the time value it
    parses to. *)

Module Goals.
Import JSDate Stats.

Inductive Patch (A : Type) : Type :=
| Undefined
| Null
| Value (a : A).
Arguments Undefined {A}.
Arguments Null {A}.
Arguments Value {A} a.

Inductive IsoText : Type :=
| EmptyText
| Text (parsed : TimeValue).

(** [new Date(s)] for a date string [s]. *)
Definition parse (s : IsoText) : TimeValue :=
  match s with
  | EmptyText => None
  | Text t => t
  end.

(** Whether a string is truthy. *)
Definition given (s : IsoText) : bool :=
  match s with
  | EmptyText => false
  | Text _ => true
  end.

Record GoalRow : Type := {
  g_core : Goal;
  g_title : string;
  g_description : option string;
  g_categoryId : option string;
  g_isArchived : bool
}.

Record CreateGoalDto : Type := {
  cg_title : string;
  cg_description : option string;
  cg_categoryId : Patch string;
  cg_targetType : GoalTargetType;
  cg_targetValue : Patch Z;
  cg_startDate : IsoText;
  cg_endDate : Patch IsoText;
  cg_isArchived : option bool
}.

Record UpdateGoalDto : Type := {
  ug_title : option string;
  ug_description : option string;
  ug_categoryId : Patch string;
  ug_targetType : option GoalTargetType;
  ug_targetValue : Patch Z;
  ug_startDate : option IsoText;
  ug_endDate : Patch IsoText;
  ug_isArchived : option bool
}.

(** [x ?? undefined]. *)
Definition definedValue {A : Type} (p : Patch A) : option A :=
  match p with
  | Value a => Some a
  | _ => None
  end.

Definition validateDates (startdate : IsoText) (enddate : option IsoText)
  : Exc unit :=
  match parse startdate with
  | None => throw (BadRequestException "startDate inválida")
  | Some start =>
      match enddate with
      | Some e =>
          if given e then
            match parse e with
            | None => throw (BadRequestException "endDate inválida")
            | Some end_ =>
                if end_ <? start
                then throw (BadRequestException
                              "endDate debe ser >= startDate")
                else ret tt
            end
          else ret tt
      | None => ret tt
      end
  end.

Definition validateTarget (type : GoalTargetType) (val : option Z)
  : Exc unit :=
  let needs := match type with COUNT | WEEKLY => true | _ => false end in
  let missing := match val with
                 | Some v => (v =? 0) || (v <? 1)
                 | None => true
                 end in
  if needs && missing
  then throw (BadRequestException
                "targetValue requerido y >= 1 para COUNT/WEEKLY")
  else ret tt.

(** [if (dto.categoryId) { ... findUnique ... }]. *)
Definition checkCategory (categories : list string) (categoryId : Patch string)
  : Exc unit :=
  match categoryId with
  | Value c =>
      if negb (String.eqb c EmptyString)
      then if existsb (String.eqb c) categories then ret tt
           else throw (BadRequestException "categoryId inválido")
      else ret tt
  | _ => ret tt
  end.

(** The end date [create] stores:
    [dto.endDate ? new Date(dto.endDate) : null]. *)
Definition newEndDate (endDate : Patch IsoText) : option Z :=
  match endDate with
  | Value e => if given e then parse e else None
  | _ => None
  end.

(** [create]; [newId] is the id the store gives the goal.  A start date
    that passed [validateDates] has a time value. *)
Definition create (categories : list string) (newId userId : string)
  (dto : CreateGoalDto) (goals : list GoalRow) : Exc (list GoalRow * GoalRow) :=
  do _ <- validateDates (cg_startDate dto) (definedValue (cg_endDate dto));
  do _ <- validateTarget (cg_targetType dto)
            (definedValue (cg_targetValue dto));
  do _ <- checkCategory categories (cg_categoryId dto);
  match parse (cg_startDate dto) with
  | None => throw (BadRequestException "startDate inválida")
  | Some start =>
      let goal :=
        {| g_core :=
             {| goal_id := newId; goal_userId := userId;
                targetType := cg_targetType dto;
                targetValue := definedValue (cg_targetValue dto);
                startDate := start;
                endDate := newEndDate (cg_endDate dto) |};
           g_title := cg_title dto;
           g_description := cg_description dto;
           g_categoryId := definedValue (cg_categoryId dto);
           g_isArchived :=
             match cg_isArchived dto with Some a => a | None => false end |} in
      ret ((goals ++ [goal])%list, goal)
  end.

(** A patched column: [x === null ? null : x ?? undefined], [None]
    standing for [null] and [keep] for [undefined]. *)
Definition patched {A : Type} (p : Patch A) (keep : option A) : option A :=
  match p with
  | Undefined => keep
  | Null => None
  | Value a => Some a
  end.

(** The row of id [id] replaced by [row]. *)
Definition replaceGoal (id : string) (row : GoalRow) (goals : list GoalRow)
  : list GoalRow :=
  map (fun g => if String.eqb (goal_id (g_core g)) id then row else g) goals.

Definition update (categories : list string) (userId id : string)
  (dto : UpdateGoalDto) (goals : list GoalRow)
  : Exc (list GoalRow * GoalRow) :=
  match find (fun g => String.eqb (goal_id (g_core g)) id) goals with
  | None => throw (NotFoundException "Goal no encontrada")
  | Some currenGoal =>
      let cur := g_core currenGoal in
      if negb (String.eqb (goal_userId cur) userId)
      then throw (ForbiddenException EmptyString)
      else
        let startIso :=
          match ug_startDate dto with
          | Some s => s
          | None => Text (Some (startDate cur))
          end in
        let endIso :=
          match ug_endDate dto with
          | Value e => Some e
          | _ => option_map (fun e => Text (Some e)) (endDate cur)
          end in
        do _ <- validateDates startIso endIso;
        let type := match ug_targetType dto with
                    | Some t => t
                    | None => targetType cur
                    end in
        let val := match ug_targetValue dto with
                   | Value v => Some v
                   | _ => targetValue cur
                   end in
        do _ <- validateTarget type val;
        do _ <- checkCategory categories (ug_categoryId dto);
        let row :=
          {| g_core :=
               {| goal_id := goal_id cur; goal_userId := goal_userId cur;
                  targetType := type;
                  targetValue := patched (ug_targetValue dto) (targetValue cur);
                  startDate :=
                    match ug_startDate dto with
                    | Some s =>
                        if given s
                        then match parse s with
                             | Some t => t
                             | None => startDate cur
                             end
                        else startDate cur
                    | None => startDate cur
                    end;
                  endDate :=
                    match ug_endDate dto with
                    | Null => None
                    | Value e => if given e then parse e else endDate cur
                    | Undefined => endDate cur
                    end |};
             g_title := match ug_title dto with
                        | Some t => t
                        | None => g_title currenGoal
                        end;
             g_description := match ug_description dto with
                              | Some d => Some d
                              | None => g_description currenGoal
                              end;
             g_categoryId := patched (ug_categoryId dto)
                               (g_categoryId currenGoal);
             g_isArchived := match ug_isArchived dto with
                             | Some a => a
                             | None => g_isArchived currenGoal
                             end |} in
        ret (replaceGoal id row goals, row)
  end.

(** [remove]: the goal is archived. *)
Definition remove (userId id : string) (goals : list GoalRow)
  : Exc (list GoalRow * GoalRow) :=
  match find (fun g => String.eqb (goal_id (g_core g)) id) goals with
  | None => throw (NotFoundException "Goal no encontrada")
  | Some current =>
      if negb (String.eqb (goal_userId (g_core current)) userId)
      then throw (ForbiddenException EmptyString)
      else
        let row := {| g_core := g_core current; g_title := g_title current;
                      g_description := g_description current;
                      g_categoryId := g_categoryId current;
                      g_isArchived := true |} in
        ret (replaceGoal id row goals, row)
  end.

End Goals.

(** ** The check-ins service

    A stored check-in is a [Stats.GoalCheckin] under its id.  The value
    of a request is absent, [null] or a number ([Goals.Patch]); so is
    the [done] of an update request, which the code tests against
    [undefined] only.  The store refuses a row that breaks a uniqueness
    constraint of the schema (error code P2002); which rows do is the
    section's variable [violatesUnique].  [normalizeDate] of the service
    is the same code as [Stats.normalizeDay]. *)

Module Checkins.
Import JSDate Stats.

Record CheckinRow : Type := {
  ci_id : string;
  ci_data : GoalCheckin
}.

(** [cc_date] is the time value of [new Date(dto.date)]. *)
Record CreateCheckinDto : Type := {
  cc_goalId : string;
  cc_date : TimeValue;
  cc_value : Goals.Patch Z;
  cc_done : option bool
}.

(** [uc_date] is [None] when the request has no date or a falsy one. *)
Record UpdateCheckinDto : Type := {
  uc_date : option TimeValue;
  uc_value : Goals.Patch Z;
  uc_done : Goals.Patch bool
}.

Definition needsValue (type : GoalTargetType) : bool :=
  match type with
  | COUNT | WEEKLY => true
  | _ => false
  end.

Definition validateAccordingToGoal (type : GoalTargetType)
  (value : Goals.Patch Z) : Exc unit :=
  if needsValue type then
    match value with
    | Goals.Undefined | Goals.Null =>
        throw (BadRequestException "value requerido para metas COUNT/WEEKLY")
    | Goals.Value v =>
        if v <? 1 then throw (BadRequestException "value debe ser >= 1")
        else ret tt
    end
  else
    match value with
    | Goals.Undefined => ret tt
    | _ => throw (BadRequestException
                    "value no aplica para metas DAILY/BOOLEAN")
    end.

(** The two window checks of [create] and [update]. *)
Definition checkWindow (goal : Goal) (date : Z) : Exc unit :=
  do goalStart <- normalizeDay (Some (startDate goal));
  if date <? goalStart then throw (BadRequestException "date antes de startDate")
  else
    match endDate goal with
    | Some e =>
        do goalEnd <- normalizeDay (Some e);
        if date >? goalEnd
        then throw (BadRequestException "date después de endDate")
        else ret tt
    | None => ret tt
    end.

(** [goal.targetValue] when it is truthy. *)
Definition targetOf (goal : Goal) : option Z :=
  match targetValue goal with
  | Some t => if t =? 0 then None else Some t
  | None => None
  end.

(** The number a value that is not [undefined] compares as: [null] as 0. *)
Definition comparedValue (value : Goals.Patch Z) : option Z :=
  match value with
  | Goals.Undefined => None
  | Goals.Null => Some 0
  | Goals.Value v => Some v
  end.

Definition findGoal (goals : list Goal) (id : string) : option Goal :=
  find (fun g => String.eqb (goal_id g) id) goals.

Definition findCheckin (table : list CheckinRow) (id : string)
  : option CheckinRow :=
  find (fun r => String.eqb (ci_id r) id) table.

Definition replaceCheckin (id : string) (row : CheckinRow)
  (table : list CheckinRow) : list CheckinRow :=
  map (fun r => if String.eqb (ci_id r) id then row else r) table.

Definition withoutCheckin (id : string) (table : list CheckinRow)
  : list CheckinRow :=
  filter (fun r => negb (String.eqb (ci_id r) id)) table.

Section Store.
Variable violatesUnique : list CheckinRow -> CheckinRow -> bool.

Definition create (newId userId : string) (dto : CreateCheckinDto)
  (goals : list Goal) (table : list CheckinRow)
  : Exc (list CheckinRow * CheckinRow) :=
  match findGoal goals (cc_goalId dto) with
  | None => throw (NotFoundException "Goal no encontrada")
  | Some goal =>
      if negb (String.eqb (goal_userId goal) userId)
      then throw (ForbiddenException EmptyString)
      else
        do date <- normalizeDay (cc_date dto);
        do _ <- checkWindow goal date;
        do _ <- validateAccordingToGoal (targetType goal) (cc_value dto);
        let computedDone :=
          if needsValue (targetType goal) then
            match targetOf goal, comparedValue (cc_value dto) with
            | Some target, Some v => v >=? target
            | _, _ => match cc_done dto with Some d => d | None => false end
            end
          else match cc_done dto with Some d => d | None => true end in
        let row :=
          {| ci_id := newId;
             ci_data := {| gc_goalId := cc_goalId dto; gc_userId := userId;
                           gc_date := date; gc_done := computedDone;
                           gc_value := Goals.definedValue (cc_value dto) |} |} in
        if violatesUnique table row
        then throw (BadRequestException "Ya existe un checkin para ese día")
        else ret ((table ++ [row])%list, row)
  end.

(** The error of the store when [done] is written as [null]: the column
    holds a boolean in every row, and the [catch] of [update] passes on
    every error that is not P2002. *)
Variable nullDone : Exception.

Definition update (userId id : string) (dto : UpdateCheckinDto)
  (goals : list Goal) (table : list CheckinRow)
  : Exc (list CheckinRow * CheckinRow) :=
  match findCheckin table id with
  | None => throw (NotFoundException "Checkin no encontrado")
  | Some current =>
      let cur := ci_data current in
      if negb (String.eqb (gc_userId cur) userId)
      then throw (ForbiddenException EmptyString)
      else
        match findGoal goals (gc_goalId cur) with
        | None => throw (NotFoundException "Goal no encontrada")
        | Some goal =>
            do _ <- validateAccordingToGoal (targetType goal) (uc_value dto);
            do nextDate <-
              match uc_date dto with
              | Some iso => do d <- normalizeDay iso; ret (Some d)
              | None => ret None
              end;
            (* a Date object is truthy *)
            do _ <- match nextDate with
                    | Some d => checkWindow goal d
                    | None => ret tt
                    end;
            (* [None]: null *)
            let computedDone :=
              match uc_done dto with
              | Goals.Value d => Some d
              | Goals.Null => None
              | Goals.Undefined =>
                  if needsValue (targetType goal) then
                    let value := match uc_value dto with
                                 | Goals.Value v => Some v
                                 | _ => gc_value cur
                                 end in
                    match value, targetOf goal with
                    | Some v, Some target => Some (v >=? target)
                    | _, _ => Some (gc_done cur)
                    end
                  else Some (gc_done cur)
              end in
            match computedDone with
            | None => throw nullDone
            | Some done =>
                let row :=
                  {| ci_id := id;
                     ci_data :=
                       {| gc_goalId := gc_goalId cur;
                          gc_userId := gc_userId cur;
                          gc_date := match nextDate with
                                     | Some d => d
                                     | None => gc_date cur
                                     end;
                          gc_done := done;
                          gc_value := Goals.patched (uc_value dto)
                                        (gc_value cur) |} |} in
                if violatesUnique (withoutCheckin id table) row
                then throw (BadRequestException
                              "Ya existe un checkin para ese día")
                else ret (replaceCheckin id row table, row)
            end
        end
  end.

End Store.

Definition remove (userId id : string) (table : list CheckinRow)
  : Exc (list CheckinRow * CheckinRow) :=
  match findCheckin table id with
  | None => throw (NotFoundException "Checkin no encontrado")
  | Some current =>
      if negb (String.eqb (gc_userId (ci_data current)) userId)
      then throw (ForbiddenException EmptyString)
      else ret (withoutCheckin id table, current)
  end.

End Checkins.

(** ** Notions of the specification *)

Module Notions.
Import JSDate.


(** The years [Date.UTC] reads as 1900 + year. *)
Definition twoDigitYear (y : Z) : Prop := 0 <= y <= 99.

(** A run: [len] consecutive calendar days from [first] on, all of them
    among [days]. *)
Definition isRun (days : list Z) (first len : Z) : Prop :=
  forall i, 0 <= i < len -> In (first + i * msPerDay) days.

(** [n] is the length of the longest run of consecutive calendar days. *)
Definition longestRun (days : list Z) (n : Z) : Prop :=
  (exists first, isRun days first n)
  /\ forall first len, isRun days first len -> len <= n.

(** [n] is the length of the run that ends at day [d]: the [n] days up to
    [d] are among [days], the day before them is not. *)
Definition runEndingAt (days : list Z) (d n : Z) : Prop :=
  1 <= n
  /\ isRun days (d - (n - 1) * msPerDay) n
  /\ ~ In (d - n * msPerDay) days.

(** A calendar day: a time value that [normalizeDay] returns unchanged. *)
Definition isCalendarDay (t : Z) : Prop := Stats.normalizeDate t = t.

(** Four days [D1], [D2], [D3], [D5] from 2024-01-01 on, [D4] missing. *)
Definition sampleDays : list Z :=
  [1704067200000; 1704153600000; 1704240000000; 1704412800000].

(** What the loop of the run tracker maintains, [days] being the days
    read so far. *)
Definition runInvariant (days : list Z) (s : Streaks.RunState) : Prop :=
  longestRun days (Streaks.rs_longest s)
  /\ match Streaks.rs_prev s with
     | None => days = [] /\ Streaks.rs_current s = 0
     | Some prev =>
         last days 0 = prev
         /\ Forall (fun x => x <= prev) days
         /\ runEndingAt days prev (Streaks.rs_current s)
     end.


(** A DAILY goal from 2024-01-01 to 2024-01-10, with active check-ins on
    its first seven days and an inactive one on the eighth, asked about for
    January 2024. *)
Definition dailyGoal : Stats.Goal :=
  {| Stats.goal_id := "g1"; Stats.goal_userId := "u1";
     Stats.targetType := Stats.DAILY; Stats.targetValue := None;
     Stats.startDate := 1704067200000;
     Stats.endDate := Some 1704844800000 |}.

Definition dailyCheckin (n : Z) (done : bool) : Stats.GoalCheckin :=
  {| Stats.gc_goalId := "g1"; Stats.gc_userId := "u1";
     Stats.gc_date := 1704067200000 + n * msPerDay;
     Stats.gc_done := done; Stats.gc_value := None |}.

Definition dailyCheckins : list Stats.GoalCheckin :=
  (map (fun n => dailyCheckin n true) [0; 1; 2; 3; 4; 5; 6]
   ++ [dailyCheckin 7 false])%list.

(** The same check-ins in a table that has other rows as well, all of
    them active: a second check-in of the goal on its first day, at 10:00
    UTC; a check-in of another goal and one of another user on the ninth
    day; and a check-in of the goal on 2024-02-15, after the range asked
    about. *)
Definition crowdedCheckins : list Stats.GoalCheckin :=
  (dailyCheckins
   ++ [ {| Stats.gc_goalId := "g1"; Stats.gc_userId := "u1";
           Stats.gc_date := 1704103200000;
           Stats.gc_done := true; Stats.gc_value := None |};
        {| Stats.gc_goalId := "g9"; Stats.gc_userId := "u1";
           Stats.gc_date := 1704758400000;
           Stats.gc_done := true; Stats.gc_value := None |};
        {| Stats.gc_goalId := "g1"; Stats.gc_userId := "u2";
           Stats.gc_date := 1704758400000;
           Stats.gc_done := true; Stats.gc_value := None |};
        {| Stats.gc_goalId := "g1"; Stats.gc_userId := "u1";
           Stats.gc_date := 1707955200000;
           Stats.gc_done := true; Stats.gc_value := None |} ])%list.

Definition january2024 : Stats.RangeDto :=
  {| Stats.q_from := Some (Some 1704067200000);
     Stats.q_to := Some (Some 1706659200000);
     Stats.q_period := None |}.

(** A BOOLEAN goal that carries a target value, as [GoalsService.create]
    stores it when the request gives one: [validateTarget] checks the
    value of COUNT and WEEKLY goals only. *)
Definition booleanGoal : Stats.Goal :=
  {| Stats.goal_id := "g2"; Stats.goal_userId := "u1";
     Stats.targetType := Stats.BOOLEAN; Stats.targetValue := Some 20;
     Stats.startDate := 1704067200000; Stats.endDate := None |}.

(** A COUNT goal of target 20 with check-ins of values 10 and 15. *)
Definition countGoal : Stats.Goal :=
  {| Stats.goal_id := "g3"; Stats.goal_userId := "u1";
     Stats.targetType := Stats.COUNT; Stats.targetValue := Some 20;
     Stats.startDate := 1704067200000; Stats.endDate := None |}.

Definition countCheckins : list Stats.GoalCheckin :=
  [ {| Stats.gc_goalId := "g3"; Stats.gc_userId := "u1";
       Stats.gc_date := 1704067200000; Stats.gc_done := false;
       Stats.gc_value := Some 10 |};
    {| Stats.gc_goalId := "g3"; Stats.gc_userId := "u1";
       Stats.gc_date := 1704153600000; Stats.gc_done := false;
       Stats.gc_value := Some 15 |} ].

(** The persisted leaderboard of period [p]. *)
Definition entriesOf (p : string) (table : list Rankings.RankingEntry)
  : list Rankings.RankingEntry :=
  filter (fun e => String.eqb (Rankings.period e) p) table.

(** The leaderboard a computation persists and reads back: the computed
    entries by descending score. *)
Definition leaderboardOf (dto : Rankings.ComputeRankingDto)
  (goalAgg streakAgg : list Rankings.AggRow) : list Rankings.RankingEntry :=
  JSArray.sort (fun a b => Rankings.score b - Rankings.score a)
    (Rankings.entriesDataOf dto (Rankings.scoresOf goalAgg streakAgg)).

(** The notification that the entry at position [i] of a leaderboard of
    [totalUsers] entries is to get. *)
Definition expectedNotification (dto : Rankings.ComputeRankingDto)
  (totalUsers : Z) (i : nat) (entry : Rankings.RankingEntry)
  : string * Rankings.Notification :=
  let rank := Z.of_nat i + 1 in
  (Rankings.userId entry,
   {| Rankings.n_type :=
        if rank <=? 3 then Rankings.RANKING_TOP3 else Rankings.RANKING_RESULT;
      Rankings.n_payload :=
        {| Rankings.p_period := Rankings.dto_period dto;
           Rankings.p_rank := rank;
           Rankings.p_score := Rankings.score entry;
           Rankings.p_totalUsers := totalUsers;
           Rankings.p_label :=
             match Rankings.dto_metadata dto with
             | Some m => Rankings.label m
             | None => None
             end |} |}).

(** Two computations for the period [2024-01]: the first ranks [x] and [a],
    the second [a], [b] and [c] with scores 10, 7 and 7; the table already
    holds an entry of another period. *)
Definition rankingDto : Rankings.ComputeRankingDto :=
  {| Rankings.dto_period := "2024-01"; Rankings.dto_from := 1704067200000;
     Rankings.dto_to := 1706659200000; Rankings.dto_metadata := None |}.

Definition firstGoalAgg : list Rankings.AggRow :=
  [ {| Rankings.agg_userId := "x"; Rankings.agg_count := 5 |};
    {| Rankings.agg_userId := "a"; Rankings.agg_count := 2 |} ].

Definition secondGoalAgg : list Rankings.AggRow :=
  [ {| Rankings.agg_userId := "a"; Rankings.agg_count := 6 |};
    {| Rankings.agg_userId := "b"; Rankings.agg_count := 7 |} ].

Definition secondStreakAgg : list Rankings.AggRow :=
  [ {| Rankings.agg_userId := "c"; Rankings.agg_count := 7 |};
    {| Rankings.agg_userId := "a"; Rankings.agg_count := 4 |} ].

Definition otherPeriodWorld : Rankings.World :=
  {| Rankings.rankingEntry :=
       [ {| Rankings.period := "2023-12"; Rankings.userId := "z";
            Rankings.score := 9; Rankings.extra := None |} ];
     Rankings.dispatched := [] |}.

(** The entry of user [u] with score [s] in the period [2024-01]. *)
Definition rankingOf (u : string) (s : Z) : Rankings.RankingEntry :=
  {| Rankings.period := "2024-01"; Rankings.userId := u;
     Rankings.score := s; Rankings.extra := None |}.

(** A notification sink whose dispatch to user [b] fails. *)
Definition failsForB (userId : string) (n : Rankings.Notification) : bool :=
  negb (String.eqb userId "b").

(** What every bucket of a metrics result satisfies. *)
Definition bucketConsistent (b : Stats.Bucket) : Prop :=
  Stats.total b = Stats.goalCheckins b + Stats.streakCheckins b
  /\ 0 <= Stats.goalCheckins b
  /\ 0 <= Stats.streakCheckins b
  /\ 0 <= Stats.total b.

(** A collation for the keys: the order of their code units. *)
Definition codeUnitCompare (a b : string) : Z :=
  match String.compare a b with
  | Lt => -1
  | Eq => 0
  | Gt => 1
  end.

(** Goal check-ins of one user: active on 2024-01-02, inactive on
    2024-01-01; and a streak check-in on 2024-01-02. *)
Definition metricsGoalCheckins : list Stats.GoalCheckin :=
  [ {| Stats.gc_goalId := "g1"; Stats.gc_userId := "u1";
       Stats.gc_date := 1704153600000; Stats.gc_done := true;
       Stats.gc_value := None |};
    {| Stats.gc_goalId := "g1"; Stats.gc_userId := "u1";
       Stats.gc_date := 1704067200000; Stats.gc_done := false;
       Stats.gc_value := None |} ].

Definition metricsStreakCheckins : list Stats.StreakCheckin :=
  [ {| Stats.sc_streakId := "s1"; Stats.sc_userId := "u1";
       Stats.sc_date := 1704153600000; Stats.sc_done := true |} ].

(** A request that supplies neither [from] nor [to]. *)
Definition noArgs : Stats.RangeDto :=
  {| Stats.q_from := None; Stats.q_to := None; Stats.q_period := None |}.

End Notions.

(** ** Further notions, for the properties beyond the claims *)

Module MoreNotions.
Import JSDate.

(** The sum of a counter over buckets, groups or cells. *)
Definition sumOf {A : Type} (f : A -> Z) (l : list A) : Z :=
  fold_right (fun x acc => f x + acc) 0 l.

(** A clock reading from the epoch on that a [Date] can hold. *)
Definition clockValid (now : Z) : Prop := 0 <= now <= maxTime.

(** The count that the grouped rows [agg] give for user [u], 0 when they
    have no row for [u]. *)
Definition countOfUser (u : string) (agg : list Rankings.AggRow) : Z :=
  sumOf Rankings.agg_count
    (filter (fun row => String.eqb (Rankings.agg_userId row) u) agg).

(** Whether the grouped rows have a row for user [u]. *)
Definition hasUser (u : string) (agg : list Rankings.AggRow) : bool :=
  existsb (fun row => String.eqb (Rankings.agg_userId row) u) agg.

(** The invariant of the streak tables. *)
Definition streakWellFormed (s : StreaksOps.Streak) : Prop :=
  Notions.isCalendarDay (StreaksOps.s_startDate s)
  /\ forall e, StreaksOps.s_endDate s = Some e ->
       Notions.isCalendarDay e /\ StreaksOps.s_startDate s <= e.

Definition memberKey (m : StreaksOps.Member) : string * string :=
  (StreaksOps.m_streakId m, StreaksOps.m_userId m).

Definition checkinKey (c : Stats.StreakCheckin) : string * string * Z :=
  (Stats.sc_streakId c, Stats.sc_userId c, Stats.sc_date c).

(** A check-in lies on a calendar day within the window of its streak. *)
Definition checkinInWindow (db : StreaksOps.Db) (c : Stats.StreakCheckin)
  : Prop :=
  Notions.isCalendarDay (Stats.sc_date c)
  /\ forall s, StreaksOps.findStreak db (Stats.sc_streakId c) = Some s ->
       StreaksOps.s_startDate s <= Stats.sc_date c
       /\ forall e, StreaksOps.s_endDate s = Some e -> Stats.sc_date c <= e.

(** Streak ids and the keys of members and check-ins are unique, streak
    dates are calendar days with the end not before the start, members
    and check-ins belong to streaks of the store, and check-ins lie
    within the window of their streak. *)
Definition storeInvariant (db : StreaksOps.Db) : Prop :=
  NoDup (map StreaksOps.s_id (StreaksOps.db_streak db))
  /\ Forall streakWellFormed (StreaksOps.db_streak db)
  /\ NoDup (map memberKey (StreaksOps.db_streakMember db))
  /\ Forall (fun m => In (StreaksOps.m_streakId m)
                        (map StreaksOps.s_id (StreaksOps.db_streak db)))
            (StreaksOps.db_streakMember db)
  /\ NoDup (map checkinKey (StreaksOps.db_streakCheckin db))
  /\ Forall (fun c => In (Stats.sc_streakId c)
                        (map StreaksOps.s_id (StreaksOps.db_streak db))
                     /\ checkinInWindow db c)
            (StreaksOps.db_streakCheckin db).

(** The calendar days on which user [u] has a done check-in in streak
    [streakId]. *)
Definition doneDays (db : StreaksOps.Db) (streakId u : string) : list Z :=
  map Stats.sc_date
    (filter (fun c => String.eqb (Stats.sc_streakId c) streakId
                      && String.eqb (Stats.sc_userId c) u
                      && Stats.sc_done c) (StreaksOps.db_streakCheckin db)).

(** A store with one streak, for January 2024, its creator [u1] being
    the only member. *)
Definition januaryStreak : StreaksOps.CreateStreakDto :=
  {| StreaksOps.cs_title := "run"; StreaksOps.cs_description := None;
     StreaksOps.cs_startDate := Some 1704067200000;
     StreaksOps.cs_endDate := Some (Some 1706659200000) |}.

Definition emptyDb : StreaksOps.Db :=
  {| StreaksOps.db_streak := []; StreaksOps.db_streakMember := [];
     StreaksOps.db_streakCheckin := []; StreaksOps.db_chatRoom := [];
     StreaksOps.db_chatMember := []; StreaksOps.db_user := [] |}.

Definition oneStreakDb : StreaksOps.Db :=
  {| StreaksOps.db_streak :=
       [ {| StreaksOps.s_id := "s1"; StreaksOps.s_title := "run";
            StreaksOps.s_description := None;
            StreaksOps.s_startDate := 1704067200000;
            StreaksOps.s_endDate := Some 1706659200000;
            StreaksOps.s_createdById := "u1" |} ];
     StreaksOps.db_streakMember :=
       [ {| StreaksOps.m_streakId := "s1"; StreaksOps.m_userId := "u1";
            StreaksOps.m_role := StreaksOps.OWNER |} ];
     StreaksOps.db_streakCheckin := []; StreaksOps.db_chatRoom := [];
     StreaksOps.db_chatMember := []; StreaksOps.db_user := ["u1"; "u2"] |}.

(** The same store after [u1] has checked in on the first three days of
    January 2024 and on the fifth. *)
Definition runDb : StreaksOps.Db :=
  {| StreaksOps.db_streak := StreaksOps.db_streak oneStreakDb;
     StreaksOps.db_streakMember := StreaksOps.db_streakMember oneStreakDb;
     StreaksOps.db_streakCheckin :=
       map (fun d => {| Stats.sc_streakId := "s1"; Stats.sc_userId := "u1";
                        Stats.sc_date := d; Stats.sc_done := true |})
           [1704240000000; 1704067200000; 1704412800000; 1704153600000];
     StreaksOps.db_chatRoom := [];
     StreaksOps.db_chatMember := [];
     StreaksOps.db_user := ["u1"; "u2"] |}.

(** A store whose streak [s1] has a chat room, and a chat table that
    refuses every new row. *)
Definition chatDb : StreaksOps.Db :=
  {| StreaksOps.db_streak := StreaksOps.db_streak oneStreakDb;
     StreaksOps.db_streakMember := StreaksOps.db_streakMember oneStreakDb;
     StreaksOps.db_streakCheckin := [];
     StreaksOps.db_chatRoom :=
       [ {| StreaksOps.room_id := "r1"; StreaksOps.room_streakId := "s1" |} ];
     StreaksOps.db_chatMember := [];
     StreaksOps.db_user := ["u1"; "u2"] |}.

Definition chatRefuses (row : StreaksOps.ChatMember)
  (table : list StreaksOps.ChatMember) : option (list StreaksOps.ChatMember) :=
  None.

(** The target a goal of type COUNT or WEEKLY needs: a value of at
    least 1. *)
Definition targetFits (type : Stats.GoalTargetType) (val : option Z) : Prop :=
  match type with
  | Stats.COUNT | Stats.WEEKLY => exists v, val = Some v /\ 1 <= v
  | _ => True
  end.

Definition goalTargetOk (g : Stats.Goal) : Prop :=
  targetFits (Stats.targetType g) (Stats.targetValue g).

(** The end of a goal, when it has one, is not before its start. *)
Definition goalDatesOk (g : Stats.Goal) : Prop :=
  forall e, Stats.endDate g = Some e -> Stats.startDate g <= e.

(** The requests [GoalsService.create] accepts. *)
Definition createGoalValid (categories : list string)
  (dto : Goals.CreateGoalDto) : Prop :=
  (exists s, Goals.parse (Goals.cg_startDate dto) = Some s
     /\ forall e, Goals.cg_endDate dto = Goals.Value e ->
                  Goals.given e = true ->
                  exists t, Goals.parse e = Some t /\ s <= t)
  /\ targetFits (Goals.cg_targetType dto)
       (Goals.definedValue (Goals.cg_targetValue dto))
  /\ forall c, Goals.cg_categoryId dto = Goals.Value c ->
               c <> EmptyString -> In c categories.

(** The request [{ targetValue: null }]. *)
Definition clearTarget : Goals.UpdateGoalDto :=
  {| Goals.ug_title := None; Goals.ug_description := None;
     Goals.ug_categoryId := Goals.Undefined; Goals.ug_targetType := None;
     Goals.ug_targetValue := Goals.Null; Goals.ug_startDate := None;
     Goals.ug_endDate := Goals.Undefined; Goals.ug_isArchived := None |}.

(** The request that moves the start to [t] and gives the empty string as
    end date. *)
Definition moveStart (t : Z) : Goals.UpdateGoalDto :=
  {| Goals.ug_title := None; Goals.ug_description := None;
     Goals.ug_categoryId := Goals.Undefined; Goals.ug_targetType := None;
     Goals.ug_targetValue := Goals.Undefined;
     Goals.ug_startDate := Some (Goals.Text (Some t));
     Goals.ug_endDate := Goals.Value Goals.EmptyText;
     Goals.ug_isArchived := None |}.

(** The request that turns a goal into a WEEKLY goal of target 3. *)
Definition becomeWeekly : Goals.UpdateGoalDto :=
  {| Goals.ug_title := None; Goals.ug_description := None;
     Goals.ug_categoryId := Goals.Undefined;
     Goals.ug_targetType := Some Stats.WEEKLY;
     Goals.ug_targetValue := Goals.Value 3; Goals.ug_startDate := None;
     Goals.ug_endDate := Goals.Undefined; Goals.ug_isArchived := None |}.

(** The request that moves a goal to the days from 2024-01-05 to
    2024-01-15. *)
Definition moveDates : Goals.UpdateGoalDto :=
  {| Goals.ug_title := None; Goals.ug_description := None;
     Goals.ug_categoryId := Goals.Undefined; Goals.ug_targetType := None;
     Goals.ug_targetValue := Goals.Undefined;
     Goals.ug_startDate := Some (Goals.Text (Some 1704412800000));
     Goals.ug_endDate := Goals.Value (Goals.Text (Some 1705276800000));
     Goals.ug_isArchived := None |}.

Definition rowOf (g : Stats.Goal) : Goals.GoalRow :=
  {| Goals.g_core := g; Goals.g_title := "t"; Goals.g_description := None;
     Goals.g_categoryId := None; Goals.g_isArchived := false |}.

(** A request for a COUNT goal of target 20 from 2024-01-01 to
    2024-01-10. *)
Definition countRequest : Goals.CreateGoalDto :=
  {| Goals.cg_title := "t"; Goals.cg_description := None;
     Goals.cg_categoryId := Goals.Undefined;
     Goals.cg_targetType := Stats.COUNT;
     Goals.cg_targetValue := Goals.Value 20;
     Goals.cg_startDate := Goals.Text (Some 1704067200000);
     Goals.cg_endDate := Goals.Value (Goals.Text (Some 1704844800000));
     Goals.cg_isArchived := None |}.

(** The check-in rows of a table, as the statistics read them. *)
Definition checkinsOf (table : list Checkins.CheckinRow)
  : list Stats.GoalCheckin :=
  map Checkins.ci_data table.

(** A uniqueness constraint of one check-in per goal and day. *)
Definition onePerDay (table : list Checkins.CheckinRow)
  (row : Checkins.CheckinRow) : bool :=
  existsb (fun r =>
             String.eqb (Stats.gc_goalId (Checkins.ci_data r))
                        (Stats.gc_goalId (Checkins.ci_data row))
             && (Stats.gc_date (Checkins.ci_data r)
                 =? Stats.gc_date (Checkins.ci_data row))) table.

(** A check-in of value 15 for the third of January 2024, 10:00 UTC. *)
Definition countCheckinRequest : Checkins.CreateCheckinDto :=
  {| Checkins.cc_goalId := "g3"; Checkins.cc_date := Some 1704276000000;
     Checkins.cc_value := Goals.Value 15; Checkins.cc_done := None |}.

Definition countTable : list Checkins.CheckinRow :=
  [ {| Checkins.ci_id := "c1";
       Checkins.ci_data :=
         {| Stats.gc_goalId := "g3"; Stats.gc_userId := "u1";
            Stats.gc_date := 1704067200000; Stats.gc_done := false;
            Stats.gc_value := Some 10 |} |} ].

(** The request [{ value: 25 }] on a check-in. *)
Definition raiseValue : Checkins.UpdateCheckinDto :=
  {| Checkins.uc_date := None; Checkins.uc_value := Goals.Value 25;
     Checkins.uc_done := Goals.Undefined |}.

End MoreNotions.

(** * Properties *)

Import JSDate JSString JSArray Notions.

Ltac zdiv := Z.to_euclidean_division_equations.

(** ** Calendar arithmetic *)

Section Calendar.

Lemma DayFromYear_step (y : Z) : DayFromYear (y + 1) = DayFromYear y + DaysInYear y.
Proof.
  unfold DayFromYear, DaysInYear.
  replace (y + 1 - 1969) with (y - 1968) by lia.
  replace (y + 1 - 1901) with (y - 1900) by lia.
  replace (y + 1 - 1601) with (y - 1600) by lia.
  destruct (Z.eqb_spec (y mod 4) 0); destruct (Z.eqb_spec (y mod 100) 0);
    destruct (Z.eqb_spec (y mod 400) 0); cbn [negb]; zdiv; lia.
Qed.

Lemma YearFromDay_spec (d : Z) :
  DayFromYear (YearFromDay d) <= d < DayFromYear (YearFromDay d + 1).
Proof.
  unfold YearFromDay.
  set (y := 1970 + d * 400 / 146097).
  assert (Hlo : DayFromYear (y - 1) <= d).
  { unfold DayFromYear, y. zdiv. lia. }
  assert (Hhi : d < DayFromYear (y + 2)).
  { unfold DayFromYear, y. zdiv. lia. }
  destruct (Z.leb_spec (DayFromYear (y + 1)) d).
  - replace (y + 1 + 1) with (y + 2) by lia. lia.
  - destruct (Z.leb_spec (DayFromYear y) d).
    + lia.
    + replace (y - 1 + 1) with y by lia. lia.
Qed.

Lemma DayFromYear_mono (y y' : Z) : y <= y' -> DayFromYear y <= DayFromYear y'.
Proof. unfold DayFromYear. intros H. zdiv. lia. Qed.

Lemma YearFromDay_unique (d y : Z) :
  DayFromYear y <= d < DayFromYear (y + 1) -> YearFromDay d = y.
Proof.
  intros H. pose proof (YearFromDay_spec d) as S.
  destruct (Z.lt_trichotomy (YearFromDay d) y) as [L | [E | G]]; [ | exact E | ].
  - pose proof (DayFromYear_mono (YearFromDay d + 1) y ltac:(lia)). lia.
  - pose proof (DayFromYear_mono (y + 1) (YearFromDay d) ltac:(lia)). lia.
Qed.

Lemma YearFromDay_epoch (d : Z) : 0 <= d -> 1970 <= YearFromDay d.
Proof.
  intros H. pose proof (YearFromDay_spec d) as S.
  destruct (Z.le_gt_cases 1970 (YearFromDay d)) as [L | G]; [ exact L | ].
  pose proof (DayFromYear_mono (YearFromDay d + 1) 1970 ltac:(lia)) as M.
  change (DayFromYear 1970) with 0 in M. lia.
Qed.

Lemma DaysInYear_cases (y : Z) : DaysInYear y = 365 \/ DaysInYear y = 366.
Proof.
  unfold DaysInYear.
  destruct (y mod 4 =? 0), (y mod 100 =? 0), (y mod 400 =? 0); simpl; auto.
Qed.

Lemma InLeapYearOf_eq (y : Z) : DaysInYear y = 365 + InLeapYearOf y.
Proof.
  unfold InLeapYearOf. destruct (DaysInYear_cases y) as [E | E]; rewrite E; reflexivity.
Qed.

Lemma DayWithinYear_range (t : Z) :
  0 <= DayWithinYear t < 365 + InLeapYear t.
Proof.
  unfold DayWithinYear, InLeapYear, YearFromTime.
  pose proof (YearFromDay_spec (Day t)) as S.
  rewrite DayFromYear_step, InLeapYearOf_eq in S. lia.
Qed.

Lemma MonthOfYearDay_range (d leap : Z) : 0 <= MonthOfYearDay d leap <= 11.
Proof.
  unfold MonthOfYearDay.
  repeat match goal with |- context [if ?c then _ else _] => destruct c end; lia.
Qed.

Lemma MonthFromTime_range (t : Z) : 0 <= MonthFromTime t <= 11.
Proof. apply MonthOfYearDay_range. Qed.

Lemma DateFromTime_range (t : Z) : 1 <= DateFromTime t <= 31.
Proof.
  unfold DateFromTime, MonthFromTime.
  pose proof (DayWithinYear_range t) as R.
  assert (L : InLeapYear t = 0 \/ InLeapYear t = 1).
  { unfold InLeapYear, InLeapYearOf. destruct (_ =? 366); auto. }
  generalize dependent (DayWithinYear t). generalize dependent (InLeapYear t).
  intros leap L d R. unfold MonthOfYearDay.
  repeat match goal with
         | |- context [if ?a <? ?b then _ else _] => destruct (Z.ltb_spec a b)
         end; cbn [monthStart]; lia.
Qed.

(** The calendar fields of a time value lead back to its day. *)
Lemma MakeDay_fields (t : Z) (delta : Z) :
  MakeDay (YearFromTime t) (MonthFromTime t) (DateFromTime t + delta)
  = Day t + delta.
Proof.
  pose proof (MonthFromTime_range t) as R.
  unfold MakeDay.
  replace (MonthFromTime t / 12) with 0 by (zdiv; lia).
  replace (MonthFromTime t mod 12) with (MonthFromTime t) by (zdiv; lia).
  rewrite Z.add_0_r. unfold DateFromTime, DayWithinYear, InLeapYear. lia.
Qed.

(** [MakeDay] on the first of a month is the day ECMA-262 asks for: the
    one whose year, month and date are the given ones. *)
Lemma MakeDay_first_of_month (year month : Z) :
  0 <= month <= 11 ->
  let t := MakeDate (MakeDay year month 1) 0 in
  YearFromTime t = year /\ MonthFromTime t = month /\ DateFromTime t = 1.
Proof.
  intros R. cbv zeta.
  assert (D : Day (MakeDate (MakeDay year month 1) 0)
              = DayFromYear year + monthStart month (InLeapYearOf year)).
  { unfold MakeDate, MakeDay, Day, msPerDay.
    replace (month / 12) with 0 by (zdiv; lia).
    replace (month mod 12) with month by (zdiv; lia).
    rewrite !Z.add_0_r.
    generalize (DayFromYear year + monthStart month (InLeapYearOf year)).
    intros n. zdiv. lia. }
  pose proof (InLeapYearOf_eq year) as L.
  assert (B : InLeapYearOf year = 0 \/ InLeapYearOf year = 1)
    by (unfold InLeapYearOf; destruct (_ =? 366); auto).
  assert (S : 0 <= monthStart month (InLeapYearOf year)
              < 365 + InLeapYearOf year).
  { unfold monthStart.
    repeat match goal with
           | |- context [match ?x with _ => _ end] => destruct x
           end; lia. }
  assert (Y : YearFromTime (MakeDate (MakeDay year month 1) 0) = year).
  { unfold YearFromTime. rewrite D. apply YearFromDay_unique.
    rewrite DayFromYear_step. lia. }
  assert (W : DayWithinYear (MakeDate (MakeDay year month 1) 0)
              = monthStart month (InLeapYearOf year)).
  { unfold DayWithinYear. rewrite Y, D. lia. }
  assert (M : MonthFromTime (MakeDate (MakeDay year month 1) 0) = month).
  { unfold MonthFromTime, InLeapYear. rewrite Y, W.
    assert (C : month = 0 \/ month = 1 \/ month = 2 \/ month = 3 \/ month = 4
                \/ month = 5 \/ month = 6 \/ month = 7 \/ month = 8
                \/ month = 9 \/ month = 10 \/ month = 11) by lia.
    destruct B as [-> | ->];
      repeat (destruct C as [-> | C]; [reflexivity | ]); subst; reflexivity. }
  split; [exact Y | split; [exact M | ]].
  unfold DateFromTime. rewrite M, W. unfold InLeapYear. rewrite Y. lia.
Qed.

Lemma DateUTC_fields (t delta : Z) :
  ~ twoDigitYear (YearFromTime t) ->
  DateUTC (getUTCFullYear t) (getUTCMonth t) (getUTCDate t + delta)
  = (Day t + delta) * msPerDay.
Proof.
  unfold twoDigitYear, DateUTC, getUTCFullYear, getUTCMonth, getUTCDate.
  intros H.
  destruct (Z.leb_spec 0 (YearFromTime t)), (Z.leb_spec (YearFromTime t) 99);
    cbn [andb]; try lia;
    rewrite MakeDay_fields; unfold MakeDate; lia.
Qed.

Lemma Day_epoch (t : Z) : 0 <= t -> 0 <= Day t.
Proof. unfold Day, msPerDay. intros. zdiv. lia. Qed.

Lemma not_twoDigitYear_epoch (t : Z) : 0 <= t -> ~ twoDigitYear (YearFromTime t).
Proof.
  intros H [_ U]. pose proof (YearFromDay_epoch (Day t) (Day_epoch t H)).
  unfold YearFromTime in U. lia.
Qed.

End Calendar.

(** ** Day normalization and range resolution *)

Section Normalize.
Import Stats.

Lemma normalizeDate_eq (t : Z) :
  ~ twoDigitYear (YearFromTime t) -> normalizeDate t = Day t * msPerDay.
Proof.
  intros H. unfold normalizeDate.
  replace (getUTCDate t) with (getUTCDate t + 0) by lia.
  rewrite DateUTC_fields by exact H. f_equal. lia.
Qed.

Lemma normalizeDate_multiple (t : Z) : exists n, normalizeDate t = n * msPerDay.
Proof.
  unfold normalizeDate, DateUTC, MakeDate. eexists. rewrite Z.add_0_r. reflexivity.
Qed.

Lemma monthStart_range (m leap : Z) : 0 <= leap <= 1 -> 0 <= monthStart m leap <= 335.
Proof.
  intros H. unfold monthStart.
  repeat match goal with |- context [match ?x with _ => _ end] => destruct x end; lia.
Qed.

Lemma InLeapYearOf_range (y : Z) : 0 <= InLeapYearOf y <= 1.
Proof. unfold InLeapYearOf. destruct (_ =? 366); lia. Qed.

(** In the years that [Date.UTC] reads as 1900 + year, [normalizeDay]
    lands in the twentieth century. *)
Lemma normalizeDate_twoDigit (t : Z) :
  twoDigitYear (YearFromTime t) ->
  exists n, normalizeDate t = n * msPerDay /\ -25567 <= n <= 10958.
Proof.
  unfold twoDigitYear. intros [L U].
  pose proof (MonthFromTime_range t) as RM.
  pose proof (DateFromTime_range t) as RD.
  pose proof (monthStart_range (MonthFromTime t)
                (InLeapYearOf (1900 + YearFromTime t))
                (InLeapYearOf_range _)) as RS.
  pose proof (DayFromYear_mono 1900 (1900 + YearFromTime t) ltac:(lia)) as M1.
  pose proof (DayFromYear_mono (1900 + YearFromTime t) 1999 ltac:(lia)) as M2.
  change (DayFromYear 1900) with (-25567) in M1.
  change (DayFromYear 1999) with 10592 in M2.
  exists (DayFromYear (1900 + YearFromTime t)
          + monthStart (MonthFromTime t) (InLeapYearOf (1900 + YearFromTime t))
          + DateFromTime t - 1).
  split; [ | lia].
  unfold normalizeDate, DateUTC, getUTCFullYear, getUTCMonth, getUTCDate.
  destruct (Z.leb_spec 0 (YearFromTime t)); [ | lia].
  destruct (Z.leb_spec (YearFromTime t) 99); [ | lia].
  cbn [andb]. unfold MakeDate, MakeDay.
  replace (MonthFromTime t / 12) with 0 by (zdiv; lia).
  replace (MonthFromTime t mod 12) with (MonthFromTime t) by (zdiv; lia).
  rewrite !Z.add_0_r. reflexivity.
Qed.


Lemma Day_of_multiple (n : Z) : Day (n * msPerDay) = n.
Proof. unfold Day, msPerDay. zdiv. lia. Qed.

Lemma normalizeDate_of_day (n : Z) :
  ~ twoDigitYear (YearFromDay n) ->
  normalizeDate (n * msPerDay) = n * msPerDay.
Proof.
  intros H. rewrite normalizeDate_eq.
  - now rewrite Day_of_multiple.
  - unfold YearFromTime. now rewrite Day_of_multiple.
Qed.

Lemma YearFromDay_lower (n : Z) : -25567 <= n -> 1900 <= YearFromDay n.
Proof.
  intros B. pose proof (YearFromDay_spec n) as [_ S].
  destruct (Z.le_gt_cases 1900 (YearFromDay n)) as [G | G]; [exact G | ].
  pose proof (DayFromYear_mono (YearFromDay n + 1) 1900 ltac:(lia)) as M.
  change (DayFromYear 1900) with (-25567) in M. lia.
Qed.

(** Every day [normalizeDay] returns is a calendar day: normalizing it
    again changes nothing. *)
Lemma normalizeDate_idempotent (t : Z) : isCalendarDay (normalizeDate t).
Proof.
  unfold isCalendarDay.
  destruct (Z.leb_spec 0 (YearFromTime t)) as [L | L];
    [destruct (Z.leb_spec (YearFromTime t) 99) as [U | U] | ].
  - destruct (normalizeDate_twoDigit t (conj L U)) as (n & -> & B).
    apply normalizeDate_of_day.
    pose proof (YearFromDay_lower n ltac:(lia)) as Y.
    unfold twoDigitYear. lia.
  - rewrite (normalizeDate_eq t) by (unfold twoDigitYear; lia).
    apply normalizeDate_of_day. unfold twoDigitYear.
    change (YearFromDay (Day t)) with (YearFromTime t). lia.
  - rewrite (normalizeDate_eq t) by (unfold twoDigitYear; lia).
    apply normalizeDate_of_day. unfold twoDigitYear.
    change (YearFromDay (Day t)) with (YearFromTime t). lia.
Qed.

Lemma setUTCDate_back (t n : Z) :
  setUTCDate t (getUTCDate t - n) = TimeClip (t - n * msPerDay).
Proof.
  unfold setUTCDate, getUTCDate.
  replace (DateFromTime t - n) with (DateFromTime t + - n) by lia.
  rewrite MakeDay_fields. f_equal.
  unfold MakeDate, Day, TimeWithinDay, msPerDay. zdiv. lia.
Qed.

Lemma Day_shift (t n : Z) : Day (t - n * msPerDay) = Day t - n.
Proof. unfold Day, msPerDay. zdiv. lia. Qed.

Lemma resolveRange_default (now : Z) (q : RangeDto) :
  q_from q = None -> q_to q = None ->
  30 * msPerDay <= now <= maxTime ->
  resolveRange now q
  = inr {| from := normalizeDate now - 30 * msPerDay; to := normalizeDate now |}.
Proof.
  intros HF HT R.
  assert (E1 : resolveFrom now q = inr (normalizeDate now - 30 * msPerDay)).
  { unfold resolveFrom. rewrite HF, setUTCDate_back. unfold TimeClip.
    destruct (Z.leb_spec (Z.abs (now - 30 * msPerDay)) maxTime) as [_ | A];
      [ | unfold msPerDay, maxTime in *; lia].
    cbn [isoOf bind ret normalizeDay]. unfold ret. f_equal.
    rewrite !normalizeDate_eq
      by (apply not_twoDigitYear_epoch; unfold msPerDay in *; lia).
    rewrite Day_shift. ring. }
  assert (E2 : resolveTo now q = inr (normalizeDate now)).
  { unfold resolveTo. rewrite HT. reflexivity. }
  unfold resolveRange. rewrite E1, E2. cbn [bind].
  destruct (Z.gtb_spec (normalizeDate now - 30 * msPerDay) (normalizeDate now));
    [unfold msPerDay in *; lia | reflexivity].
Qed.

End Normalize.

(** ** Week keys (claim C1) *)

Section WeekKey.
Import Stats.

(** C1: the week key of a record is meant to follow ISO-8601 week numbering,
    with 2024-W01 for a record on 2024-01-01 (a Monday) and 2023-W52 for a
    record on 2023-12-31 (a Sunday).  Evaluated on these two days,
    [bucketKey] gives 2024-W00 and 2023-W51: it counts whole weeks from
    January 4th, which it calls the first Thursday, and so comes out one
    below the ISO week whenever January 4th is not a Monday. *)
Theorem bucketKey_week_below_iso :
  toISOString 1704067200000 = "2024-01-01T00:00:00.000Z"
  /\ getUTCDay 1704067200000 = 1
  /\ bucketKey (normalizeDate 1704067200000) week = "2024-W00"
  /\ toISOString 1703980800000 = "2023-12-31T00:00:00.000Z"
  /\ getUTCDay 1703980800000 = 0
  /\ bucketKey (normalizeDate 1703980800000) week = "2023-W51".
Proof. vm_compute. repeat split; reflexivity. Qed.

End WeekKey.

(** ** Range resolution (claim C2) *)

Section ResolveRange.
Import Stats.

(** C2, as stated, fails: with no arguments at 2024-01-01T00:00:00.123Z the
    window ends on today's normalized day but spans 31 days inclusive, not
    30. *)
Lemma resolveRange_default_not_30_days :
  exists r,
    resolveRange 1704067200123 noArgs = inr r
    /\ to r = normalizeDate 1704067200123
    /\ daysBetweenInclusive (from r) (to r) <> 30.
Proof.
  eexists. split; [vm_compute; reflexivity | ].
  split; [vm_compute; reflexivity | vm_compute; discriminate].
Qed.

(** C2 (amended): with neither [from] nor [to] supplied, [resolveRange]
    returns the window from the normalized day 30 days before today to
    today's normalized day, which is 31 days inclusive; and whenever the
    two endpoints resolve to days [f] and [t], [resolveRange] fails exactly
    when [f] is later than [t], and returns [f] and [t] otherwise. *)
Theorem resolveRange_window (now : Z) (q : RangeDto) :
  (q_from q = None -> q_to q = None -> 30 * msPerDay <= now <= maxTime ->
   exists r,
     resolveRange now q = inr r
     /\ to r = normalizeDate now
     /\ from r = to r - 30 * msPerDay
     /\ daysBetweenInclusive (from r) (to r) = 31)
  /\ (forall f t,
        resolveFrom now q = inr f -> resolveTo now q = inr t ->
        ((exists e, resolveRange now q = inl e) <-> f > t)
        /\ (resolveRange now q = inr {| from := f; to := t |} <-> f <= t)).
Proof.
  split.
  - intros HF HT R. eexists. split; [apply resolveRange_default; assumption | ].
    cbn [from to]. split; [reflexivity | split; [reflexivity | ]].
    unfold daysBetweenInclusive, MS_PER_DAY, msPerDay. zdiv. lia.
  - intros f t HF HT. unfold resolveRange. rewrite HF, HT. cbn [bind].
    destruct (Z.gtb_spec f t) as [G | L]; split; split.
    + intros _. lia.
    + intros _. eexists. reflexivity.
    + discriminate.
    + lia.
    + intros [e E]. discriminate E.
    + lia.
    + intros _. lia.
    + intros _. reflexivity.
Qed.

Lemma resolveRange_window_witness :
  (exists r,
     resolveRange 1704067200123 noArgs = inr r
     /\ to r = normalizeDate 1704067200123
     /\ from r = to r - 30 * msPerDay
     /\ daysBetweenInclusive (from r) (to r) = 31)
  /\ (resolveRange 1704067200123 noArgs
      = inr {| from := 1701475200000; to := 1704067200000 |}
      <-> 1701475200000 <= 1704067200000).
Proof.
  destruct (resolveRange_window 1704067200123 noArgs) as [D F]. split.
  - apply D.
    + reflexivity.
    + reflexivity.
    + unfold msPerDay, maxTime. lia.
  - apply (F 1701475200000 1704067200000).
    + vm_compute. reflexivity.
    + vm_compute. reflexivity.
Defined.

End ResolveRange.

(** ** The run tracker (claim C3) *)

Section RunTracker.
Import Streaks.

Lemma diff_is_one (a : Z) :
  Qeq_bool (inject_Z a / inject_Z (1000 * 60 * 60 * 24)) 1 = (a =? msPerDay).
Proof.
  unfold Qeq_bool, Qdiv, Qmult, Qinv, inject_Z, msPerDay. cbn [Qnum Qden].
  change (1000 * 60 * 60 * 24) with 86400000. cbn [Qnum Qden Z.mul Pos.mul].
  destruct (Z.eqb_spec a 86400000) as [E | N].
  - subst a. reflexivity.
  - apply Z.eqb_neq. lia.
Qed.

Lemma isRun_app (days : list Z) (d first len : Z) :
  isRun days first len -> isRun (days ++ [d]) first len.
Proof. intros H i Hi. apply in_or_app. left. apply H, Hi. Qed.

Lemma longestRun_nil : longestRun [] 0.
Proof.
  split.
  - exists 0. intros i Hi. lia.
  - intros first len H. destruct (Z.le_gt_cases len 0) as [L | G]; [exact L | ].
    destruct (H 0 ltac:(lia)).
Qed.

Lemma runInvariant_initial : runInvariant [] initial.
Proof. split; [apply longestRun_nil | cbn; auto]. Qed.

(** The longest run after one more day [d], later than all of [days], when
    the run ending at [d] has length [c]. *)
Lemma longestRun_snoc (days : list Z) (d c L : Z) :
  Forall (fun y => y < d) days ->
  longestRun days L ->
  runEndingAt (days ++ [d]) d c ->
  longestRun (days ++ [d]) (Z.max L c).
Proof.
  intros F [[first0 R0] U] (C1 & RC & NC). split.
  - destruct (Z.max_spec L c) as [[_ E] | [_ E]]; rewrite E.
    + eexists. exact RC.
    + exists first0. apply isRun_app, R0.
  - intros first len R.
    destruct (Z.le_gt_cases len 0) as [Neg | Pos]; [lia | ].
    destruct (in_app_or _ _ _ (R (len - 1) ltac:(lia))) as [I | [I | []]].
    + (* the run ends before [d]: it lies within [days] *)
      enough (len <= L) by lia. apply (U first). intros i Hi.
      destruct (in_app_or _ _ _ (R i Hi)) as [J | [J | []]]; [exact J | ].
      rewrite Forall_forall in F. specialize (F _ I).
      unfold msPerDay in *. lia.
    + (* the run ends at [d] *)
      enough (len <= c) by lia.
      destruct (Z.le_gt_cases len c) as [Le | Gt]; [exact Le | ].
      exfalso. apply NC.
      replace (d - c * msPerDay) with (first + (len - 1 - c) * msPerDay)
        by (unfold msPerDay in *; lia).
      apply R. lia.
Qed.

Lemma step_longest (s : RunState) (r : Z) :
  rs_longest (step s r) = Z.max (rs_longest s) (rs_current (step s r)).
Proof. reflexivity. Qed.

Lemma step_prev (s : RunState) (r : Z) :
  rs_prev (step s r) = Some (normalizeDate r).
Proof. reflexivity. Qed.

Lemma step_current (s : RunState) (r : Z) :
  rs_current (step s r)
  = match rs_prev s with
    | None => 1
    | Some prev =>
        if normalizeDate r - prev =? msPerDay then rs_current s + 1 else 1
    end.
Proof.
  unfold step. cbn [rs_current]. destruct (rs_prev s); [ | reflexivity].
  rewrite diff_is_one. reflexivity.
Qed.

Lemma In_run_end (days : list Z) (prev c : Z) :
  runEndingAt days prev c -> In prev days.
Proof.
  intros (C1 & RC & _).
  replace prev with (prev - (c - 1) * msPerDay + (c - 1) * msPerDay) by lia.
  apply RC. lia.
Qed.

(** [d] is the day after [prev]: the run goes on. *)
Lemma runEndingAt_next (days : list Z) (prev c : Z) :
  runEndingAt days prev c ->
  runEndingAt (days ++ [prev + msPerDay]) (prev + msPerDay) (c + 1).
Proof.
  intros (C1 & RC & NC). split; [lia | split].
  - intros i Hi. apply in_or_app.
    destruct (Z.eq_dec i c) as [-> | Ne].
    + right. left. lia.
    + left.
      replace (prev + msPerDay - (c + 1 - 1) * msPerDay + i * msPerDay)
        with (prev - (c - 1) * msPerDay + i * msPerDay) by lia.
      apply RC. lia.
  - intros I. apply in_app_or in I. destruct I as [I | [I | []]].
    + apply NC.
      replace (prev - c * msPerDay)
        with (prev + msPerDay - (c + 1) * msPerDay) by lia.
      exact I.
    + unfold msPerDay in I. lia.
Qed.

(** [d] is not the day after the latest day: a new run starts at [d]. *)
Lemma runEndingAt_fresh (days : list Z) (d : Z) :
  ~ In (d - msPerDay) days ->
  runEndingAt (days ++ [d]) d 1.
Proof.
  intros N. split; [lia | split].
  - intros i Hi. apply in_or_app. right. left.
    replace i with 0 by lia. lia.
  - intros I. apply in_app_or in I. destruct I as [I | [I | []]].
    + apply N. replace (d - msPerDay) with (d - 1 * msPerDay) by lia. exact I.
    + unfold msPerDay in I. lia.
Qed.

(** Between two calendar days there is no third one. *)
Lemma days_adjacent (n m : Z) :
  m * msPerDay - msPerDay <= n * msPerDay -> n * msPerDay < m * msPerDay ->
  m * msPerDay - n * msPerDay = msPerDay.
Proof. unfold msPerDay. intros A B. lia. Qed.

Lemma runInvariant_snoc (days : list Z) (s s' : RunState) (d : Z) :
  runInvariant days s ->
  Forall (fun y => y < d) days ->
  Forall (fun y => exists n, y = n * msPerDay) days ->
  (exists m, d = m * msPerDay) ->
  rs_prev s' = Some d ->
  rs_longest s' = Z.max (rs_longest s) (rs_current s') ->
  rs_current s'
  = match rs_prev s with
    | None => 1
    | Some prev => if d - prev =? msPerDay then rs_current s + 1 else 1
    end ->
  runInvariant (days ++ [d]) s'.
Proof.
  intros [HL HP] F M [m Hm] EP EL EC.
  assert (RE : runEndingAt (days ++ [d]) d (rs_current s')).
  { rewrite EC.
    destruct (rs_prev s) as [prev | ].
    - destruct HP as (Elast & Fmax & RP).
      pose proof (In_run_end _ _ _ RP) as Iprev.
      rewrite Forall_forall in F, Fmax, M.
      pose proof (F _ Iprev) as Lt.
      destruct (Z.eqb_spec (d - prev) msPerDay) as [E | N].
      + replace d with (prev + msPerDay) by lia.
        apply runEndingAt_next, RP.
      + apply runEndingAt_fresh. intros I.
        pose proof (Fmax _ I) as Le.
        destruct (M _ Iprev) as [n Hn]. clear Elast. subst d prev.
        apply N, days_adjacent; assumption.
    - destruct HP as [-> _]. apply runEndingAt_fresh. intros []. }
  split.
  - rewrite EL.
    apply longestRun_snoc; [exact F | exact HL | exact RE].
  - rewrite EP.
    split; [apply last_last | split; [ | exact RE]].
    apply Forall_app. split.
    + rewrite Forall_forall in *. intros x Hx. specialize (F x Hx). lia.
    + constructor; [lia | constructor].
Qed.

Lemma runInvariant_step (days : list Z) (s : RunState) (r : Z) :
  runInvariant days s ->
  Forall (fun y => y < normalizeDate r) days ->
  Forall (fun y => exists n, y = n * msPerDay) days ->
  runInvariant (days ++ [normalizeDate r]) (step s r).
Proof.
  intros I F M.
  apply (runInvariant_snoc days s (step s r) (normalizeDate r) I F M).
  - apply normalizeDate_multiple.
  - apply step_prev.
  - apply step_longest.
  - apply step_current.
Qed.

Lemma StronglySorted_snoc (l : list Z) (d : Z) :
  StronglySorted Z.lt (l ++ [d]) ->
  StronglySorted Z.lt l /\ Forall (fun y => y < d) l.
Proof.
  induction l as [ | x l IH]; cbn [app]; intros H.
  - split; constructor.
  - inversion H as [ | ? ? S F]; subst.
    destruct (IH S) as [S' F']. split.
    + constructor; [exact S' | ].
      rewrite Forall_forall in *. intros y Hy. apply F, in_or_app. auto.
    + constructor; [ | exact F'].
      rewrite Forall_forall in F. apply F, in_or_app. right. left. reflexivity.
Qed.

Lemma runInvariant_fold (rows : list Z) :
  StronglySorted Z.lt (map normalizeDate rows) ->
  runInvariant (map normalizeDate rows) (fold_left step rows initial).
Proof.
  induction rows as [ | r rows IH] using rev_ind; intros S.
  - apply runInvariant_initial.
  - rewrite map_app in *. cbn [map] in *. rewrite fold_left_app. cbn [fold_left].
    apply StronglySorted_snoc in S. destruct S as [S F].
    apply runInvariant_step; [apply IH, S | exact F | ].
    rewrite Forall_forall. intros y Hy. apply in_map_iff in Hy.
    destruct Hy as (x & <- & _). apply normalizeDate_multiple.
Qed.

(** C3: for an ascending, duplicate-free sequence of calendar days,
    [longest] is the length of the longest run of consecutive calendar days,
    [current] the length of the run ending at the last day, [totalDone] the
    number of elements; the empty sequence gives 0, 0, 0; and days
    [D1, D2, D3, D5] with [D4] missing give longest 3, current 1,
    totalDone 4. *)
Theorem runTracker_correct (u : string) (rows : list Z) (d1 : Z) :
  (StronglySorted Z.lt (map normalizeDate rows) ->
   longestRun (map normalizeDate rows) (longest (runTracker u rows))
   /\ (rows <> [] ->
       runEndingAt (map normalizeDate rows)
         (last (map normalizeDate rows) 0) (current (runTracker u rows)))
   /\ totalDone (runTracker u rows) = Z.of_nat (List.length rows))
  /\ runTracker u []
     = {| st_userId := u; current := 0; longest := 0; totalDone := 0 |}
  /\ (Forall isCalendarDay
        [d1; d1 + msPerDay; d1 + 2 * msPerDay; d1 + 4 * msPerDay] ->
      runTracker u [d1; d1 + msPerDay; d1 + 2 * msPerDay; d1 + 4 * msPerDay]
      = {| st_userId := u; current := 1; longest := 3; totalDone := 4 |}).
Proof.
  split; [ | split; [reflexivity | ]].
  - intros S. pose proof (runInvariant_fold rows S) as [HL HP].
    unfold runTracker. cbn [longest current totalDone].
    split; [exact HL | split; [ | reflexivity]].
    intros NE. destruct (rs_prev (fold_left step rows initial)) as [prev | ].
    + destruct HP as (-> & _ & RP). exact RP.
    + destruct HP as [E _]. destruct rows; [contradiction | discriminate E].
  - intros F.
    pose proof (Forall_inv F) as C1.
    pose proof (Forall_inv (Forall_inv_tail F)) as C2.
    pose proof (Forall_inv (Forall_inv_tail (Forall_inv_tail F))) as C3.
    pose proof (Forall_inv (Forall_inv_tail (Forall_inv_tail
                  (Forall_inv_tail F)))) as C5.
    unfold isCalendarDay in C1, C2, C3, C5. clear F.
    unfold runTracker. cbn [fold_left List.length].
    set (s1 := step initial d1).
    set (s2 := step s1 (d1 + msPerDay)).
    set (s3 := step s2 (d1 + 2 * msPerDay)).
    set (s5 := step s3 (d1 + 4 * msPerDay)).
    assert (E1 : rs_current s1 = 1 /\ rs_longest s1 = 1).
    { split; [ | unfold s1; rewrite step_longest];
        unfold s1; rewrite step_current; reflexivity. }
    assert (P1 : rs_prev s1 = Some d1).
    { unfold s1. rewrite step_prev. unfold normalizeDate. rewrite C1. reflexivity. }
    assert (E2 : rs_current s2 = 2 /\ rs_longest s2 = 2).
    { assert (rs_current s2 = 2).
      { unfold s2. rewrite step_current, P1. unfold normalizeDate. rewrite C2.
        replace (d1 + msPerDay - d1) with msPerDay by lia.
        rewrite Z.eqb_refl. lia. }
      split; [assumption | ]. unfold s2. rewrite step_longest. fold s2. lia. }
    assert (P2 : rs_prev s2 = Some (d1 + msPerDay)).
    { unfold s2. rewrite step_prev. unfold normalizeDate. rewrite C2. reflexivity. }
    assert (E3 : rs_current s3 = 3 /\ rs_longest s3 = 3).
    { assert (rs_current s3 = 3).
      { unfold s3. rewrite step_current, P2. unfold normalizeDate. rewrite C3.
        replace (d1 + 2 * msPerDay - (d1 + msPerDay)) with msPerDay by lia.
        rewrite Z.eqb_refl. lia. }
      split; [assumption | ]. unfold s3. rewrite step_longest. fold s3. lia. }
    assert (P3 : rs_prev s3 = Some (d1 + 2 * msPerDay)).
    { unfold s3. rewrite step_prev. unfold normalizeDate. rewrite C3. reflexivity. }
    assert (E5 : rs_current s5 = 1 /\ rs_longest s5 = 3).
    { assert (rs_current s5 = 1).
      { unfold s5. rewrite step_current, P3. unfold normalizeDate. rewrite C5.
        replace (d1 + 4 * msPerDay - (d1 + 2 * msPerDay)) with (2 * msPerDay)
          by lia.
        reflexivity. }
      split; [assumption | ]. unfold s5. rewrite step_longest. fold s5. lia. }
    destruct E5 as [-> ->]. reflexivity.
Qed.

Lemma runTracker_correct_witness :
  (longestRun (map normalizeDate sampleDays)
     (longest (runTracker "u" sampleDays))
   /\ (sampleDays <> [] ->
       runEndingAt (map normalizeDate sampleDays)
         (last (map normalizeDate sampleDays) 0)
         (current (runTracker "u" sampleDays)))
   /\ totalDone (runTracker "u" sampleDays)
      = Z.of_nat (List.length sampleDays))
  /\ runTracker "u" sampleDays
     = {| st_userId := "u"; current := 1; longest := 3; totalDone := 4 |}.
Proof.
  destruct (runTracker_correct "u" sampleDays 1704067200000) as (G & _ & X).
  split.
  - apply G. vm_compute. repeat constructor.
  - apply X. repeat constructor; vm_compute; reflexivity.
Defined.

End RunTracker.

(** ** [toISOString] tells time values apart *)

Section IsoString.

Lemma length_app (a b : string) :
  String.length (a ++ b) = (String.length a + String.length b)%nat.
Proof. induction a as [ | c a IH]; cbn; [reflexivity | now rewrite IH]. Qed.












End IsoString.

(** ** Goal progress (claims C4 and C5) *)

Section GoalProgress.
Import Stats.








(** C5, as stated, fails for BOOLEAN goals: one that carries the target
    value 20 and has no check-in gets completion 0, not null. *)
Lemma goalProgress_boolean_not_null :
  exists res,
    goalProgress 1706659200000 [booleanGoal] [] "u1" "g2" january2024 = inr res
    /\ gp_targetType res = BOOLEAN
    /\ completion res = Some (0 # 20)%Q
    /\ (0 # 20 == 0)%Q
    /\ completion res <> None.
Proof.
  eexists. split; [vm_compute; reflexivity | ].
  cbn [gp_targetType completion].
  split; [reflexivity | split; [reflexivity | split; [reflexivity | discriminate]]].
Qed.

(** C5 (amended): for a goal that is not DAILY, whatever its kind (COUNT,
    WEEKLY or BOOLEAN): when it carries a target value greater than 0,
    the completion is [min(1, valueSum / targetValue)], which never exceeds
    1 (target 20 and sum 25 give 1); when it carries no target value, or
    one that is not positive, the completion is null, as for a BOOLEAN goal
    without target value. *)
Theorem goalProgress_target_completion (now : Z) (goals : list Goal)
  (goalCheckin : list GoalCheckin) (userId goalId : string) (q : RangeDto)
  (goal : Goal) (r : DateRange) :
  getOwnedGoal goals userId goalId = inr goal ->
  resolveRange now q = inr r ->
  targetType goal <> DAILY ->
  exists res,
    goalProgress now goals goalCheckin userId goalId q = inr res
    /\ valueSum res
       = fold_left (fun acc c => acc + valueOr0 c)
           (findGoalCheckins goalCheckin goalId userId r) 0
    /\ (forall target,
          targetValue goal = Some target -> 0 < target ->
          completion res
          = Some (Qmin 1 (inject_Z (valueSum res) / inject_Z target))%Q
          /\ (Qmin 1 (inject_Z (valueSum res) / inject_Z target) <= 1)%Q
          /\ (target = 20 -> valueSum res = 25 -> completion res = Some 1%Q))
    /\ (targetValue goal = None -> completion res = None)
    /\ (forall target,
          targetValue goal = Some target -> target <= 0 ->
          completion res = None).
Proof.
  intros HG HR HT.
  unfold goalProgress. rewrite HG, HR. cbn [bind]. eexists.
  split; [reflexivity | ]. cbn [completion valueSum].
  split; [reflexivity | ].
  generalize (fold_left (fun acc c => acc + valueOr0 c)
                (findGoalCheckins goalCheckin goalId userId r) 0).
  generalize (doneDaysOf
                (filter isActive (findGoalCheckins goalCheckin goalId userId r))).
  intros doneDays sum. unfold completionOf.
  assert (K : forall tv : option Z,
    (forall target, tv = Some target -> 0 < target ->
       match tv with
       | Some t => if t >? 0 then Some (Qmin 1 (inject_Z sum / inject_Z t))%Q
                   else None
       | None => None
       end = Some (Qmin 1 (inject_Z sum / inject_Z target))%Q
       /\ (Qmin 1 (inject_Z sum / inject_Z target) <= 1)%Q
       /\ (target = 20 -> sum = 25 ->
           match tv with
           | Some t => if t >? 0 then Some (Qmin 1 (inject_Z sum / inject_Z t))%Q
                       else None
           | None => None
           end = Some 1%Q))
    /\ (tv = None ->
        match tv with
        | Some t => if t >? 0 then Some (Qmin 1 (inject_Z sum / inject_Z t))%Q
                    else None
        | None => None
        end = None)
    /\ (forall target, tv = Some target -> target <= 0 ->
        match tv with
        | Some t => if t >? 0 then Some (Qmin 1 (inject_Z sum / inject_Z t))%Q
                    else None
        | None => None
        end = None)).
  { intros tv. split; [ | split].
    - intros target -> P. destruct (Z.gtb_spec target 0); [ | lia].
      split; [reflexivity | split; [apply Q.le_min_l | ]].
      intros -> ->. reflexivity.
    - intros ->. reflexivity.
    - intros target -> P. destruct (Z.gtb_spec target 0); [lia | reflexivity]. }
  destruct (targetType goal); [contradiction | apply K | apply K | apply K].
Qed.

Lemma goalProgress_target_completion_witness :
  exists res,
    goalProgress 1706659200000 [countGoal] countCheckins "u1" "g3" january2024
    = inr res
    /\ valueSum res = 25
    /\ completion res = Some 1%Q.
Proof.
  destruct (goalProgress_target_completion 1706659200000 [countGoal]
              countCheckins "u1" "g3" january2024 countGoal
              {| from := 1704067200000; to := 1706659200000 |})
    as (res & E & S & C & _).
  - reflexivity.
  - vm_compute. reflexivity.
  - discriminate.
  - exists res. split; [exact E | ]. split; [rewrite S; reflexivity | ].
    apply (C 20); [reflexivity | lia | reflexivity | rewrite S; reflexivity].
Defined.

End GoalProgress.

(** ** Sorting *)

Section SortFacts.
Context {A : Type}.
Variable compareFn : A -> A -> Z.
(** A consistent comparator: of two elements, one goes first. *)
Hypothesis compareFn_total :
  forall a b, 0 < compareFn a b -> compareFn b a <= 0.

Lemma insertSorted_HdRel (y x : A) (l : list A) :
  compareFn y x <= 0 ->
  HdRel (fun a b => compareFn a b <= 0) y l ->
  HdRel (fun a b => compareFn a b <= 0) y (insertSorted compareFn x l).
Proof.
  intros Hyx H. destruct l as [ | z l]; cbn [insertSorted].
  - constructor. exact Hyx.
  - destruct (Z.leb_spec (compareFn x z) 0); constructor.
    + exact Hyx.
    + inversion H; assumption.
Qed.

Lemma insertSorted_Sorted (x : A) (l : list A) :
  Sorted (fun a b => compareFn a b <= 0) l ->
  Sorted (fun a b => compareFn a b <= 0) (insertSorted compareFn x l).
Proof.
  induction l as [ | y l IH]; intros S; cbn [insertSorted].
  - repeat constructor.
  - inversion S as [ | ? ? S' H]; subst.
    destruct (Z.leb_spec (compareFn x y) 0) as [L | G].
    + constructor; [exact S | constructor; exact L].
    + constructor; [apply IH, S' | ].
      apply insertSorted_HdRel; [ | exact H].
      apply compareFn_total. lia.
Qed.

(** Under a consistent comparator the result of [sort] is in order. *)
Lemma sort_Sorted (l : list A) :
  Sorted (fun a b => compareFn a b <= 0) (sort compareFn l).
Proof.
  induction l as [ | x l IH]; cbn [sort fold_right].
  - constructor.
  - apply insertSorted_Sorted, IH.
Qed.
End SortFacts.

Section SortPermutation.
Context {A : Type}.
Variable compareFn : A -> A -> Z.

Lemma insertSorted_Permutation (x : A) (l : list A) :
  Permutation (insertSorted compareFn x l) (x :: l).
Proof.
  induction l as [ | y l IH]; cbn [insertSorted].
  - reflexivity.
  - destruct (compareFn x y <=? 0); [reflexivity | ].
    rewrite IH. apply perm_swap.
Qed.

Lemma sort_Permutation (l : list A) : Permutation (sort compareFn l) l.
Proof.
  induction l as [ | x l IH]; cbn [sort fold_right].
  - reflexivity.
  - rewrite insertSorted_Permutation. constructor. exact IH.
Qed.
End SortPermutation.

(** ** Rankings (claims C6, C7 and C8) *)

Section ScoreFacts.
Import Rankings MoreNotions.

Lemma get_set_same (m : ScoresMap) (k : string) (v : Z) :
  get (set m k v) k = Some v.
Proof.
  induction m as [ | [k' v'] m IH]; cbn [set get].
  - now rewrite String.eqb_refl.
  - destruct (String.eqb k' k) eqn:E; cbn [get]; rewrite E; [reflexivity | exact IH].
Qed.

Lemma get_set_other (m : ScoresMap) (k k' : string) (v : Z) :
  k <> k' -> get (set m k v) k' = get m k'.
Proof.
  intros N. induction m as [ | [k0 v0] m IH]; cbn [set get].
  - destruct (String.eqb_spec k k'); [contradiction | reflexivity].
  - destruct (String.eqb_spec k0 k) as [-> | N0]; cbn [get].
    + destruct (String.eqb_spec k k'); [contradiction | reflexivity].
    + destruct (String.eqb k0 k'); [reflexivity | exact IH].
Qed.

Lemma set_keys (m : ScoresMap) (k : string) (v : Z) :
  NoDup (map fst m) ->
  NoDup (map fst (set m k v))
  /\ forall x, In x (map fst (set m k v)) <-> x = k \/ In x (map fst m).
Proof.
  induction m as [ | [k0 v0] m IH]; intros N; cbn [set map fst].
  - split; [repeat constructor; intros [] | intros x; cbn; intuition].
  - inversion N as [ | ? ? NI N']; subst.
    destruct (IH N') as [N2 I2].
    destruct (String.eqb_spec k0 k) as [-> | N0]; cbn [map fst].
    + split; [exact N | intros x; cbn; intuition].
    + split.
      * constructor; [ | exact N2]. rewrite I2. intros [E | I]; [congruence | contradiction].
      * intros x. cbn [In]. rewrite I2. intuition.
Qed.

Lemma get_In (m : ScoresMap) (k : string) (v : Z) :
  NoDup (map fst m) -> (In (k, v) m <-> get m k = Some v).
Proof.
  induction m as [ | [k0 v0] m IH]; intros N; cbn [get In].
  - split; [intros [] | discriminate].
  - inversion N as [ | ? ? NI N']; subst. cbn [fst] in NI.
    destruct (String.eqb_spec k0 k) as [-> | N0].
    + split.
      * intros [E | I]; [congruence | ].
        exfalso. apply NI. change k with (fst (k, v)). apply in_map, I.
      * intros E. left. congruence.
    + rewrite <- (IH N'). split; [intros [E | I]; [congruence | exact I] | auto].
Qed.

Lemma get_None (m : ScoresMap) (k : string) :
  get m k = None <-> ~ In k (map fst m).
Proof.
  induction m as [ | [k0 v0] m IH]; cbn [get map fst In]; [intuition | ].
  destruct (String.eqb_spec k0 k) as [-> | N0].
  - split; [discriminate | intros H; exfalso; apply H; now left].
  - rewrite IH. intuition.
Qed.

Lemma countOfUser_absent (u : string) (rows : list AggRow) :
  hasUser u rows = false -> countOfUser u rows = 0.
Proof.
  unfold hasUser, countOfUser.
  induction rows as [ | r rs IH]; cbn [existsb filter]; [reflexivity | ].
  intros H. apply orb_false_iff in H. destruct H as [H1 H2].
  rewrite H1. apply IH, H2.
Qed.

(** The score map after the rows [rows] are added to [m]. *)
Lemma fold_addRow_get (rows : list AggRow) (m : ScoresMap) (u : string) :
  get (fold_left addRow rows m) u
  = if hasUser u rows
    then Some (match get m u with Some v => v | None => 0 end
               + countOfUser u rows)
    else get m u.
Proof.
  revert m. induction rows as [ | row rows IH]; intros m;
    cbn [fold_left hasUser existsb]; [reflexivity | ].
  rewrite IH. fold (hasUser u rows).
  pose proof (countOfUser_absent u rows) as A.
  unfold countOfUser in *. cbn [filter]. unfold addRow.
  destruct (String.eqb_spec (agg_userId row) u) as [E | N]; cbn [orb].
  - rewrite E, get_set_same. unfold sumOf in *. cbn [fold_right].
    destruct (hasUser u rows); [f_equal; lia | ].
    rewrite (A eq_refl). f_equal. lia.
  - rewrite get_set_other by exact N. reflexivity.
Qed.

Lemma fold_addRow_keys (rows : list AggRow) (m : ScoresMap) :
  NoDup (map fst m) -> NoDup (map fst (fold_left addRow rows m)).
Proof.
  revert m. induction rows as [ | row rows IH]; intros m N; cbn [fold_left].
  - exact N.
  - apply IH. unfold addRow. apply set_keys, N.
Qed.

(** The score of a user is the count the goal check-ins give plus the
    count the streak check-ins give; a user without a row has no score. *)
Lemma scoresOf_lookup (goalAgg streakAgg : list AggRow) (u : string) :
  NoDup (map fst (scoresOf goalAgg streakAgg))
  /\ get (scoresOf goalAgg streakAgg) u
     = if hasUser u goalAgg || hasUser u streakAgg
       then Some (countOfUser u goalAgg + countOfUser u streakAgg)
       else None.
Proof.
  unfold scoresOf. split.
  - apply fold_addRow_keys, fold_addRow_keys. constructor.
  - rewrite !fold_addRow_get. cbn [get].
    pose proof (countOfUser_absent u goalAgg) as A.
    pose proof (countOfUser_absent u streakAgg) as B.
    destruct (hasUser u goalAgg), (hasUser u streakAgg); cbn [orb];
      try reflexivity; f_equal; try rewrite (A eq_refl);
      try rewrite (B eq_refl); lia.
Qed.

Lemma filter_keys_NoDup (f : string * Z -> bool) (m : ScoresMap) :
  NoDup (map fst m) -> NoDup (map fst (filter f m)).
Proof.
  induction m as [ | kv m IH]; intros N; cbn [filter]; [constructor | ].
  inversion N as [ | ? ? NI N']; subst.
  destruct (f kv); cbn [map]; [ | apply IH, N'].
  constructor; [ | apply IH, N'].
  intros I. apply NI. apply in_map_iff in I. destruct I as (x & E & I).
  apply filter_In in I. rewrite <- E. apply in_map, I.
Qed.

(** The entries a computation writes: one for each user whose two counts
    sum to a positive score and none for any other user; an entry carries
    the period and the metadata of the request and that sum as its score,
    and no two entries are of the same user. *)
Lemma entriesData_members (dto : ComputeRankingDto)
  (goalAgg streakAgg : list AggRow) :
  NoDup (map userId (entriesDataOf dto (scoresOf goalAgg streakAgg)))
  /\ forall e,
       In e (entriesDataOf dto (scoresOf goalAgg streakAgg))
       <-> (period e = dto_period dto
            /\ extra e = dto_metadata dto
            /\ hasUser (userId e) goalAgg || hasUser (userId e) streakAgg
               = true
            /\ score e
               = countOfUser (userId e) goalAgg
                 + countOfUser (userId e) streakAgg
            /\ 0 < score e).
Proof.
  destruct (scoresOf_lookup goalAgg streakAgg EmptyString) as [N _].
  assert (G : forall u, get (scoresOf goalAgg streakAgg) u
                = if hasUser u goalAgg || hasUser u streakAgg
                  then Some (countOfUser u goalAgg + countOfUser u streakAgg)
                  else None)
    by (intros u; apply scoresOf_lookup).
  generalize dependent (scoresOf goalAgg streakAgg). intros m N G.
  split.
  - unfold entriesDataOf. rewrite map_map.
    rewrite (map_ext _ fst) by (intros [u v]; reflexivity).
    apply filter_keys_NoDup, N.
  - intros e. split.
    + intros I. unfold entriesDataOf in I. apply in_map_iff in I.
      destruct I as ([u v] & <- & I). apply filter_In in I.
      destruct I as [I Pos]. apply Z.gtb_lt in Pos.
      apply (get_In m u v N) in I. rewrite G in I.
      cbn [period extra userId score].
      destruct (hasUser u goalAgg || hasUser u streakAgg); [ | discriminate I].
      injection I as <-. repeat split; try reflexivity; lia.
    + intros (Ep & Ex & H & S & Pos).
      unfold entriesDataOf. apply in_map_iff.
      exists (userId e, score e). split.
      * destruct e as [p u sc ex]. cbn in *. congruence.
      * apply filter_In. split; [ | apply Z.gtb_lt; lia].
        apply (get_In m _ _ N). rewrite G, H. now rewrite S.
Qed.

End ScoreFacts.

Section RankingsFacts.
Import Rankings MoreNotions.
Variable createForUser : string -> Notification -> bool.
Variable endOfLocalDay : Z -> Z.

Lemma entriesOf_app (p : string) (t t' : list RankingEntry) :
  entriesOf p (t ++ t') = (entriesOf p t ++ entriesOf p t')%list.
Proof. apply filter_app. Qed.

Lemma entriesOf_deleteMany_same (p : string) (t : list RankingEntry) :
  entriesOf p (deleteMany p t) = [].
Proof.
  unfold entriesOf, deleteMany. induction t as [ | e t IH]; cbn [filter].
  - reflexivity.
  - destruct (String.eqb (period e) p) eqn:E; cbn [negb filter].
    + exact IH.
    + rewrite E. exact IH.
Qed.

Lemma entriesOf_deleteMany_other (p p' : string) (t : list RankingEntry) :
  p' <> p -> entriesOf p' (deleteMany p t) = entriesOf p' t.
Proof.
  intros N. unfold entriesOf, deleteMany.
  induction t as [ | e t IH]; cbn [filter]; [reflexivity | ].
  destruct (String.eqb_spec (period e) p) as [E | E]; cbn [negb filter].
  - destruct (String.eqb_spec (period e) p') as [E' | E']; [congruence | exact IH].
  - destruct (String.eqb (period e) p'); [f_equal | ]; exact IH.
Qed.

Lemma entriesOf_entriesData (dto : ComputeRankingDto) (m : ScoresMap) :
  entriesOf (dto_period dto) (entriesDataOf dto m) = entriesDataOf dto m.
Proof.
  unfold entriesOf, entriesDataOf.
  induction (filter (fun '(_, score) => score >? 0) m) as [ | [u sc] l IH];
    cbn [map filter period]; [reflexivity | ].
  rewrite String.eqb_refl. f_equal. exact IH.
Qed.

Lemma entriesOf_entriesData_other (dto : ComputeRankingDto) (m : ScoresMap)
  (p' : string) :
  p' <> dto_period dto -> entriesOf p' (entriesDataOf dto m) = [].
Proof.
  intros N. unfold entriesOf, entriesDataOf.
  induction (filter (fun '(_, score) => score >? 0) m) as [ | [u sc] l IH];
    cbn [map filter period]; [reflexivity | ].
  destruct (String.eqb_spec (dto_period dto) p'); [congruence | exact IH].
Qed.

(** The table after [compute]: the entries of the period are deleted, the
    computed ones added. *)
Lemma compute_table (dto : ComputeRankingDto) (goalAgg streakAgg : list AggRow)
  (w : World) :
  rankingEntry (fst (compute createForUser endOfLocalDay dto goalAgg streakAgg w))
  = (deleteMany (dto_period dto) (rankingEntry w)
     ++ entriesDataOf dto (scoresOf goalAgg streakAgg))%list.
Proof.
  unfold compute.
  destruct (entriesDataOf dto (scoresOf goalAgg streakAgg)) as [ | e l] eqn:E;
    cbn [List.length Nat.eqb fst rankingEntry].
  - now rewrite app_nil_r.
  - reflexivity.
Qed.

Lemma compute_entriesOf (dto : ComputeRankingDto)
  (goalAgg streakAgg : list AggRow) (w : World) :
  let w' := fst (compute createForUser endOfLocalDay dto goalAgg streakAgg w) in
  entriesOf (dto_period dto) (rankingEntry w')
  = entriesDataOf dto (scoresOf goalAgg streakAgg)
  /\ forall p', p' <> dto_period dto ->
       entriesOf p' (rankingEntry w') = entriesOf p' (rankingEntry w).
Proof.
  cbv zeta. rewrite compute_table. split.
  - rewrite entriesOf_app, entriesOf_deleteMany_same, entriesOf_entriesData.
    reflexivity.
  - intros p' N.
    rewrite entriesOf_app, entriesOf_deleteMany_other,
      entriesOf_entriesData_other by exact N.
    apply app_nil_r.
Qed.

(** C6: of two successive ranking computations for a period, the second
    leaves as the persisted leaderboard of the period exactly the entries
    derived from its own input: one entry for each user whose count of
    goal check-ins plus count of streak check-ins in the second input is
    positive, with that sum as score and the period and metadata of the
    second request, no user twice and no other entry, whatever the first
    computation wrote; and the entries of every other period are as they
    were before either computation. *)
Theorem compute_full_replace (dto1 dto2 : ComputeRankingDto)
  (goalAgg1 streakAgg1 goalAgg2 streakAgg2 : list AggRow) (w : World) :
  dto_period dto1 = dto_period dto2 ->
  let w1 :=
    fst (compute createForUser endOfLocalDay dto1 goalAgg1 streakAgg1 w) in
  let w2 :=
    fst (compute createForUser endOfLocalDay dto2 goalAgg2 streakAgg2 w1) in
  let stored := entriesOf (dto_period dto2) (rankingEntry w2) in
  NoDup (map userId stored)
  /\ (forall e,
        In e stored
        <-> (period e = dto_period dto2
             /\ extra e = dto_metadata dto2
             /\ hasUser (userId e) goalAgg2 || hasUser (userId e) streakAgg2
                = true
             /\ score e
                = countOfUser (userId e) goalAgg2
                  + countOfUser (userId e) streakAgg2
             /\ 0 < score e))
  /\ forall p', p' <> dto_period dto2 ->
       entriesOf p' (rankingEntry w2) = entriesOf p' (rankingEntry w1)
       /\ entriesOf p' (rankingEntry w1) = entriesOf p' (rankingEntry w).
Proof.
  intros P. cbv zeta.
  destruct (compute_entriesOf dto2 goalAgg2 streakAgg2
              (fst (compute createForUser endOfLocalDay dto1 goalAgg1
                      streakAgg1 w))) as [S2 O2].
  destruct (compute_entriesOf dto1 goalAgg1 streakAgg1 w) as [_ O1].
  rewrite S2.
  destruct (entriesData_members dto2 goalAgg2 streakAgg2) as [N M].
  split; [exact N | ]. split; [exact M | ]. intros p' N'. split.
  - apply O2, N'.
  - apply O1. congruence.
Qed.

End RankingsFacts.

Lemma compute_full_replace_witness :
  let w1 := fst (Rankings.compute (fun _ _ => true) (fun t => t) rankingDto
                   firstGoalAgg [] otherPeriodWorld) in
  let w2 := fst (Rankings.compute (fun _ _ => true) (fun t => t) rankingDto
                   secondGoalAgg secondStreakAgg w1) in
  entriesOf "2024-01" (Rankings.rankingEntry w2)
  = [ rankingOf "a" 10; rankingOf "b" 7; rankingOf "c" 7 ]
  /\ entriesOf "2024-01" (Rankings.rankingEntry w1)
     = [ rankingOf "x" 5; rankingOf "a" 2 ]
  /\ ~ In (rankingOf "x" 5) (entriesOf "2024-01" (Rankings.rankingEntry w2))
  /\ entriesOf "2023-12" (Rankings.rankingEntry w2)
     = entriesOf "2023-12" (Rankings.rankingEntry otherPeriodWorld).
Proof.
  destruct (compute_full_replace (fun _ _ => true) (fun t => t)
              rankingDto rankingDto firstGoalAgg [] secondGoalAgg
              secondStreakAgg otherPeriodWorld eq_refl) as (_ & M & O).
  split; [vm_compute; reflexivity | ]. split; [vm_compute; reflexivity | ].
  split.
  - intros I. apply M in I. destruct I as (_ & _ & H & _).
    vm_compute in H. discriminate H.
  - destruct (O "2023-12") as [O2 O1]; [discriminate | ].
    exact (eq_trans O2 O1).
Defined.

Section RankingsDispatch.
Import Rankings.
Variable createForUser : string -> Notification -> bool.
Variable endOfLocalDay : Z -> Z.

Lemma mapIndexed_length {A B : Type} (f : A -> Z -> B) (k : Z) (l : list A) :
  List.length (mapIndexed f k l) = List.length l.
Proof.
  revert k. induction l as [ | x l IH]; intros k; cbn; [reflexivity | ].
  now rewrite IH.
Qed.

Lemma mapIndexed_nth {A B : Type} (f : A -> Z -> B) (k : Z) (l : list A)
  (i : nat) (x : A) :
  nth_error l i = Some x ->
  nth_error (mapIndexed f k l) i = Some (f x (k + Z.of_nat i)).
Proof.
  revert k i. induction l as [ | y l IH]; intros k [ | i] H;
    try discriminate H; cbn [mapIndexed nth_error] in *.
  - injection H as ->. f_equal. f_equal. lia.
  - rewrite (IH (k + 1) i H). f_equal. f_equal. lia.
Qed.

Lemma findMany_after_replace (dto : ComputeRankingDto)
  (goalAgg streakAgg : list AggRow) (table : list RankingEntry) :
  findMany (dto_period dto)
    (createMany (deleteMany (dto_period dto) table)
       (entriesDataOf dto (scoresOf goalAgg streakAgg)))
  = leaderboardOf dto goalAgg streakAgg.
Proof.
  unfold findMany, createMany, leaderboardOf. f_equal.
  change (entriesOf (dto_period dto)
            (deleteMany (dto_period dto) table
             ++ entriesDataOf dto (scoresOf goalAgg streakAgg))
          = entriesDataOf dto (scoresOf goalAgg streakAgg)).
  rewrite entriesOf_app, entriesOf_deleteMany_same, entriesOf_entriesData.
  reflexivity.
Qed.

(** [compute] when some user has a positive score. *)
Lemma compute_ranked (dto : ComputeRankingDto) (goalAgg streakAgg : list AggRow)
  (w : World) :
  entriesDataOf dto (scoresOf goalAgg streakAgg) <> [] ->
  let rankings := leaderboardOf dto goalAgg streakAgg in
  let totalUsers := Z.of_nat (List.length rankings) in
  let calls := mapIndexed (notificationFor dto totalUsers) 0 rankings in
  compute createForUser endOfLocalDay dto goalAgg streakAgg w
  = ({| rankingEntry :=
          (deleteMany (dto_period dto) (rankingEntry w)
           ++ entriesDataOf dto (scoresOf goalAgg streakAgg))%list;
        dispatched := (dispatched w ++ calls)%list |},
     if forallb (fun c => createForUser (fst c) (snd c)) calls
     then inr (Ranked (dto_period dto) (dto_from dto)
                 (endOfLocalDay (dto_to dto)) totalUsers rankings)
     else inl DispatchRejected).
Proof.
  intros NE. cbv zeta. unfold compute.
  destruct (entriesDataOf dto (scoresOf goalAgg streakAgg)) as [ | e l] eqn:E;
    [contradiction | ].
  cbn [List.length Nat.eqb]. rewrite <- E, findMany_after_replace.
  unfold promiseAll, createMany.
  destruct (forallb _ _); reflexivity.
Qed.

Lemma leaderboardOf_descending (dto : ComputeRankingDto)
  (goalAgg streakAgg : list AggRow) :
  Sorted (fun a b => score b <= score a) (leaderboardOf dto goalAgg streakAgg).
Proof.
  pose proof (sort_Sorted (fun a b : RankingEntry => score b - score a)
                ltac:(intros a b; lia)
                (entriesDataOf dto (scoresOf goalAgg streakAgg))) as S.
  unfold leaderboardOf.
  eapply Sorted_ind with (P := Sorted (fun a b => score b <= score a)) in S.
  - exact S.
  - constructor.
  - intros a l _ IH H. constructor; [exact IH | ].
    destruct H; constructor. lia.
Qed.

Lemma notificationFor_expected (dto : ComputeRankingDto) (totalUsers : Z)
  (entry : RankingEntry) (i : nat) :
  notificationFor dto totalUsers entry (0 + Z.of_nat i)
  = expectedNotification dto totalUsers i entry.
Proof. unfold notificationFor, expectedNotification. reflexivity. Qed.

(** C7: in a leaderboard that the computation returns, entries come by
    descending score and the entry at position [i] (from 0) has rank
    [i + 1], with no gap on ties; its notification has kind TOP3 exactly
    when the rank is at most 3 and RESULT otherwise, and carries the
    period, the rank, the score and the number of ranked users; three
    returned entries (as for scores 10, 7, 7) get ranks 1, 2, 3 and kinds
    TOP3, TOP3, TOP3. *)
Theorem compute_rank_assignment (dto : ComputeRankingDto)
  (goalAgg streakAgg : list AggRow) (w w' : World) (p : string)
  (from to totalUsers : Z) (rankings : list RankingEntry) :
  compute createForUser endOfLocalDay dto goalAgg streakAgg w
  = (w', inr (Ranked p from to totalUsers rankings)) ->
  Sorted (fun a b => score b <= score a) rankings
  /\ Permutation rankings (entriesDataOf dto (scoresOf goalAgg streakAgg))
  /\ totalUsers = Z.of_nat (List.length rankings)
  /\ exists calls,
       dispatched w' = (dispatched w ++ calls)%list
       /\ List.length calls = List.length rankings
       /\ (forall i entry,
             nth_error rankings i = Some entry ->
             nth_error calls i
             = Some (expectedNotification dto totalUsers i entry))
       /\ (forall c, In c calls ->
             (n_type (snd c) = RANKING_TOP3 <-> p_rank (n_payload (snd c)) <= 3)
             /\ (n_type (snd c) = RANKING_RESULT
                 <-> 3 < p_rank (n_payload (snd c))))
       /\ (List.length rankings = 3%nat ->
           map (fun c => (p_rank (n_payload (snd c)), n_type (snd c))) calls
           = [(1, RANKING_TOP3); (2, RANKING_TOP3); (3, RANKING_TOP3)]).
Proof.
  intros H.
  destruct (entriesDataOf dto (scoresOf goalAgg streakAgg)) as [ | e0 l0] eqn:E.
  { unfold compute in H. rewrite E in H. cbn [List.length Nat.eqb] in H.
    discriminate H. }
  assert (NE : entriesDataOf dto (scoresOf goalAgg streakAgg) <> [])
    by (rewrite E; discriminate).
  rewrite (compute_ranked dto goalAgg streakAgg w NE) in H. rewrite <- E.
  destruct (forallb _ _); [ | discriminate H].
  injection H as <- <- <- <- <- <-.
  split; [apply leaderboardOf_descending | ].
  split; [apply sort_Permutation | ].
  split; [reflexivity | ].
  eexists. cbn [dispatched]. split; [reflexivity | ].
  split; [apply mapIndexed_length | ].
  generalize (leaderboardOf dto goalAgg streakAgg). intros rankings.
  generalize (Z.of_nat (List.length rankings)) at 1 2 3. intros n.
  split; [ | split].
  - intros i entry Hi. rewrite (mapIndexed_nth _ _ _ _ _ Hi).
    now rewrite notificationFor_expected.
  - intros c Hc. apply In_nth_error in Hc. destruct Hc as [i Hi].
    destruct (nth_error rankings i) as [entry | ] eqn:Hr.
    + rewrite (mapIndexed_nth _ _ _ _ _ Hr), notificationFor_expected in Hi.
      injection Hi as <-.
      cbn [expectedNotification snd n_type n_payload p_rank].
      destruct (Z.leb_spec (Z.of_nat i + 1) 3); split; split;
        try discriminate; try lia; reflexivity.
    + exfalso. apply nth_error_None in Hr.
      assert (i < List.length (mapIndexed (notificationFor dto n) 0 rankings))%nat
        by (apply nth_error_Some; rewrite Hi; discriminate).
      rewrite mapIndexed_length in *. lia.
  - intros L3. destruct rankings as [ | e1 [ | e2 [ | e3 [ | e4 r]]]];
      try discriminate L3.
    reflexivity.
Qed.

(** C8, as stated, fails: when the dispatch to user [b] fails, the
    computation does not return the leaderboard, it rejects. *)
Lemma compute_rejects_when_dispatch_fails :
  snd (compute failsForB (fun t => t) rankingDto secondGoalAgg secondStreakAgg
         otherPeriodWorld)
  = inl DispatchRejected
  /\ forall res,
       snd (compute failsForB (fun t => t) rankingDto secondGoalAgg
              secondStreakAgg otherPeriodWorld)
       <> inr res.
Proof.
  split; [vm_compute; reflexivity | ].
  intros res. vm_compute. discriminate.
Qed.

(** C8 (amended): in a ranking computation with at least one ranked user,
    whether or not some dispatch fails, the replaced leaderboard stays
    written and the dispatch to every ranked user is attempted, one call
    per entry in leaderboard order; the computation returns the full
    leaderboard when every dispatch succeeds, and when the dispatch for
    some user fails it rejects with that failure instead of returning. *)
Theorem compute_dispatch_failure (dto : ComputeRankingDto)
  (goalAgg streakAgg : list AggRow) (w : World) :
  entriesDataOf dto (scoresOf goalAgg streakAgg) <> [] ->
  let rankings := leaderboardOf dto goalAgg streakAgg in
  let totalUsers := Z.of_nat (List.length rankings) in
  let w' := fst (compute createForUser endOfLocalDay dto goalAgg streakAgg w) in
  let result :=
    snd (compute createForUser endOfLocalDay dto goalAgg streakAgg w) in
  entriesOf (dto_period dto) (rankingEntry w')
  = entriesDataOf dto (scoresOf goalAgg streakAgg)
  /\ (exists calls,
        dispatched w' = (dispatched w ++ calls)%list
        /\ map fst calls = map userId rankings
        /\ ((exists c, In c calls /\ createForUser (fst c) (snd c) = false) ->
            result = inl DispatchRejected)
        /\ ((forall c, In c calls -> createForUser (fst c) (snd c) = true) ->
            result = inr (Ranked (dto_period dto) (dto_from dto)
                            (endOfLocalDay (dto_to dto)) totalUsers rankings))).
Proof.
  intros NE. cbv zeta.
  split; [apply (compute_entriesOf createForUser endOfLocalDay) | ].
  rewrite (compute_ranked dto goalAgg streakAgg w NE). cbn [fst snd dispatched].
  eexists. split; [reflexivity | ]. split; [ | split].
  - generalize (Z.of_nat (List.length (leaderboardOf dto goalAgg streakAgg))).
    intros n. generalize 0.
    induction (leaderboardOf dto goalAgg streakAgg) as [ | e l IH]; intros k.
    + reflexivity.
    + cbn [mapIndexed map notificationFor fst]. f_equal. apply IH.
  - intros (c & Hc & F).
    destruct (forallb _ _) eqn:A; [ | reflexivity].
    rewrite forallb_forall in A. rewrite (A c Hc) in F. discriminate F.
  - intros A. apply forallb_forall in A. rewrite A. reflexivity.
Qed.

End RankingsDispatch.

Lemma compute_rank_assignment_witness :
  exists w' calls,
    Rankings.compute (fun _ _ => true) (fun t => t) rankingDto secondGoalAgg
      secondStreakAgg otherPeriodWorld
    = (w', inr (Rankings.Ranked "2024-01" 1704067200000 1706659200000 3
                  (leaderboardOf rankingDto secondGoalAgg secondStreakAgg)))
    /\ map Rankings.score
         (leaderboardOf rankingDto secondGoalAgg secondStreakAgg)
       = [10; 7; 7]
    /\ Rankings.dispatched w' = calls
    /\ map (fun c => (Rankings.p_rank (Rankings.n_payload (snd c)),
                      Rankings.n_type (snd c))) calls
       = [(1, Rankings.RANKING_TOP3); (2, Rankings.RANKING_TOP3);
          (3, Rankings.RANKING_TOP3)].
Proof.
  eexists. eexists.
  assert (E : Rankings.compute (fun _ _ => true) (fun t => t) rankingDto
                secondGoalAgg secondStreakAgg otherPeriodWorld
              = (fst (Rankings.compute (fun _ _ => true) (fun t => t)
                        rankingDto secondGoalAgg secondStreakAgg
                        otherPeriodWorld),
                 inr (Rankings.Ranked "2024-01" 1704067200000 1706659200000 3
                        (leaderboardOf rankingDto secondGoalAgg
                           secondStreakAgg))))
    by (vm_compute; reflexivity).
  destruct (compute_rank_assignment _ _ _ _ _ _ _ _ _ _ _ _ E)
    as (_ & _ & _ & calls & D & _ & _ & _ & T).
  split; [exact E | ]. split; [vm_compute; reflexivity | ].
  split; [reflexivity | ].
  rewrite D. cbn [Rankings.dispatched otherPeriodWorld app].
  apply T. vm_compute. reflexivity.
Defined.

Lemma compute_dispatch_failure_witness :
  (exists calls,
     Rankings.dispatched
       (fst (Rankings.compute failsForB (fun t => t) rankingDto secondGoalAgg
               secondStreakAgg otherPeriodWorld))
     = calls
     /\ map fst calls = ["a"; "b"; "c"]%string)
  /\ snd (Rankings.compute failsForB (fun t => t) rankingDto secondGoalAgg
            secondStreakAgg otherPeriodWorld)
     = inl DispatchRejected.
Proof.
  destruct (compute_dispatch_failure failsForB (fun t => t) rankingDto
              secondGoalAgg secondStreakAgg otherPeriodWorld)
    as (_ & calls & D & U & F & _).
  - vm_compute. discriminate.
  - split.
    + exists calls. split; [exact D | ]. rewrite U. vm_compute. reflexivity.
    + apply F.
      assert (I : In "b"%string (map fst calls))
        by (rewrite U; vm_compute; auto).
      apply in_map_iff in I. destruct I as (c & Ec & Hc).
      exists c. split; [exact Hc | ]. rewrite Ec. reflexivity.
Defined.

(** ** Activity metrics (claims C9 and C10) *)

Section Metrics.
Import Stats.

Lemma upsertBucket_consistent (k : string) (bs : Buckets) :
  Forall bucketConsistent bs -> Forall bucketConsistent (upsertBucket k bs).
Proof.
  intros F. unfold upsertBucket. destruct (negb (has bs k)); [ | exact F].
  apply Forall_app. split; [exact F | ].
  constructor; [ | constructor]. unfold bucketConsistent. cbn. lia.
Qed.

Lemma modify_consistent (k : string) (f : Bucket -> Bucket) (bs : Buckets) :
  (forall b, bucketConsistent b -> bucketConsistent (f b)) ->
  Forall bucketConsistent bs -> Forall bucketConsistent (modify k f bs).
Proof.
  intros Hf F. unfold modify. apply Forall_map.
  rewrite Forall_forall in *. intros b Hb.
  destruct (String.eqb (key b) k); [apply Hf | ]; apply F, Hb.
Qed.

Lemma addGoalCheckin_consistent (period : Period) (bs : Buckets)
  (c : GoalCheckin) :
  Forall bucketConsistent bs ->
  Forall bucketConsistent (addGoalCheckin period bs c).
Proof.
  intros F. unfold addGoalCheckin.
  apply modify_consistent; [ | apply upsertBucket_consistent, F].
  intros b (T & G & S & _). unfold bucketConsistent.
  cbn [total goalCheckins streakCheckins].
  destruct (isActive c); lia.
Qed.

Lemma addStreakCheckin_consistent (period : Period) (bs : Buckets)
  (c : StreakCheckin) :
  Forall bucketConsistent bs ->
  Forall bucketConsistent (addStreakCheckin period bs c).
Proof.
  intros F. unfold addStreakCheckin.
  apply modify_consistent; [ | apply upsertBucket_consistent, F].
  intros b (T & G & S & _). unfold bucketConsistent.
  cbn [total goalCheckins streakCheckins]. lia.
Qed.

Lemma fold_consistent {C : Type} (add : Buckets -> C -> Buckets)
  (cs : list C) (bs : Buckets) :
  (forall bs c, Forall bucketConsistent bs -> Forall bucketConsistent (add bs c)) ->
  Forall bucketConsistent bs ->
  Forall bucketConsistent (fold_left add cs bs).
Proof.
  intros Hadd. revert bs. induction cs as [ | c cs IH]; intros bs F.
  - exact F.
  - cbn [fold_left]. apply IH, Hadd, F.
Qed.

(** C9: in every result of [activityMetrics], each bucket has
    [total = goalCheckins + streakCheckins] with the three counters
    non-negative, and the buckets come in ascending order of their keys,
    the order being that of [localeCompare]. *)
Theorem activityMetrics_buckets (localeCompare : string -> string -> Z)
  (now : Z) (goalCheckin : list GoalCheckin)
  (streakCheckin : list StreakCheckin) (userId : string) (q : RangeDto)
  (res : ActivityMetrics) :
  (forall a b, 0 < localeCompare a b -> localeCompare b a <= 0) ->
  activityMetrics localeCompare now goalCheckin streakCheckin userId q
  = inr res ->
  Forall (fun b =>
            total b = goalCheckins b + streakCheckins b
            /\ 0 <= goalCheckins b /\ 0 <= streakCheckins b /\ 0 <= total b)
         (buckets res)
  /\ Sorted (fun a b => localeCompare (key a) (key b) <= 0) (buckets res).
Proof.
  intros HT H. unfold activityMetrics in H.
  destruct (resolveRange now q) as [e | r]; [discriminate H | ].
  cbn [bind] in H. injection H as <-. cbn [buckets]. split.
  - eapply Permutation_Forall; [apply Permutation_sym, sort_Permutation | ].
    apply fold_consistent; [intros; now apply addStreakCheckin_consistent | ].
    apply fold_consistent; [intros; now apply addGoalCheckin_consistent | ].
    constructor.
  - apply (sort_Sorted (fun a b => localeCompare (key a) (key b))).
    intros a b. apply HT.
Qed.

Lemma codeUnitCompare_total (a b : string) :
  0 < codeUnitCompare a b -> codeUnitCompare b a <= 0.
Proof.
  unfold codeUnitCompare. rewrite (String.compare_antisym a b).
  destruct (String.compare b a); cbn [CompOpp]; lia.
Qed.

Lemma activityMetrics_buckets_witness :
  exists res,
    activityMetrics codeUnitCompare 1706659200000 metricsGoalCheckins
      metricsStreakCheckins "u1" january2024 = inr res
    /\ map key (buckets res) = ["2024-01-01"; "2024-01-02"]%string
    /\ Forall (fun b =>
                 total b = goalCheckins b + streakCheckins b
                 /\ 0 <= goalCheckins b /\ 0 <= streakCheckins b
                 /\ 0 <= total b) (buckets res)
    /\ Sorted (fun a b => codeUnitCompare (key a) (key b) <= 0) (buckets res).
Proof.
  eexists. split; [vm_compute; reflexivity | ].
  split; [reflexivity | ].
  apply (activityMetrics_buckets codeUnitCompare 1706659200000
           metricsGoalCheckins metricsStreakCheckins "u1" january2024).
  - exact codeUnitCompare_total.
  - vm_compute. reflexivity.
Defined.

Lemma modify_absent (k : string) (f : Bucket -> Bucket) (bs : Buckets) :
  has bs k = false -> modify k f bs = bs.
Proof.
  unfold has, modify. induction bs as [ | b bs IH]; cbn [existsb map];
    intros H; [reflexivity | ].
  apply orb_false_iff in H. destruct H as [Hb H].
  rewrite Hb, IH by exact H. reflexivity.
Qed.

Lemma modify_app (k : string) (f : Bucket -> Bucket) (bs bs' : Buckets) :
  modify k f (bs ++ bs')%list = (modify k f bs ++ modify k f bs')%list.
Proof. apply map_app. Qed.

Lemma modify_counters (k : string) (f : Bucket -> Bucket) (bs : Buckets) :
  (forall b, goalCheckins (f b) = goalCheckins b
             /\ streakCheckins (f b) = streakCheckins b) ->
  map goalCheckins (modify k f bs) = map goalCheckins bs
  /\ map streakCheckins (modify k f bs) = map streakCheckins bs.
Proof.
  intros Hf. unfold modify. rewrite !map_map.
  split; apply map_ext; intros b;
    destruct (String.eqb (key b) k); try reflexivity; apply Hf.
Qed.

(** C10: a goal check-in that is not active creates the bucket of its key
    when the map does not have it, with all counters 0, and increments no
    counter of a bucket the map has; so a request whose only record is an
    inactive goal check-in gets back one bucket with [goalCheckins],
    [streakCheckins] and [total] all 0. *)
Theorem inactive_checkin_creates_bucket (period : Period) (c : GoalCheckin)
  (bs : Buckets) (localeCompare : string -> string -> Z) (now : Z)
  (q : RangeDto) (r : DateRange) :
  isActive c = false ->
  let k := bucketKey (normalizeDate (gc_date c)) period in
  let empty :=
    {| key := k; goalCheckins := 0; streakCheckins := 0; total := 0 |} in
  (has bs k = false -> addGoalCheckin period bs c = (bs ++ [empty])%list)
  /\ (has bs k = true ->
      map key (addGoalCheckin period bs c) = map key bs
      /\ map goalCheckins (addGoalCheckin period bs c) = map goalCheckins bs
      /\ map streakCheckins (addGoalCheckin period bs c)
         = map streakCheckins bs)
  /\ (resolveRange now q = inr r -> q_period q = Some period ->
      inRange r (gc_date c) = true ->
      activityMetrics localeCompare now [c] [] (gc_userId c) q
      = inr {| am_period := period; am_from := from r; am_to := to r;
               buckets := [empty] |}).
Proof.
  intros HA. cbv zeta.
  remember (bucketKey (normalizeDate (gc_date c)) period) as k eqn:Hk.
  assert (New : forall bs', has bs' k = false ->
            addGoalCheckin period bs' c
            = (bs' ++ [{| key := k; goalCheckins := 0; streakCheckins := 0;
                          total := 0 |}])%list).
  { intros bs' H. unfold addGoalCheckin. rewrite <- Hk. unfold upsertBucket.
    rewrite H. cbn [negb]. rewrite modify_app, modify_absent by exact H.
    f_equal. unfold modify. cbn [map key]. rewrite String.eqb_refl, HA.
    reflexivity. }
  split; [apply New | split].
  - intros H. unfold addGoalCheckin. rewrite <- Hk. unfold upsertBucket.
    rewrite H. cbn [negb]. split.
    + unfold modify. rewrite map_map. apply map_ext. intros b.
      destruct (String.eqb (key b) k); reflexivity.
    + apply modify_counters. intros b. cbn [goalCheckins streakCheckins].
      rewrite HA. split; [lia | reflexivity].
  - intros HR HP HI. unfold activityMetrics. rewrite HR, HP. cbn [bind].
    cbn [filter]. rewrite String.eqb_refl, HI. cbn [andb fold_left].
    rewrite (New [] eq_refl). reflexivity.
Qed.

Lemma inactive_checkin_creates_bucket_witness :
  activityMetrics codeUnitCompare 1706659200000
    [dailyCheckin 7 false] [] "u1" january2024
  = inr {| am_period := day; am_from := 1704067200000;
           am_to := 1706659200000;
           buckets := [ {| key := "2024-01-08"; goalCheckins := 0;
                           streakCheckins := 0; total := 0 |} ] |}.
Proof.
  pose proof (inactive_checkin_creates_bucket day (dailyCheckin 7 false) []
                codeUnitCompare 1706659200000
                {| q_from := Some (Some 1704067200000);
                   q_to := Some (Some 1706659200000);
                   q_period := Some day |}
                {| from := 1704067200000; to := 1706659200000 |} eq_refl)
    as (_ & _ & M).
  apply M; vm_compute; reflexivity.
Defined.

End Metrics.

(** * Further properties of the services *)

Import MoreNotions StatsQueries.

(** ** Normalized days *)

Section NormalizedDays.
Import Stats.

(** Two time values on the same UTC day normalize to the same day. *)
Theorem normalizeDate_same_day (t t' : Z) :
  Day t = Day t' -> normalizeDate t = normalizeDate t'.
Proof.
  intros E.
  assert (Y : YearFromTime t = YearFromTime t')
    by (unfold YearFromTime; now rewrite E).
  assert (W : DayWithinYear t = DayWithinYear t')
    by (unfold DayWithinYear; now rewrite E, Y).
  assert (L : InLeapYear t = InLeapYear t')
    by (unfold InLeapYear; now rewrite Y).
  assert (M : MonthFromTime t = MonthFromTime t')
    by (unfold MonthFromTime; now rewrite W, L).
  assert (D : DateFromTime t = DateFromTime t')
    by (unfold DateFromTime; now rewrite W, M, L).
  unfold normalizeDate, getUTCFullYear, getUTCMonth, getUTCDate.
  now rewrite Y, M, D.
Qed.

Lemma normalizeDate_same_day_witness :
  normalizeDate 1704067200000 = normalizeDate 1704153599999.
Proof.
  apply (normalizeDate_same_day 1704067200000 1704153599999).
  vm_compute. reflexivity.
Defined.

(** Outside the years 0 to 99, [normalizeDay] truncates a time value to
    the midnight that starts its UTC day. *)
Theorem normalizeDate_truncates (t : Z) :
  ~ twoDigitYear (YearFromTime t) ->
  normalizeDate t = Day t * msPerDay
  /\ normalizeDate t <= t < normalizeDate t + msPerDay.
Proof.
  intros H. rewrite (normalizeDate_eq t H). split; [reflexivity | ].
  unfold Day, msPerDay. zdiv. lia.
Qed.

Lemma normalizeDate_truncates_witness :
  normalizeDate 1704153599999 = Day 1704153599999 * msPerDay
  /\ normalizeDate 1704153599999 <= 1704153599999
     < normalizeDate 1704153599999 + msPerDay.
Proof.
  apply (normalizeDate_truncates 1704153599999).
  vm_compute. intros [_ H]. apply H. reflexivity.
Defined.

Lemma monthStart_upper (m leap : Z) : 0 <= leap -> monthStart m leap <= 334 + leap.
Proof.
  intros H. unfold monthStart.
  repeat match goal with |- context [match ?x with _ => _ end] => destruct x end;
    lia.
Qed.

Lemma normalizeDate_twoDigit_eq (t : Z) :
  twoDigitYear (YearFromTime t) ->
  normalizeDate t
  = (DayFromYear (1900 + YearFromTime t)
     + monthStart (MonthFromTime t) (InLeapYearOf (1900 + YearFromTime t))
     + DateFromTime t - 1) * msPerDay.
Proof.
  unfold twoDigitYear. intros [L U].
  pose proof (MonthFromTime_range t) as RM.
  unfold normalizeDate, DateUTC, getUTCFullYear, getUTCMonth, getUTCDate.
  destruct (Z.leb_spec 0 (YearFromTime t)); [ | lia].
  destruct (Z.leb_spec (YearFromTime t) 99); [ | lia].
  cbn [andb]. unfold MakeDate, MakeDay.
  replace (MonthFromTime t / 12) with 0 by (zdiv; lia).
  replace (MonthFromTime t mod 12) with (MonthFromTime t) by (zdiv; lia).
  rewrite !Z.add_0_r. reflexivity.
Qed.

(** A date in one of the years 0 to 99 is normalized into the year 1900
    later: [Date.UTC] reads its year as a two-digit year. *)
Theorem normalizeDate_two_digit_year (t : Z) :
  twoDigitYear (YearFromTime t) ->
  YearFromTime (normalizeDate t) = 1900 + YearFromTime t.
Proof.
  intros H. rewrite (normalizeDate_twoDigit_eq t H).
  unfold YearFromTime at 1. rewrite Day_of_multiple.
  pose proof (DateFromTime_range t) as RD.
  pose proof (monthStart_range (MonthFromTime t)
                (InLeapYearOf (1900 + YearFromTime t))
                (InLeapYearOf_range _)) as RS.
  pose proof (monthStart_upper (MonthFromTime t)
                (InLeapYearOf (1900 + YearFromTime t))
                (proj1 (InLeapYearOf_range _))) as RU.
  apply YearFromDay_unique.
  rewrite DayFromYear_step, InLeapYearOf_eq. lia.
Qed.

Lemma normalizeDate_two_digit_year_witness :
  YearFromTime (normalizeDate (-60589296000000)) = 1900 + 50.
Proof.
  apply (normalizeDate_two_digit_year (-60589296000000)).
  vm_compute. split; discriminate.
Defined.

End NormalizedDays.

(** ** Range resolution and goal access *)

Section RangeAndGoal.
Import Stats.

Lemma resolveFrom_default (now : Z) (q : RangeDto) :
  clockValid now -> q_from q = None ->
  resolveFrom now q = inr (normalizeDate (now - 30 * msPerDay)).
Proof.
  unfold clockValid. intros V H. unfold resolveFrom.
  rewrite H, setUTCDate_back. unfold TimeClip.
  destruct (Z.leb_spec (Z.abs (now - 30 * msPerDay)) maxTime) as [_ | A];
    [reflexivity | unfold msPerDay, maxTime in *; lia].
Qed.

(** How [resolveRange] ends, the clock reading a time from the epoch on:
    with a range of two calendar days, [from] not after [to]; with
    [BadRequestException] when a supplied date does not parse, and then
    always; with [ForbiddenException] when both endpoints resolve and
    [from] is after [to]; and in no other way. *)
Theorem resolveRange_outcome (now : Z) (q : RangeDto) :
  clockValid now ->
  match resolveRange now q with
  | inr r => from r <= to r /\ isCalendarDay (from r) /\ isCalendarDay (to r)
  | inl (BadRequestException _) => q_from q = Some None \/ q_to q = Some None
  | inl (ForbiddenException _) =>
      exists f t,
        resolveFrom now q = inr f /\ resolveTo now q = inr t /\ t < f
  | inl _ => False
  end
  /\ (q_from q = Some None \/ q_to q = Some None ->
      resolveRange now q = inl (BadRequestException "date inválida")).
Proof.
  intros V.
  assert (F : resolveFrom now q = inl (BadRequestException "date inválida")
              /\ q_from q = Some None
              \/ exists t, resolveFrom now q = inr (normalizeDate t)).
  { destruct (q_from q) as [[t | ] | ] eqn:E.
    - right. exists t. unfold resolveFrom. rewrite E. reflexivity.
    - left. unfold resolveFrom. rewrite E. split; reflexivity.
    - right. eexists. apply resolveFrom_default; assumption. }
  assert (T : resolveTo now q = inl (BadRequestException "date inválida")
              /\ q_to q = Some None
              \/ (exists t, resolveTo now q = inr (normalizeDate t))
                 /\ q_to q <> Some None).
  { unfold resolveTo. destruct (q_to q) as [[t | ] | ] eqn:E.
    - right. split; [exists t; reflexivity | discriminate].
    - left. split; reflexivity.
    - right. split; [exists now; reflexivity | discriminate]. }
  unfold resolveRange.
  destruct F as [[F EF] | [f F]]; rewrite F; cbn [bind].
  - split; [left; exact EF | reflexivity].
  - destruct T as [[T ET] | [[t T] NT]]; rewrite T; cbn [bind].
    + split; [right; exact ET | reflexivity].
    + pose proof (normalizeDate_idempotent f) as Cf.
      pose proof (normalizeDate_idempotent t) as Ct.
      assert (NF : q_from q <> Some None).
      { intros E. unfold resolveFrom in F. rewrite E in F. discriminate F. }
      generalize dependent (normalizeDate f).
      generalize dependent (normalizeDate t).
      intros dt _ Ct df _ Cf.
      destruct (Z.gtb_spec df dt) as [G | G]; cbn.
      * split; [ | intros [E | E]; contradiction].
        exists df, dt. repeat split; lia.
      * split; [ | intros [E | E]; contradiction].
        repeat split; assumption.
Qed.

Lemma resolveRange_outcome_witness :
  resolveRange 1706659200000
    {| q_from := Some (Some 1706659200000); q_to := Some None;
       q_period := None |}
  = inl (BadRequestException "date inválida").
Proof.
  apply (resolveRange_outcome 1706659200000).
  - unfold clockValid, maxTime. lia.
  - right. reflexivity.
Defined.

(** How [getOwnedGoal] ends: with a goal of the store that has the asked
    id and belongs to the asking user; with [NotFoundException] when no
    goal has the id; with [ForbiddenException] when the goal of that id
    belongs to somebody else. *)
Theorem getOwnedGoal_outcome (goals : list Goal) (userId goalId : string) :
  match getOwnedGoal goals userId goalId with
  | inr goal =>
      In goal goals /\ goal_id goal = goalId /\ goal_userId goal = userId
  | inl (NotFoundException _) =>
      forall g, In g goals -> goal_id g <> goalId
  | inl (ForbiddenException _) =>
      exists g, In g goals /\ goal_id g = goalId /\ goal_userId g <> userId
  | inl _ => False
  end.
Proof.
  unfold getOwnedGoal.
  destruct (find (fun g => String.eqb (goal_id g) goalId) goals) as [goal | ]
    eqn:E.
  - apply find_some in E. destruct E as [I E]. apply String.eqb_eq in E.
    destruct (String.eqb_spec (goal_userId goal) userId) as [U | U]; cbn.
    + repeat split; assumption.
    + exists goal. repeat split; assumption.
  - cbn. intros g I H. apply (find_none _ _ E) in I.
    apply String.eqb_neq in I. contradiction.
Qed.

End RangeAndGoal.

(** ** Bounds of goal progress *)

Section ProgressBounds.
Import Stats.

Lemma ratio_unit (a b : Z) :
  0 <= a <= b -> 0 < b -> (0 <= inject_Z a / inject_Z b <= 1)%Q.
Proof.
  intros A B. destruct b as [ | p | p]; try lia.
  unfold Qdiv, Qmult, Qinv, Qle, inject_Z. cbn. lia.
Qed.

Lemma ratio_nonneg (a b : Z) :
  0 <= a -> 0 < b -> (0 <= inject_Z a / inject_Z b)%Q.
Proof.
  intros A B. destruct b as [ | p | p]; try lia.
  unfold Qdiv, Qmult, Qinv, Qle, inject_Z. cbn. lia.
Qed.

Lemma valueSum_nonneg (cs : list GoalCheckin) (acc : Z) :
  Forall (fun c => 0 <= valueOr0 c) cs -> 0 <= acc ->
  0 <= fold_left (fun acc c => acc + valueOr0 c) cs acc.
Proof.
  revert acc. induction cs as [ | c cs IH]; intros acc F A; cbn [fold_left].
  - exact A.
  - inversion F; subst. apply IH; [assumption | lia].
Qed.

Lemma filter_length_Z {A : Type} (f : A -> bool) (l : list A) :
  0 <= Z.of_nat (List.length (filter f l)) <= Z.of_nat (List.length l).
Proof. pose proof (filter_length_le f l). lia. Qed.

(** Whatever the kind of the goal, a progress report counts no more done
    check-ins than check-ins, and its completion, when it has one, is at
    most 1; when no check-in has a negative value, the value sum and the
    completion are not negative either. *)
Theorem goalProgress_bounds (now : Z) (goals : list Goal)
  (goalCheckin : list GoalCheckin) (userId goalId : string) (q : RangeDto)
  (res : GoalProgress) :
  goalProgress now goals goalCheckin userId goalId q = inr res ->
  0 <= doneCount res <= totalCheckins res
  /\ (forall c, completion res = Some c -> (c <= 1)%Q)
  /\ (Forall (fun c => 0 <= valueOr0 c) goalCheckin ->
      0 <= valueSum res
      /\ forall c, completion res = Some c -> (0 <= c)%Q).
Proof.
  unfold goalProgress. intros H.
  destruct (getOwnedGoal goals userId goalId) as [e | goal]; [discriminate H | ].
  destruct (resolveRange now q) as [e | r]; [discriminate H | ].
  cbn [bind] in H. injection H as <-.
  cbn [doneCount totalCheckins valueSum completion].
  set (checkins := findGoalCheckins goalCheckin goalId userId r).
  assert (D : 0 <= doneDaysOf (filter isActive checkins))
    by (unfold doneDaysOf, setSize; lia).
  generalize dependent (doneDaysOf (filter isActive checkins)).
  intros doneDays D.
  assert (S : Forall (fun c => 0 <= valueOr0 c) goalCheckin ->
              0 <= fold_left (fun acc c => acc + valueOr0 c) checkins 0).
  { intros F. apply valueSum_nonneg; [ | lia].
    rewrite Forall_forall in *. intros c Hc. apply F.
    unfold checkins, findGoalCheckins in Hc. apply filter_In in Hc. apply Hc. }
  generalize dependent (fold_left (fun acc c => acc + valueOr0 c) checkins 0).
  intros sum S.
  split; [apply filter_length_Z | ].
  unfold completionOf.
  generalize (normalizeDate (startDate goal)).
  generalize (normalizeDate
                (match endDate goal with Some e => e | None => to r end)).
  intros goalEnd goalStart.
  assert (Daily : forall c,
    (if goalEnd >=? goalStart
     then if daysBetweenInclusive goalStart goalEnd >? 0
          then Some (inject_Z (Z.min doneDays
                                 (daysBetweenInclusive goalStart goalEnd))
                     / inject_Z (daysBetweenInclusive goalStart goalEnd))%Q
          else None
     else None) = Some c -> (0 <= c <= 1)%Q).
  { intros c. destruct (goalEnd >=? goalStart); [ | discriminate].
    destruct (Z.gtb_spec (daysBetweenInclusive goalStart goalEnd) 0) as [P | P];
      [ | discriminate].
    intros E. injection E as <-. apply ratio_unit; lia. }
  assert (Target : forall c,
    match targetValue goal with
    | Some target =>
        if target >? 0
        then Some (Qmin 1 (inject_Z sum / inject_Z target))%Q
        else None
    | None => None
    end = Some c ->
    (c <= 1)%Q /\ (0 <= sum -> (0 <= c)%Q)).
  { intros c. destruct (targetValue goal) as [target | ]; [ | discriminate].
    destruct (Z.gtb_spec target 0) as [P | P]; [ | discriminate].
    intros E. injection E as <-. split; [apply Q.le_min_l | ].
    intros N. apply Q.min_glb; [discriminate | apply ratio_nonneg; lia]. }
  split.
  - intros c. destruct (targetType goal); intros E;
      try (apply (Target c E)); apply (Daily c E).
  - intros F. split; [apply S, F | ].
    intros c. destruct (targetType goal); intros E;
      try (apply (Target c E), S, F); apply (Daily c E).
Qed.

Lemma goalProgress_bounds_witness :
  exists res,
    goalProgress 1706659200000 [countGoal] countCheckins "u1" "g3" january2024
    = inr res
    /\ 0 <= doneCount res <= totalCheckins res
    /\ 0 <= valueSum res.
Proof.
  eexists. split; [vm_compute; reflexivity | ].
  destruct (goalProgress_bounds 1706659200000 [countGoal] countCheckins
              "u1" "g3" january2024 _ eq_refl) as (B & _ & N).
  split; [exact B | ]. apply N.
  repeat constructor; vm_compute; discriminate.
Defined.

End ProgressBounds.

(** ** Heat maps *)

Section Heatmaps.
Import Stats.

Lemma sumOf_app {A : Type} (f : A -> Z) (l l' : list A) :
  sumOf f (l ++ l') = sumOf f l + sumOf f l'.
Proof.
  unfold sumOf. induction l as [ | x l IH]; cbn [app fold_right]; lia.
Qed.

Lemma sumOf_Permutation {A : Type} (f : A -> Z) (l l' : list A) :
  Permutation l l' -> sumOf f l = sumOf f l'.
Proof.
  unfold sumOf. induction 1; cbn [fold_right]; lia.
Qed.

Lemma sumOf_map {A B : Type} (g : A -> B) (f : B -> Z) (l : list A) :
  sumOf f (map g l) = sumOf (fun x => f (g x)) l.
Proof.
  unfold sumOf. induction l as [ | x l IH]; cbn [map fold_right]; lia.
Qed.

Lemma countDate_sum (groups : list DateCount) (d : Z) :
  sumOf g_count (countDate groups d) = sumOf g_count groups + 1.
Proof.
  unfold sumOf. induction groups as [ | g gs IH]; cbn [countDate fold_right].
  - cbn. lia.
  - destruct (g_date g =? d); cbn [fold_right g_count]; lia.
Qed.

Lemma countDate_dates (groups : list DateCount) (d : Z) :
  forall x, In x (map g_date (countDate groups d))
            <-> x = d \/ In x (map g_date groups).
Proof.
  induction groups as [ | g gs IH]; intros x; cbn [countDate map In].
  - intuition.
  - destruct (Z.eqb_spec (g_date g) d) as [E | N]; cbn [map In g_date].
    + rewrite E. intuition.
    + rewrite IH. intuition.
Qed.

Lemma countDate_NoDup (groups : list DateCount) (d : Z) :
  NoDup (map g_date groups) -> NoDup (map g_date (countDate groups d)).
Proof.
  induction groups as [ | g gs IH]; intros N; cbn [countDate map].
  - repeat constructor. intros [].
  - inversion N as [ | ? ? NI N']; subst.
    destruct (Z.eqb_spec (g_date g) d) as [E | NE]; cbn [map g_date].
    + rewrite <- E. constructor; assumption.
    + constructor; [ | apply IH, N'].
      rewrite countDate_dates. intros [E | I]; [congruence | contradiction].
Qed.

Lemma countDate_count (groups : list DateCount) (d : Z) (g : DateCount) :
  NoDup (map g_date groups) ->
  In g (countDate groups d) ->
  (g_date g = d
   /\ (g_count g = 1 /\ ~ In d (map g_date groups)
       \/ exists g0, In g0 groups /\ g_date g0 = d
                     /\ g_count g = g_count g0 + 1))
  \/ (g_date g <> d /\ In g groups).
Proof.
  induction groups as [ | g1 gs IH]; intros N I; cbn [countDate] in I.
  - destruct I as [<- | []]. left. cbn. auto.
  - inversion N as [ | ? ? NI N']; subst.
    destruct (Z.eqb_spec (g_date g1) d) as [E | NE].
    + destruct I as [<- | I].
      * left. cbn [g_date g_count]. split; [reflexivity | right].
        exists g1. repeat split; auto. now left.
      * right. split; [ | now right].
        intros E'. apply NI. rewrite E, <- E'. apply in_map, I.
    + destruct I as [<- | I].
      * right. split; [exact NE | now left].
      * destruct (IH N' I) as [[Ed [[C NI'] | (g0 & I0 & E0 & C)]] | [Nd I']].
        -- left. split; [exact Ed | left]. split; [exact C | ].
           cbn [map In]. intros [X | X]; [congruence | contradiction].
        -- left. split; [exact Ed | right]. exists g0. repeat split; auto.
           now right.
        -- right. split; [exact Nd | now right].
Qed.

(** What [groupBy date] returns: one group per date that occurs, each with
    the number of records of that date. *)
Lemma groupByDate_spec (dates : list Z) :
  NoDup (map g_date (groupByDate dates))
  /\ (forall x, In x (map g_date (groupByDate dates)) <-> In x dates)
  /\ (forall g, In g (groupByDate dates) ->
        g_count g = Z.of_nat (count_occ Z.eq_dec dates (g_date g)))
  /\ sumOf g_count (groupByDate dates) = Z.of_nat (List.length dates).
Proof.
  unfold groupByDate.
  induction dates as [ | d dates IH] using rev_ind.
  - cbn. repeat split; try constructor; intros; contradiction.
  - rewrite fold_left_app. cbn [fold_left].
    destruct IH as (N & D & C & S).
    split; [apply countDate_NoDup, N | ].
    split; [ | split].
    + intros x. rewrite countDate_dates, D, in_app_iff. cbn. intuition.
    + intros g I. rewrite count_occ_app. cbn [count_occ].
      destruct (countDate_count _ _ _ N I)
        as [[Ed [[C1 NI] | (g0 & I0 & E0 & C1)]] | [Nd I']].
      * rewrite Ed. destruct (Z.eq_dec d d); [ | contradiction].
        rewrite D in NI. apply (count_occ_not_In Z.eq_dec) in NI.
        rewrite NI, C1. reflexivity.
      * rewrite Ed. destruct (Z.eq_dec d d); [ | contradiction].
        rewrite C1, (C g0 I0), E0. lia.
      * destruct (Z.eq_dec d (g_date g)); [congruence | ].
        rewrite (C g I'). lia.
    + rewrite countDate_sum, S, List.length_app. cbn. lia.
Qed.

Section HeatmapOf.
Variable localeCompare : string -> string -> Z.
Hypothesis localeCompare_total :
  forall a b, 0 < localeCompare a b -> localeCompare b a <= 0.

(** The cells of a heat map over records of the given dates. *)
Lemma heatmapOf_spec (dates : list Z) :
  let cells := heatmapOf localeCompare (groupByDate dates) in
  Sorted (fun a b => localeCompare (hm_date a) (hm_date b) <= 0) cells
  /\ sumOf hm_count cells = Z.of_nat (List.length dates)
  /\ (forall c, In c cells ->
        exists d, In d dates
                  /\ hm_date c = toISOString (normalizeDate d)
                  /\ hm_count c = Z.of_nat (count_occ Z.eq_dec dates d)
                  /\ 1 <= hm_count c)
  /\ (forall d, In d dates ->
        exists c, In c cells /\ hm_date c = toISOString (normalizeDate d)).
Proof.
  cbv zeta. unfold heatmapOf.
  destruct (groupByDate_spec dates) as (N & D & C & S).
  set (cell := fun r => {| hm_date := toISOString (normalizeDate (g_date r));
                           hm_count := g_count r |}).
  pose proof (sort_Permutation
                (fun a b => localeCompare (hm_date a) (hm_date b))
                (map cell (groupByDate dates))) as P.
  split; [ | split; [ | split]].
  - apply (sort_Sorted (fun a b => localeCompare (hm_date a) (hm_date b))).
    intros a b. apply localeCompare_total.
  - rewrite (sumOf_Permutation _ _ _ P), sumOf_map. exact S.
  - intros c I. apply (Permutation_in _ P) in I. apply in_map_iff in I.
    destruct I as (g & <- & I). exists (g_date g).
    assert (Id : In (g_date g) dates) by (apply D, in_map, I).
    repeat split; [exact Id | apply C, I | ].
    cbn [hm_count cell]. rewrite (C g I).
    apply (count_occ_In Z.eq_dec) in Id. lia.
  - intros d I. apply D in I. apply in_map_iff in I.
    destruct I as (g & <- & I). exists (cell g). split; [ | reflexivity].
    apply (Permutation_in _ (Permutation_sym P)), in_map, I.
Qed.

(** The check-ins [findGoalCheckins] reads are the rows of the table that
    are of the goal and of the user and dated within the range. *)
Lemma goal_checkins_selected (goalCheckin : list GoalCheckin)
  (goalId userId : string) (r : DateRange) :
  findGoalCheckins goalCheckin goalId userId r
  = filter (fun c => String.eqb (gc_goalId c) goalId
                     && String.eqb (gc_userId c) userId
                     && (from r <=? gc_date c) && (gc_date c <=? to r))
           goalCheckin.
Proof.
  unfold findGoalCheckins, inRange. apply filter_ext. intros c.
  apply andb_assoc.
Qed.

(** The heat map of a goal: its cells come in the order of their date
    strings, one per date with a check-in of the goal and the user in the
    range, each counting the check-ins of that date, done or not;
    together they count every such check-in once, and no row of another
    goal, of another user or dated outside the range. *)
Theorem goalHeatmap_counts (now : Z) (goals : list Goal)
  (goalCheckin : list GoalCheckin) (userId goalId : string) (q : RangeDto)
  (r : DateRange) (cells : list HeatmapCell) :
  resolveRange now q = inr r ->
  goalHeatmap localeCompare now goals goalCheckin userId goalId q = inr cells ->
  let dates :=
    map gc_date
      (filter (fun c => String.eqb (gc_goalId c) goalId
                        && String.eqb (gc_userId c) userId
                        && (from r <=? gc_date c) && (gc_date c <=? to r))
              goalCheckin) in
  Sorted (fun a b => localeCompare (hm_date a) (hm_date b) <= 0) cells
  /\ sumOf hm_count cells = Z.of_nat (List.length dates)
  /\ (forall c, In c cells ->
        exists d, In d dates
                  /\ hm_date c = toISOString (normalizeDate d)
                  /\ hm_count c = Z.of_nat (count_occ Z.eq_dec dates d)
                  /\ 1 <= hm_count c)
  /\ (forall d, In d dates ->
        exists c, In c cells /\ hm_date c = toISOString (normalizeDate d)).
Proof.
  intros HR H. unfold goalHeatmap in H.
  destruct (getOwnedGoal goals userId goalId) as [e | goal]; [discriminate H | ].
  rewrite HR in H. cbn [bind] in H. injection H as <-.
  rewrite goal_checkins_selected. apply heatmapOf_spec.
Qed.

(** The heat map of a streak is given to members of the streak only, and
    counts the check-ins of the user in the range that are done, and no
    other: its counts add up to their number. *)
Theorem streakHeatmap_counts (now : Z)
  (streakMember : list Streaks.StreakMember)
  (streakCheckin : list StreakCheckin) (userId streakId : string)
  (q : RangeDto) (r : DateRange) (cells : list HeatmapCell) :
  resolveRange now q = inr r ->
  streakHeatmap localeCompare now streakMember streakCheckin userId streakId q
  = inr cells ->
  (exists m, In m streakMember /\ Streaks.sm_streakId m = streakId
             /\ Streaks.sm_userId m = userId)
  /\ Sorted (fun a b => localeCompare (hm_date a) (hm_date b) <= 0) cells
  /\ sumOf hm_count cells
     = Z.of_nat (List.length
         (filter (fun c => String.eqb (sc_streakId c) streakId
                           && String.eqb (sc_userId c) userId
                           && inRange r (sc_date c) && sc_done c)
                 streakCheckin))
  /\ (forall c, In c cells ->
        exists x, In x streakCheckin /\ sc_done x = true
                  /\ sc_streakId x = streakId /\ sc_userId x = userId
                  /\ hm_date c = toISOString (normalizeDate (sc_date x))).
Proof.
  intros HR H. unfold streakHeatmap, assertStreakMember in H.
  destruct (find _ streakMember) as [m | ] eqn:F; [ | discriminate H].
  rewrite HR in H. cbn [bind] in H. injection H as <-.
  destruct (heatmapOf_spec
              (map sc_date
                 (findDoneStreakCheckins streakCheckin streakId userId r)))
    as (S & T & C & _).
  split; [ | split; [exact S | split]].
  - apply find_some in F. destruct F as [I E].
    apply andb_true_iff in E. destruct E as [E1 E2].
    apply String.eqb_eq in E1, E2. exists m. repeat split; assumption.
  - rewrite T, List.length_map. reflexivity.
  - intros c I. destruct (C c I) as (d & Id & E & _).
    apply in_map_iff in Id. destruct Id as (x & <- & Ix).
    unfold findDoneStreakCheckins in Ix. apply filter_In in Ix.
    destruct Ix as [Ix B]. repeat (apply andb_true_iff in B; destruct B as [B ?]).
    apply String.eqb_eq in B. exists x. repeat split; try assumption.
    now apply String.eqb_eq.
Qed.
End HeatmapOf.

End Heatmaps.

Lemma goalHeatmap_counts_witness :
  exists cells,
    goalHeatmap codeUnitCompare 1706659200000 [dailyGoal] crowdedCheckins
      "u1" "g1" january2024 = inr cells
    /\ sumOf hm_count cells = 9.
Proof.
  eexists. split; [vm_compute; reflexivity | ].
  destruct (goalHeatmap_counts codeUnitCompare codeUnitCompare_total
              1706659200000 [dailyGoal] crowdedCheckins "u1" "g1" january2024
              {| Stats.from := 1704067200000; Stats.to := 1706659200000 |}
              _ ltac:(vm_compute; reflexivity) eq_refl) as (_ & S & _).
  exact S.
Defined.

Lemma streakHeatmap_counts_witness :
  exists cells,
    streakHeatmap codeUnitCompare 1706659200000
      [ {| Streaks.sm_streakId := "s1"; Streaks.sm_userId := "u1" |} ]
      metricsStreakCheckins "u1" "s1" january2024 = inr cells
    /\ sumOf hm_count cells = 1.
Proof.
  eexists. split; [vm_compute; reflexivity | ].
  destruct (streakHeatmap_counts codeUnitCompare codeUnitCompare_total
              1706659200000
              [ {| Streaks.sm_streakId := "s1"; Streaks.sm_userId := "u1" |} ]
              metricsStreakCheckins "u1" "s1" january2024
              {| Stats.from := 1704067200000; Stats.to := 1706659200000 |}
              _ ltac:(vm_compute; reflexivity) eq_refl) as (_ & _ & S & _).
  exact S.
Defined.

(** ** Activity metrics count every record once *)

Section MetricsConservation.
Import Stats.

Lemma has_In (bs : Buckets) (k : string) :
  has bs k = true <-> In k (map key bs).
Proof.
  unfold has. rewrite existsb_exists, in_map_iff. split.
  - intros (b & I & E). apply String.eqb_eq in E. exists b. auto.
  - intros (b & E & I). exists b. split; [exact I | now apply String.eqb_eq].
Qed.

Lemma upsertBucket_keys (k : string) (bs : Buckets) :
  NoDup (map key bs) ->
  NoDup (map key (upsertBucket k bs)) /\ In k (map key (upsertBucket k bs)).
Proof.
  intros N. unfold upsertBucket. destruct (has bs k) eqn:H; cbn [negb].
  - split; [exact N | now apply has_In].
  - rewrite map_app. cbn [map key]. split.
    + apply NoDup_app; [exact N | repeat constructor; intros [] | ].
      intros x Hx Hx'. destruct Hx' as [<- | []]. apply has_In in Hx. congruence.
    + apply in_or_app. right. now left.
Qed.

Lemma upsertBucket_sum (f : Bucket -> Z) (k : string) (bs : Buckets) :
  f {| key := k; goalCheckins := 0; streakCheckins := 0; total := 0 |} = 0 ->
  sumOf f (upsertBucket k bs) = sumOf f bs.
Proof.
  intros Z0. unfold upsertBucket. destruct (negb (has bs k)); [ | reflexivity].
  rewrite sumOf_app. cbn. lia.
Qed.

Lemma modify_keys (k : string) (f : Bucket -> Bucket) (bs : Buckets) :
  (forall b, key (f b) = key b) -> map key (modify k f bs) = map key bs.
Proof.
  intros Hf. unfold modify. rewrite map_map. apply map_ext. intros b.
  destruct (String.eqb (key b) k); [apply Hf | reflexivity].
Qed.

Lemma modify_sum (g : Bucket -> Z) (delta : Z) (k : string)
  (f : Bucket -> Bucket) (bs : Buckets) :
  (forall b, g (f b) = g b + delta) ->
  NoDup (map key bs) -> In k (map key bs) ->
  sumOf g (modify k f bs) = sumOf g bs + delta.
Proof.
  intros Hf. induction bs as [ | b bs IH]; intros N I; [destruct I | ].
  cbn [map] in N. inversion N as [ | ? ? NI N']; subst.
  change (modify k f (b :: bs))
    with ((if String.eqb (key b) k then f b else b) :: modify k f bs).
  destruct (String.eqb_spec (key b) k) as [E | NE].
  - rewrite modify_absent.
    + unfold sumOf. cbn [fold_right]. rewrite Hf. lia.
    + destruct (has bs k) eqn:H; [ | reflexivity].
      apply has_In in H. congruence.
  - destruct I as [I | I]; [contradiction | ].
    unfold sumOf in *. cbn [fold_right]. rewrite (IH N' I). lia.
Qed.

Lemma addGoalCheckin_sums (period : Period) (bs : Buckets) (c : GoalCheckin) :
  NoDup (map key bs) ->
  NoDup (map key (addGoalCheckin period bs c))
  /\ sumOf goalCheckins (addGoalCheckin period bs c)
     = sumOf goalCheckins bs + (if isActive c then 1 else 0)
  /\ sumOf streakCheckins (addGoalCheckin period bs c)
     = sumOf streakCheckins bs.
Proof.
  intros N. unfold addGoalCheckin.
  generalize (bucketKey (normalizeDate (gc_date c)) period). intros k.
  destruct (upsertBucket_keys k bs N) as [N' I'].
  split; [ | split].
  - rewrite modify_keys; [exact N' | reflexivity].
  - rewrite (modify_sum goalCheckins (if isActive c then 1 else 0));
      [ | reflexivity | exact N' | exact I'].
    now rewrite upsertBucket_sum.
  - rewrite (modify_sum streakCheckins 0);
      [ | intros b; cbn; lia | exact N' | exact I'].
    rewrite upsertBucket_sum by reflexivity. lia.
Qed.

Lemma addStreakCheckin_sums (period : Period) (bs : Buckets)
  (c : StreakCheckin) :
  NoDup (map key bs) ->
  NoDup (map key (addStreakCheckin period bs c))
  /\ sumOf goalCheckins (addStreakCheckin period bs c) = sumOf goalCheckins bs
  /\ sumOf streakCheckins (addStreakCheckin period bs c)
     = sumOf streakCheckins bs + 1.
Proof.
  intros N. unfold addStreakCheckin.
  generalize (bucketKey (normalizeDate (sc_date c)) period). intros k.
  destruct (upsertBucket_keys k bs N) as [N' I'].
  split; [ | split].
  - rewrite modify_keys; [exact N' | reflexivity].
  - rewrite (modify_sum goalCheckins 0);
      [ | intros b; cbn; lia | exact N' | exact I'].
    rewrite upsertBucket_sum by reflexivity. lia.
  - rewrite (modify_sum streakCheckins 1);
      [ | reflexivity | exact N' | exact I'].
    now rewrite upsertBucket_sum.
Qed.

Lemma fold_addGoalCheckin_sums (period : Period) (cs : list GoalCheckin)
  (bs : Buckets) :
  NoDup (map key bs) ->
  NoDup (map key (fold_left (addGoalCheckin period) cs bs))
  /\ sumOf goalCheckins (fold_left (addGoalCheckin period) cs bs)
     = sumOf goalCheckins bs + Z.of_nat (List.length (filter isActive cs))
  /\ sumOf streakCheckins (fold_left (addGoalCheckin period) cs bs)
     = sumOf streakCheckins bs.
Proof.
  revert bs. induction cs as [ | c cs IH]; intros bs N; cbn [fold_left filter].
  - cbn. repeat split; [exact N | lia].
  - destruct (addGoalCheckin_sums period bs c N) as (N1 & G1 & S1).
    destruct (IH _ N1) as (N2 & G2 & S2).
    split; [exact N2 | split].
    + rewrite G2, G1. destruct (isActive c); cbn [List.length]; lia.
    + now rewrite S2.
Qed.

Lemma fold_addStreakCheckin_sums (period : Period) (cs : list StreakCheckin)
  (bs : Buckets) :
  NoDup (map key bs) ->
  NoDup (map key (fold_left (addStreakCheckin period) cs bs))
  /\ sumOf goalCheckins (fold_left (addStreakCheckin period) cs bs)
     = sumOf goalCheckins bs
  /\ sumOf streakCheckins (fold_left (addStreakCheckin period) cs bs)
     = sumOf streakCheckins bs + Z.of_nat (List.length cs).
Proof.
  revert bs. induction cs as [ | c cs IH]; intros bs N; cbn [fold_left].
  - cbn. repeat split; [exact N | lia].
  - destruct (addStreakCheckin_sums period bs c N) as (N1 & G1 & S1).
    destruct (IH _ N1) as (N2 & G2 & S2).
    split; [exact N2 | split].
    + now rewrite G2.
    + rewrite S2, S1. cbn [List.length]. lia.
Qed.

Lemma sumOf_total (bs : Buckets) :
  Forall bucketConsistent bs ->
  sumOf total bs = sumOf goalCheckins bs + sumOf streakCheckins bs.
Proof.
  unfold sumOf. induction 1 as [ | b bs [T _] _ IH]; cbn [fold_right]; lia.
Qed.

(** The buckets of a metrics result have distinct keys, and every record
    read is counted in exactly one of them: the goal counters add up to
    the number of active goal check-ins of the user in the range, the
    streak counters to the number of done streak check-ins, the totals to
    both. *)
Theorem activityMetrics_conservation (localeCompare : string -> string -> Z)
  (now : Z) (goalCheckin : list GoalCheckin)
  (streakCheckin : list StreakCheckin) (userId : string) (q : RangeDto)
  (r : DateRange) (res : ActivityMetrics) :
  resolveRange now q = inr r ->
  activityMetrics localeCompare now goalCheckin streakCheckin userId q
  = inr res ->
  let active :=
    Z.of_nat (List.length
                (filter isActive (metricsGoalRows goalCheckin userId r))) in
  let done :=
    Z.of_nat (List.length (metricsStreakRows streakCheckin userId r)) in
  NoDup (map key (buckets res))
  /\ sumOf goalCheckins (buckets res) = active
  /\ sumOf streakCheckins (buckets res) = done
  /\ sumOf total (buckets res) = active + done.
Proof.
  intros HR H. unfold activityMetrics in H. rewrite HR in H.
  cbn [bind] in H. injection H as <-. cbn [buckets]. cbv zeta.
  fold (metricsGoalRows goalCheckin userId r).
  fold (metricsStreakRows streakCheckin userId r).
  generalize (match q_period q with Some p => p | None => day end).
  intros period.
  set (bs1 := fold_left (addGoalCheckin period)
                (metricsGoalRows goalCheckin userId r) []).
  set (bs2 := fold_left (addStreakCheckin period)
                (metricsStreakRows streakCheckin userId r) bs1).
  pose proof (sort_Permutation
                (fun a b => localeCompare (key a) (key b)) bs2) as P.
  destruct (fold_addGoalCheckin_sums period
              (metricsGoalRows goalCheckin userId r) [] (NoDup_nil _))
    as (N1 & G1 & S1).
  fold bs1 in N1, G1, S1.
  destruct (fold_addStreakCheckin_sums period
              (metricsStreakRows streakCheckin userId r) bs1 N1)
    as (N2 & G2 & S2).
  fold bs2 in N2, G2, S2.
  assert (C : Forall bucketConsistent bs2).
  { apply fold_consistent; [intros; now apply addStreakCheckin_consistent | ].
    apply fold_consistent; [intros; now apply addGoalCheckin_consistent | ].
    constructor. }
  assert (G : sumOf goalCheckins bs2
              = Z.of_nat (List.length
                  (filter isActive (metricsGoalRows goalCheckin userId r))))
    by (rewrite G2, G1; cbn; lia).
  assert (S : sumOf streakCheckins bs2
              = Z.of_nat (List.length
                  (metricsStreakRows streakCheckin userId r)))
    by (rewrite S2, S1; cbn; lia).
  split; [ | split; [ | split]].
  - eapply Permutation_NoDup; [ | exact N2].
    apply Permutation_map, Permutation_sym, P.
  - now rewrite (sumOf_Permutation _ _ _ P).
  - now rewrite (sumOf_Permutation _ _ _ P).
  - rewrite (sumOf_Permutation _ _ _ P), (sumOf_total bs2 C), G, S.
    reflexivity.
Qed.

Lemma activityMetrics_conservation_witness :
  exists res,
    Stats.activityMetrics codeUnitCompare 1706659200000 metricsGoalCheckins
      metricsStreakCheckins "u1" january2024 = inr res
    /\ sumOf goalCheckins (buckets res) = 1
    /\ sumOf streakCheckins (buckets res) = 1
    /\ sumOf total (buckets res) = 2.
Proof.
  eexists. split; [vm_compute; reflexivity | ].
  destruct (activityMetrics_conservation codeUnitCompare 1706659200000
              metricsGoalCheckins metricsStreakCheckins "u1" january2024
              {| from := 1704067200000; to := 1706659200000 |}
              _ ltac:(vm_compute; reflexivity) eq_refl) as (_ & G & S & T).
  repeat split; assumption.
Defined.

End MetricsConservation.

(** ** Week keys *)

Section WeekKeys.
Import Stats.

Lemma bucketKey_week (d : Z) :
  bucketKey d week
  = (numberToString (getUTCFullYear (weekStartOf d)) ++ "-W"
     ++ padStart (numberToString (weekNumberOf d)) 2 "0")%string.
Proof.
  cbv beta iota zeta delta [bucketKey weekNumberOf weekStartOf].
  reflexivity.
Qed.

Lemma weekStartOf_eq (d : Z) :
  0 <= d ->
  weekStartOf d = (Day d - (getUTCDay d + 6) mod 7) * msPerDay.
Proof.
  intros H. unfold weekStartOf. cbv zeta.
  generalize ((getUTCDay d + 6) mod 7). intros dayNum.
  replace (getUTCDate d - dayNum) with (getUTCDate d + - dayNum) by lia.
  rewrite DateUTC_fields by (apply not_twoDigitYear_epoch, H).
  unfold msPerDay. lia.
Qed.

Lemma Day_range (d w : Z) :
  w * msPerDay <= d < w * msPerDay + 7 * msPerDay -> w <= Day d <= w + 6.
Proof. unfold Day, msPerDay. intros H. zdiv. lia. Qed.

(** The week start of a time value from the epoch on is the Monday of its
    week, and every time value of the seven days from that Monday on gets
    the same week key. *)
Theorem weekKey_shared (d d' : Z) :
  0 <= d -> 0 <= d' ->
  weekStartOf d <= d' < weekStartOf d + 7 * msPerDay ->
  getUTCDay (weekStartOf d) = 1
  /\ weekStartOf d <= d < weekStartOf d + 7 * msPerDay
  /\ bucketKey d' week = bucketKey d week.
Proof.
  intros H H' R.
  assert (E : weekStartOf d' = weekStartOf d).
  { rewrite (weekStartOf_eq d H) in *. rewrite (weekStartOf_eq d' H').
    unfold getUTCDay, WeekDay in *.
    pose proof (Day_range d' _ R) as B.
    generalize dependent (Day d'). generalize dependent (Day d).
    intros n R m B. f_equal. zdiv. lia. }
  split; [ | split].
  - rewrite (weekStartOf_eq d H). unfold getUTCDay, WeekDay.
    rewrite Day_of_multiple. generalize (Day d). intros n. zdiv. lia.
  - rewrite (weekStartOf_eq d H). unfold getUTCDay, WeekDay, Day, msPerDay.
    zdiv. lia.
  - rewrite !bucketKey_week. unfold weekNumberOf. cbv zeta. now rewrite E.
Qed.

Lemma weekKey_shared_witness :
  getUTCDay (weekStartOf 1704499200000) = 1
  /\ weekStartOf 1704499200000 <= 1704499200000
     < weekStartOf 1704499200000 + 7 * msPerDay
  /\ bucketKey 1704067200000 week = bucketKey 1704499200000 week.
Proof.
  apply (weekKey_shared 1704499200000 1704067200000).
  - lia.
  - lia.
  - vm_compute. split; [discriminate | reflexivity].
Defined.

Lemma weeks_of_days (x : Z) : (x * msPerDay) / (7 * 24 * 60 * 60 * 1000) = x / 7.
Proof.
  change (7 * 24 * 60 * 60 * 1000) with (7 * msPerDay).
  apply Z.div_mul_cancel_r; unfold msPerDay; lia.
Qed.

(** The week number that [bucketKey] puts into a week key lies between 0
    and 52: no week gets number 53. *)
Theorem weekNumberOf_range (d : Z) :
  7 * msPerDay <= d -> 0 <= weekNumberOf d <= 52.
Proof.
  intros H. unfold weekNumberOf. cbv zeta.
  rewrite (weekStartOf_eq d) by (unfold msPerDay in H; lia).
  assert (W : 0 <= Day d - (getUTCDay d + 6) mod 7).
  { unfold getUTCDay, WeekDay, Day, msPerDay in *. zdiv. lia. }
  generalize dependent (Day d - (getUTCDay d + 6) mod 7). intros w W.
  unfold getUTCFullYear, YearFromTime. rewrite Day_of_multiple.
  pose proof (YearFromDay_epoch w W) as Y.
  pose proof (YearFromDay_spec w) as S.
  rewrite DayFromYear_step in S.
  pose proof (DaysInYear_cases (YearFromDay w)) as L.
  assert (F : DateUTC (YearFromDay w) 0 4
              = (DayFromYear (YearFromDay w) + 3) * msPerDay).
  { unfold DateUTC.
    destruct (Z.leb_spec 0 (YearFromDay w)), (Z.leb_spec (YearFromDay w) 99);
      try lia. cbn [andb]. unfold MakeDate, MakeDay.
    change (0 / 12) with 0. change (0 mod 12) with 0.
    rewrite !Z.add_0_r. cbn [monthStart]. unfold msPerDay. lia. }
  rewrite F.
  replace (w * msPerDay - (DayFromYear (YearFromDay w) + 3) * msPerDay)
    with ((w - DayFromYear (YearFromDay w) - 3) * msPerDay) by lia.
  rewrite weeks_of_days.
  generalize dependent (DayFromYear (YearFromDay w)). intros y0 S F.
  zdiv. lia.
Qed.

Lemma weekNumberOf_range_witness :
  0 <= weekNumberOf 1704067200000 <= 52
  /\ weekNumberOf 1704067200000 = 0.
Proof.
  split; [ | vm_compute; reflexivity].
  apply (weekNumberOf_range 1704067200000). unfold msPerDay. lia.
Defined.

End WeekKeys.

(** ** Scores and leaderboards *)

Section Scores.
Import Rankings RankingsQueries.

(** The leaderboard of a computation has one entry for each user whose
    score is positive and none for any other user: an entry carries the
    period, the metadata and, as score, the sum of the two counts of its
    user, and no two entries are of the same user. *)
Lemma leaderboard_members (dto : ComputeRankingDto)
  (goalAgg streakAgg : list AggRow) :
  NoDup (map userId (leaderboardOf dto goalAgg streakAgg))
  /\ forall e,
       In e (leaderboardOf dto goalAgg streakAgg)
       <-> (period e = dto_period dto
            /\ extra e = dto_metadata dto
            /\ hasUser (userId e) goalAgg || hasUser (userId e) streakAgg
               = true
            /\ score e
               = countOfUser (userId e) goalAgg
                 + countOfUser (userId e) streakAgg
            /\ 0 < score e).
Proof.
  pose proof (sort_Permutation (fun a b : RankingEntry => score b - score a)
                (entriesDataOf dto (scoresOf goalAgg streakAgg))) as P.
  fold (leaderboardOf dto goalAgg streakAgg) in P.
  destruct (entriesData_members dto goalAgg streakAgg) as [N M].
  split.
  - eapply Permutation_NoDup;
      [apply Permutation_map, Permutation_sym, P | exact N].
  - intros e. rewrite <- M. split.
    + apply (Permutation_in _ P).
    + apply (Permutation_in _ (Permutation_sym P)).
Qed.

(** After a computation the stored leaderboard of the period, read back
    in the order of [list], has one entry for each user whose two counts
    sum to a positive score and none for any other user; the score of an
    entry is that sum, and no user has two entries.  This holds also when
    the computation is rejected for a failed dispatch. *)
Theorem compute_scores (createForUser : string -> Notification -> bool)
  (endOfLocalDay : Z -> Z) (dto : ComputeRankingDto)
  (goalAgg streakAgg : list AggRow) (w : World) :
  let stored :=
    findMany (dto_period dto)
      (rankingEntry
         (fst (compute createForUser endOfLocalDay dto goalAgg streakAgg w))) in
  NoDup (map userId stored)
  /\ forall e,
       In e stored
       <-> (period e = dto_period dto
            /\ extra e = dto_metadata dto
            /\ hasUser (userId e) goalAgg || hasUser (userId e) streakAgg
               = true
            /\ score e
               = countOfUser (userId e) goalAgg
                 + countOfUser (userId e) streakAgg
            /\ 0 < score e).
Proof.
  cbv zeta. rewrite compute_table.
  change (deleteMany (dto_period dto) (rankingEntry w)
          ++ entriesDataOf dto (scoresOf goalAgg streakAgg))%list
    with (createMany (deleteMany (dto_period dto) (rankingEntry w))
            (entriesDataOf dto (scoresOf goalAgg streakAgg))).
  rewrite findMany_after_replace.
  apply leaderboard_members.
Qed.

(** When no user has a positive score, the computation deletes the
    leaderboard of the period, writes and dispatches nothing, and returns
    the empty result. *)
Theorem compute_no_scores (createForUser : string -> Notification -> bool)
  (endOfLocalDay : Z -> Z) (dto : ComputeRankingDto)
  (goalAgg streakAgg : list AggRow) (w : World) :
  (forall u, countOfUser u goalAgg + countOfUser u streakAgg <= 0) ->
  compute createForUser endOfLocalDay dto goalAgg streakAgg w
  = ({| rankingEntry := deleteMany (dto_period dto) (rankingEntry w);
        dispatched := dispatched w |},
     inr (Empty (dto_period dto)))
  /\ entriesOf (dto_period dto)
       (deleteMany (dto_period dto) (rankingEntry w)) = [].
Proof.
  intros Z0. split; [ | apply entriesOf_deleteMany_same].
  assert (E : entriesDataOf dto (scoresOf goalAgg streakAgg) = []).
  { destruct (entriesDataOf dto (scoresOf goalAgg streakAgg)) as [ | e l] eqn:E;
      [reflexivity | exfalso].
    assert (I : In e (leaderboardOf dto goalAgg streakAgg)).
    { apply (Permutation_in _ (Permutation_sym (sort_Permutation _ _))).
      rewrite E. now left. }
    apply leaderboard_members in I. destruct I as (_ & _ & _ & S & Pos).
    specialize (Z0 (userId e)). lia. }
  unfold compute. rewrite E. reflexivity.
Qed.

Lemma compute_no_scores_witness :
  compute (fun _ _ => true) (fun t => t) rankingDto [] [] otherPeriodWorld
  = ({| rankingEntry :=
          deleteMany "2024-01" (rankingEntry otherPeriodWorld);
        dispatched := [] |},
     inr (Empty "2024-01")).
Proof.
  apply (compute_no_scores (fun _ _ => true) (fun t => t) rankingDto [] []
           otherPeriodWorld).
  intros u. vm_compute. discriminate.
Defined.

Lemma findMany_deleteMany_other (p p' : string) (t : list RankingEntry) :
  p' <> p -> findMany p' (deleteMany p t) = findMany p' t.
Proof.
  intros N. unfold findMany. f_equal.
  apply (entriesOf_deleteMany_other p p' t N).
Qed.

(** Listing a period after a computation for it gives the computed
    leaderboard, also when the computation was rejected for a failed
    dispatch; with a limit [n] it gives the first [n] entries, and
    [totalUsers] is the number of entries listed. *)
Theorem listRankings_after_compute
  (createForUser : string -> Notification -> bool) (endOfLocalDay : Z -> Z)
  (dto : ComputeRankingDto) (goalAgg streakAgg : list AggRow) (w : World)
  (limit : option nat) :
  let w' := fst (compute createForUser endOfLocalDay dto goalAgg streakAgg w) in
  let res := listRankings {| lq_period := dto_period dto; lq_limit := limit |}
               w' in
  lr_rankings res
  = match limit with
    | Some n => firstn n (leaderboardOf dto goalAgg streakAgg)
    | None => leaderboardOf dto goalAgg streakAgg
    end
  /\ lr_totalUsers res = Z.of_nat (List.length (lr_rankings res))
  /\ (forall n, limit = Some n -> lr_totalUsers res <= Z.of_nat n)
  /\ Sorted (fun a b => score b <= score a) (lr_rankings res).
Proof.
  cbv zeta. unfold listRankings. cbn [lr_rankings lr_totalUsers lq_period lq_limit].
  rewrite compute_table.
  change (deleteMany (dto_period dto) (rankingEntry w)
          ++ entriesDataOf dto (scoresOf goalAgg streakAgg))%list
    with (createMany (deleteMany (dto_period dto) (rankingEntry w))
            (entriesDataOf dto (scoresOf goalAgg streakAgg))).
  unfold findManyTake. rewrite findMany_after_replace.
  pose proof (leaderboardOf_descending dto goalAgg streakAgg) as S.
  generalize dependent (leaderboardOf dto goalAgg streakAgg). intros L S.
  split; [reflexivity | split; [reflexivity | split]].
  - intros n ->. pose proof (firstn_le_length n L). lia.
  - destruct limit as [n | ]; [ | exact S].
    clear - S. revert n. induction S as [ | a l S IH H]; intros [ | n];
      cbn [firstn]; try constructor.
    + apply IH.
    + destruct H; destruct n; cbn [firstn]; constructor. assumption.
Qed.

End Scores.

(** ** The streak tables and their invariant *)

Section StreakStore.
Import Stats StreaksOps.

Lemma findStreak_Some (db : Db) (streakId : string) (s : Streak) :
  findStreak db streakId = Some s -> In s (db_streak db) /\ s_id s = streakId.
Proof.
  unfold findStreak. intros H. apply find_some in H.
  destruct H as [I E]. apply String.eqb_eq in E. auto.
Qed.

Lemma find_app_old {A : Type} (f : A -> bool) (l l' : list A) (x : A) :
  find f l = Some x -> find f (l ++ l') = Some x.
Proof.
  induction l as [ | y l IH]; cbn [find app]; [discriminate | ].
  destruct (f y); [auto | exact IH].
Qed.

Lemma find_app_new {A : Type} (f : A -> bool) (l l' : list A) :
  find f l = None -> find f (l ++ l') = find f l'.
Proof.
  induction l as [ | y l IH]; cbn [find app]; [reflexivity | ].
  destruct (f y); [discriminate | exact IH].
Qed.

Lemma findStreak_fresh (db : Db) (streakId : string) :
  ~ In streakId (map s_id (db_streak db)) -> findStreak db streakId = None.
Proof.
  intros N. unfold findStreak.
  destruct (find _ (db_streak db)) as [s | ] eqn:E; [ | reflexivity].
  apply find_some in E. destruct E as [I E]. apply String.eqb_eq in E.
  exfalso. apply N. rewrite <- E. apply in_map, I.
Qed.

Lemma findMember_key (members : list Member) (streakId userId : string) :
  find (isMemberRow streakId userId) members = None
  <-> ~ In (streakId, userId) (map memberKey members).
Proof.
  induction members as [ | m ms IH]; cbn [find map In]; [intuition | ].
  unfold isMemberRow at 1, memberKey at 1.
  destruct (String.eqb_spec (m_streakId m) streakId) as [E1 | N1];
    [destruct (String.eqb_spec (m_userId m) userId) as [E2 | N2] | ];
    cbn [andb].
  - split; [discriminate | intros H; exfalso; apply H; left; congruence].
  - rewrite IH. split; [intros H [E | I]; [congruence | auto] | auto].
  - rewrite IH. split; [intros H [E | I]; [congruence | auto] | auto].
Qed.

Lemma inr_inj {A B : Type} (a b : B) : @inr A B a = inr b -> a = b.
Proof. intros E. injection E as E. exact E. Qed.

Lemma normalizeDay_inr (iso : TimeValue) (d : Z) :
  normalizeDay iso = inr d -> exists t, iso = Some t /\ d = normalizeDate t.
Proof.
  destruct iso as [t | ]; [ | discriminate]. intros E.
  apply inr_inj in E. exists t. split; [reflexivity | now symmetry].
Qed.

Lemma normalizeDay_calendar (iso : TimeValue) (d : Z) :
  normalizeDay iso = inr d -> isCalendarDay d.
Proof.
  intros E. apply normalizeDay_inr in E. destruct E as (t & _ & ->).
  apply normalizeDate_idempotent.
Qed.

(** [create] on a store that satisfies the invariant, the new id being
    fresh: the streak it stores has calendar days as dates, the end not
    before the start, the creator becomes its OWNER member, and the
    invariant holds again; an end before the start is refused. *)
Theorem create_outcome (newId userId : string) (dto : CreateStreakDto)
  (db : Db) :
  storeInvariant db ->
  ~ In newId (map s_id (db_streak db)) ->
  match create newId userId dto db with
  | inr (db', s) =>
      storeInvariant db'
      /\ streakWellFormed s
      /\ s_id s = newId /\ s_createdById s = userId
      /\ findStreak db' newId = Some s
      /\ findMember db' newId userId
         = Some {| m_streakId := newId; m_userId := userId; m_role := OWNER |}
      /\ db_streakCheckin db' = db_streakCheckin db
  | inl (BadRequestException _) =>
      cs_startDate dto = None \/ cs_endDate dto = Some None
      \/ exists start e,
           normalizeDay (cs_startDate dto) = inr start
           /\ cs_endDate dto = Some (Some e) /\ normalizeDate e < start
  | inl _ => False
  end.
Proof.
  intros (Ns & Ws & Nm & Rm & Nc & Wc) Fresh. unfold create.
  destruct (cs_startDate dto) as [t0 | ] eqn:E0; cbn [normalizeDay bind ret throw];
    [ | now left].
  pose proof (normalizeDate_idempotent t0) as C0.
  generalize dependent (normalizeDate t0). intros start C0.
  assert (K : forall end_ : option Z,
    (forall e, end_ = Some e -> isCalendarDay e /\ start <= e) ->
    let s := {| s_id := newId; s_title := cs_title dto;
                s_description := cs_description dto; s_startDate := start;
                s_endDate := end_; s_createdById := userId |} in
    let db' := {| db_streak := (db_streak db ++ [s])%list;
                  db_streakMember :=
                    (db_streakMember db
                     ++ [{| m_streakId := newId; m_userId := userId;
                            m_role := OWNER |}])%list;
                  db_streakCheckin := db_streakCheckin db;
                  db_chatRoom := db_chatRoom db;
                  db_chatMember := db_chatMember db;
                  db_user := db_user db |} in
    storeInvariant db'
    /\ streakWellFormed s
    /\ s_id s = newId /\ s_createdById s = userId
    /\ findStreak db' newId = Some s
    /\ findMember db' newId userId
       = Some {| m_streakId := newId; m_userId := userId; m_role := OWNER |}
    /\ db_streakCheckin db' = db_streakCheckin db).
  { intros end_ He. cbv zeta.
    assert (W : streakWellFormed
                  {| s_id := newId; s_title := cs_title dto;
                     s_description := cs_description dto; s_startDate := start;
                     s_endDate := end_; s_createdById := userId |})
      by (split; [exact C0 | exact He]).
    assert (NK : ~ In (newId, userId) (map memberKey (db_streakMember db))).
    { intros I. apply in_map_iff in I. destruct I as (m & E & I).
      rewrite Forall_forall in Rm. apply Fresh.
      injection E as <- _. apply Rm, I. }
    split; [ | split; [exact W | split; [reflexivity | split; [reflexivity
      | split; [ | split; [ | reflexivity]]]]]].
    - unfold storeInvariant. cbn [db_streak db_streakMember db_streakCheckin].
      rewrite !map_app. cbn [map s_id memberKey m_streakId m_userId].
      split; [ | split; [ | split; [ | split; [ | split]]]].
      + apply NoDup_app; [exact Ns | repeat constructor; intros [] | ].
        intros x Hx [<- | []]. contradiction.
      + apply Forall_app. split; [exact Ws | constructor; [exact W | constructor]].
      + apply NoDup_app; [exact Nm | repeat constructor; intros [] | ].
        intros x Hx [<- | []]. contradiction.
      + apply Forall_app. split.
        * rewrite Forall_forall in *. intros m Hm. apply in_or_app. left.
          apply Rm, Hm.
        * constructor; [ | constructor]. cbn [m_streakId].
          apply in_or_app. right. now left.
      + exact Nc.
      + rewrite Forall_forall in *. intros c Hc.
        destruct (Wc c Hc) as [Ic [Cc Wn]].
        split; [apply in_or_app; left; exact Ic | ].
        split; [exact Cc | ].
        intros s Hs. apply Wn.
        unfold findStreak in *. cbn [db_streak] in Hs.
        destruct (find (fun s0 => String.eqb (s_id s0) (sc_streakId c))
                    (db_streak db)) as [s0 | ] eqn:F.
        -- rewrite (find_app_old _ _ _ _ F) in Hs. exact Hs.
        -- rewrite (find_app_new _ _ _ F) in Hs. cbn [find s_id] in Hs.
           destruct (String.eqb_spec newId (sc_streakId c)) as [E | ];
             [ | discriminate Hs].
           exfalso. apply Fresh. rewrite E. exact Ic.
    - unfold findStreak. cbn [db_streak].
      rewrite find_app_new by (apply (findStreak_fresh db), Fresh).
      cbn [find s_id]. now rewrite String.eqb_refl.
    - unfold findMember. cbn [db_streakMember].
      rewrite find_app_new by (apply findMember_key, NK).
      cbn [find]. unfold isMemberRow. cbn. now rewrite !String.eqb_refl. }
  destruct (cs_endDate dto) as [[e | ] | ] eqn:E1;
    cbn [normalizeDay bind ret throw].
  - pose proof (normalizeDate_idempotent e) as Ce.
    destruct (Z.ltb_spec (normalizeDate e) start) as [L | L].
    + right. right. exists start, e.
      split; [reflexivity | split; [reflexivity | exact L]].
    + apply K. intros e' E. injection E as <-. split; [exact Ce | exact L].
  - right. left. reflexivity.
  - apply K. intros e' E. discriminate E.
Qed.

Lemma create_outcome_witness :
  exists db' s,
    create "s1" "u1" januaryStreak emptyDb = inr (db', s)
    /\ storeInvariant db'
    /\ findMember db' "s1" "u1"
       = Some {| m_streakId := "s1"; m_userId := "u1"; m_role := OWNER |}.
Proof.
  pose proof (create_outcome "s1" "u1" januaryStreak emptyDb) as H.
  destruct (create "s1" "u1" januaryStreak emptyDb) as [e | [db' s]] eqn:E;
    [vm_compute in E; discriminate E | ].
  exists db', s. split; [reflexivity | ].
  destruct H as (I & _ & _ & _ & _ & M & _).
  - unfold storeInvariant, emptyDb. cbn. repeat split; constructor.
  - intros [].
  - split; assumption.
Defined.

Lemma isMemberRow_key (streakId userId : string) (m : Member) :
  isMemberRow streakId userId m = true <-> memberKey m = (streakId, userId).
Proof.
  unfold isMemberRow, memberKey. rewrite andb_true_iff, !String.eqb_eq.
  split; [intros [-> ->]; reflexivity | intros E; injection E; auto].
Qed.

Lemma findMember_Some (db : Db) (streakId userId : string) (m : Member) :
  findMember db streakId userId = Some m ->
  In m (db_streakMember db) /\ memberKey m = (streakId, userId).
Proof.
  unfold findMember. intros H. apply find_some in H.
  destruct H as [I E]. apply isMemberRow_key in E. auto.
Qed.

Lemma find_other_key (members : list Member) (sid u sid' u' : string)
  (m : Member) :
  memberKey m = (sid, u) -> (sid', u') <> (sid, u) ->
  find (isMemberRow sid' u') (members ++ [m])
  = find (isMemberRow sid' u') members.
Proof.
  intros K N. induction members as [ | x l IH]; cbn [app find].
  - destruct (isMemberRow sid' u' m) eqn:E; [ | reflexivity].
    apply isMemberRow_key in E. congruence.
  - destruct (isMemberRow sid' u' x); [reflexivity | exact IH].
Qed.

Lemma storeInvariant_withMembers (db : Db) (members : list Member) :
  storeInvariant db ->
  NoDup (map memberKey members) ->
  Forall (fun m => In (m_streakId m) (map s_id (db_streak db))) members ->
  storeInvariant (withMembers db members).
Proof.
  intros (Ns & Ws & _ & _ & Nc & Wc) Nm Rm.
  unfold storeInvariant, withMembers. cbn [db_streak db_streakMember db_streakCheckin].
  repeat (split; [assumption | ]). exact Wc.
Qed.

(** [addMember] on a store that satisfies the invariant: it succeeds only
    for the creator of the streak and a user who is not a member yet, who
    then is a MEMBER while every other membership is as before and the
    invariant holds again; it fails with [NotFoundException] when the
    streak is missing, [ForbiddenException] when the caller is not the
    creator, [BadRequestException] when the user is a member already. *)
Theorem addMember_outcome (userId streakId dtoUserId : string) (db : Db) :
  storeInvariant db ->
  match addMember userId streakId dtoUserId db with
  | inr (db', m) =>
      storeInvariant db'
      /\ (exists s, findStreak db streakId = Some s /\ s_createdById s = userId)
      /\ findMember db streakId dtoUserId = None
      /\ m = {| m_streakId := streakId; m_userId := dtoUserId;
                m_role := MEMBER |}
      /\ findMember db' streakId dtoUserId = Some m
      /\ (forall sid u, (sid, u) <> (streakId, dtoUserId) ->
            findMember db' sid u = findMember db sid u)
      /\ db_streak db' = db_streak db
      /\ db_streakCheckin db' = db_streakCheckin db
  | inl (NotFoundException _) => findStreak db streakId = None
  | inl (ForbiddenException _) =>
      exists s, findStreak db streakId = Some s /\ s_createdById s <> userId
  | inl (BadRequestException _) =>
      exists m, findMember db streakId dtoUserId = Some m
  | inl _ => False
  end.
Proof.
  intros Inv. unfold addMember.
  destruct (findStreak db streakId) as [s | ] eqn:F; [ | reflexivity].
  unfold assertOwner.
  destruct (String.eqb_spec (s_createdById s) userId) as [O | O];
    cbn [negb bind throw ret]; [ | exists s; auto].
  destruct (findMember db streakId dtoUserId) as [m0 | ] eqn:M;
    [exists m0; reflexivity | ].
  pose proof Inv as (Ns & Ws & Nm & Rm & Nc & Wc).
  destruct (findStreak_Some _ _ _ F) as [Is Es].
  assert (NK : ~ In (streakId, dtoUserId) (map memberKey (db_streakMember db)))
    by (apply findMember_key, M).
  split; [ | split; [exists s; split; [ | exact O] | ]].
  - apply storeInvariant_withMembers; [exact Inv | | ].
    + rewrite map_app. cbn [map memberKey m_streakId m_userId].
      apply NoDup_app; [exact Nm | repeat constructor; intros [] | ].
      intros x Hx [<- | []]. contradiction.
    + apply Forall_app. split; [exact Rm | ].
      constructor; [ | constructor]. cbn [m_streakId]. rewrite <- Es.
      apply in_map, Is.
  - reflexivity.
  - split; [reflexivity | split; [reflexivity | split; [ | split]]].
    + unfold findMember, withMembers. cbn [db_streakMember].
      rewrite find_app_new by exact M. cbn [find]. unfold isMemberRow. cbn.
      now rewrite !String.eqb_refl.
    + intros sid u N. unfold findMember, withMembers. cbn [db_streakMember].
      now apply (find_other_key _ streakId dtoUserId).
    + split; reflexivity.
Qed.

Lemma Some_inj {A : Type} (a b : A) : Some a = Some b -> a = b.
Proof. intros E. injection E as E. exact E. Qed.

Lemma oneStreakDb_invariant : storeInvariant oneStreakDb.
Proof.
  unfold storeInvariant, oneStreakDb.
  cbn [db_streak db_streakMember db_streakCheckin map s_id memberKey
       m_streakId m_userId].
  split; [constructor; [intros [] | constructor] | ].
  split.
  - constructor; [ | constructor]. split.
    + vm_compute. reflexivity.
    + cbn [s_endDate s_startDate]. intros e E. apply Some_inj in E. subst e.
      split; [vm_compute; reflexivity | lia].
  - split; [constructor; [intros [] | constructor] | ].
    split; [constructor; [now left | constructor] | ].
    split; constructor.
Qed.

Lemma addMember_outcome_witness :
  exists db',
    addMember "u1" "s1" "u2" oneStreakDb
    = inr (db', {| m_streakId := "s1"; m_userId := "u2"; m_role := MEMBER |})
    /\ storeInvariant db'.
Proof.
  pose proof (addMember_outcome "u1" "s1" "u2" oneStreakDb
                oneStreakDb_invariant) as H.
  destruct (addMember "u1" "s1" "u2" oneStreakDb) as [e | [db' m]] eqn:E;
    [vm_compute in E; discriminate E | ].
  destruct H as (I & _ & _ & -> & _).
  exists db'. split; [reflexivity | exact I].
Defined.

Lemma deleteMember_In (sid u : string) (members : list Member) (m : Member) :
  In m (deleteMember sid u members) -> In m members.
Proof.
  induction members as [ | x l IH]; cbn [deleteMember]; [auto | ].
  destruct (isMemberRow sid u x); [now right | ].
  intros [E | I]; [now left | right; apply IH, I].
Qed.

Lemma deleteMember_keys (sid u : string) (members : list Member) :
  NoDup (map memberKey members) ->
  NoDup (map memberKey (deleteMember sid u members))
  /\ ~ In (sid, u) (map memberKey (deleteMember sid u members)).
Proof.
  induction members as [ | x l IH]; intros N; cbn [deleteMember map].
  - split; [constructor | intros []].
  - inversion N as [ | ? ? NI N']; subst.
    destruct (isMemberRow sid u x) eqn:E.
    + apply isMemberRow_key in E. rewrite <- E. split; assumption.
    + destruct (IH N') as [N2 I2]. cbn [map]. split.
      * constructor; [ | exact N2]. intros I. apply NI.
        apply in_map_iff in I. destruct I as (y & Ey & Iy).
        rewrite <- Ey. apply in_map, (deleteMember_In _ _ _ _ Iy).
      * intros [K | I]; [ | contradiction].
        apply isMemberRow_key in K. congruence.
Qed.

Lemma deleteMember_other (sid u sid' u' : string) (members : list Member) :
  (sid', u') <> (sid, u) ->
  find (isMemberRow sid' u') (deleteMember sid u members)
  = find (isMemberRow sid' u') members.
Proof.
  intros N. induction members as [ | x l IH]; cbn [deleteMember find];
    [reflexivity | ].
  destruct (isMemberRow sid u x) eqn:E.
  - apply isMemberRow_key in E.
    destruct (isMemberRow sid' u' x) eqn:E'; [ | reflexivity].
    apply isMemberRow_key in E'. congruence.
  - cbn [find]. destruct (isMemberRow sid' u' x); [reflexivity | exact IH].
Qed.

(** [removeMember] on a store that satisfies the invariant: it succeeds
    only for the creator of the streak and a user who is a member, who
    then is no member any more, while every other membership, every
    streak and every check-in (those of the removed member too) is as
    before and the invariant holds again. *)
Theorem removeMember_outcome (userId streakId memberUserId : string)
  (db : Db) :
  storeInvariant db ->
  match removeMember userId streakId memberUserId db with
  | inr (db', m) =>
      storeInvariant db'
      /\ (exists s, findStreak db streakId = Some s /\ s_createdById s = userId)
      /\ findMember db streakId memberUserId = Some m
      /\ findMember db' streakId memberUserId = None
      /\ (forall sid u, (sid, u) <> (streakId, memberUserId) ->
            findMember db' sid u = findMember db sid u)
      /\ db_streak db' = db_streak db
      /\ db_streakCheckin db' = db_streakCheckin db
  | inl (NotFoundException _) =>
      findStreak db streakId = None
      \/ findMember db streakId memberUserId = None
  | inl (ForbiddenException _) =>
      exists s, findStreak db streakId = Some s /\ s_createdById s <> userId
  | inl _ => False
  end.
Proof.
  intros Inv. unfold removeMember.
  destruct (findStreak db streakId) as [s | ] eqn:F; [ | now left].
  unfold assertOwner.
  destruct (String.eqb_spec (s_createdById s) userId) as [O | O];
    cbn [negb bind throw ret]; [ | exists s; auto].
  destruct (findMember db streakId memberUserId) as [m | ] eqn:M;
    [ | now right].
  pose proof Inv as (Ns & Ws & Nm & Rm & Nc & Wc).
  destruct (deleteMember_keys streakId memberUserId (db_streakMember db) Nm)
    as [N2 I2].
  split; [ | split; [exists s; auto | split; [reflexivity | split; [ | split]]]].
  - apply storeInvariant_withMembers; [exact Inv | exact N2 | ].
    rewrite Forall_forall in *. intros x Hx.
    apply Rm, (deleteMember_In _ _ _ _ Hx).
  - unfold findMember, withMembers. cbn [db_streakMember].
    apply findMember_key, I2.
  - intros sid u N. unfold findMember, withMembers. cbn [db_streakMember].
    now apply deleteMember_other.
  - split; reflexivity.
Qed.

Lemma removeMember_outcome_witness :
  exists db' m,
    removeMember "u1" "s1" "u1" oneStreakDb = inr (db', m)
    /\ storeInvariant db'
    /\ findMember db' "s1" "u1" = None.
Proof.
  pose proof (removeMember_outcome "u1" "s1" "u1" oneStreakDb
                oneStreakDb_invariant) as H.
  destruct (removeMember "u1" "s1" "u1" oneStreakDb) as [e | [db' m]] eqn:E;
    [vm_compute in E; discriminate E | ].
  destruct H as (I & _ & _ & N & _).
  exists db', m. split; [reflexivity | split; [exact I | exact N]].
Defined.

Lemma isCheckinRow_key (sid u : string) (day : Z) (c : StreakCheckin) :
  isCheckinRow sid u day c = true <-> checkinKey c = (sid, u, day).
Proof.
  unfold isCheckinRow, checkinKey.
  rewrite !andb_true_iff, !String.eqb_eq, Z.eqb_eq.
  split; [intros [[-> ->] ->]; reflexivity | intros E; injection E; auto].
Qed.

Lemma upsert_In (sid u : string) (day : Z) (done : bool)
  (table : list StreakCheckin) (c : StreakCheckin) :
  In c (upsert sid u day done table) ->
  c = {| sc_streakId := sid; sc_userId := u; sc_date := day;
         sc_done := done |}
  \/ In c table.
Proof.
  induction table as [ | x l IH]; cbn [upsert].
  - intros [<- | []]. now left.
  - destruct (isCheckinRow sid u day x) eqn:E.
    + apply isCheckinRow_key in E. unfold checkinKey in E.
      intros [<- | I].
      * left. injection E as -> -> ->. reflexivity.
      * right. now right.
    + intros [<- | I]; [right; now left | ].
      destruct (IH I) as [-> | I']; [now left | right; now right].
Qed.

Lemma upsert_has (sid u : string) (day : Z) (done : bool)
  (table : list StreakCheckin) :
  In {| sc_streakId := sid; sc_userId := u; sc_date := day; sc_done := done |}
     (upsert sid u day done table).
Proof.
  induction table as [ | x l IH]; cbn [upsert]; [now left | ].
  destruct (isCheckinRow sid u day x) eqn:E; [ | right; exact IH].
  apply isCheckinRow_key in E. unfold checkinKey in E.
  left. injection E as -> -> ->. reflexivity.
Qed.

Lemma upsert_other (sid u : string) (day : Z) (done : bool)
  (table : list StreakCheckin) (c : StreakCheckin) :
  checkinKey c <> (sid, u, day) ->
  (In c (upsert sid u day done table) <-> In c table).
Proof.
  intros N. induction table as [ | x l IH]; cbn [upsert In].
  - split; [intros [<- | []]; exfalso; apply N; reflexivity | intros []].
  - destruct (isCheckinRow sid u day x) eqn:E; cbn [In].
    + apply isCheckinRow_key in E. split.
      * intros [<- | I]; [exfalso; apply N; exact E | now right].
      * intros [<- | I]; [contradiction | now right].
    + rewrite IH. reflexivity.
Qed.

Lemma upsert_keys (sid u : string) (day : Z) (done : bool)
  (table : list StreakCheckin) :
  map checkinKey (upsert sid u day done table)
  = if existsb (isCheckinRow sid u day) table
    then map checkinKey table
    else (map checkinKey table ++ [(sid, u, day)])%list.
Proof.
  induction table as [ | x l IH]; cbn [upsert existsb map app]; [reflexivity | ].
  destruct (isCheckinRow sid u day x) eqn:E; cbn [orb map].
  - reflexivity.
  - rewrite IH. destruct (existsb _ l); reflexivity.
Qed.

Lemma upsert_NoDup (sid u : string) (day : Z) (done : bool)
  (table : list StreakCheckin) :
  NoDup (map checkinKey table) ->
  NoDup (map checkinKey (upsert sid u day done table)).
Proof.
  intros N. rewrite upsert_keys.
  destruct (existsb (isCheckinRow sid u day) table) eqn:E; [exact N | ].
  apply NoDup_app; [exact N | constructor; [intros [] | constructor] | ].
  intros k Hk [<- | []]. apply in_map_iff in Hk. destruct Hk as (c & K & I).
  apply isCheckinRow_key in K.
  assert (X : existsb (isCheckinRow sid u day) table = true)
    by (apply existsb_exists; exists c; auto).
  congruence.
Qed.

Lemma upsert_idempotent (sid u : string) (day : Z) (done : bool)
  (table : list StreakCheckin) :
  upsert sid u day done (upsert sid u day done table)
  = upsert sid u day done table.
Proof.
  induction table as [ | x l IH]; cbn [upsert].
  - unfold isCheckinRow. cbn. now rewrite !String.eqb_refl, Z.eqb_refl.
  - destruct (isCheckinRow sid u day x) eqn:E; cbn [upsert].
    + unfold isCheckinRow in *. cbn [sc_streakId sc_userId sc_date].
      rewrite E. reflexivity.
    + rewrite E, IH. reflexivity.
Qed.

Lemma streak_of_invariant (db : Db) (streakId : string) (s : Streak) :
  storeInvariant db -> findStreak db streakId = Some s ->
  streakWellFormed s /\ In streakId (map s_id (db_streak db)).
Proof.
  intros (_ & Ws & _) F. apply findStreak_Some in F. destruct F as [I E].
  rewrite Forall_forall in Ws. split; [apply Ws, I | ].
  rewrite <- E. apply in_map, I.
Qed.

(** [recordCheckin] on a store that satisfies the invariant: it succeeds
    only for a member of the streak, with a check-in on a calendar day
    inside the window of the streak, which is then the one row of its key
    and holds the given [done] (true when none is given), every row of
    another key being as before and the invariant holding again. *)
Theorem recordCheckin_outcome (userId streakId : string)
  (dto : RecordStreakCheckinDto) (db : Db) :
  storeInvariant db ->
  match recordCheckin userId streakId dto db with
  | inr (db', c) =>
      storeInvariant db'
      /\ (exists s m,
            findStreak db streakId = Some s
            /\ findMember db streakId userId = Some m
            /\ s_startDate s <= sc_date c
            /\ forall e, s_endDate s = Some e -> sc_date c <= e)
      /\ isCalendarDay (sc_date c)
      /\ normalizeDay (rc_date dto) = inr (sc_date c)
      /\ sc_streakId c = streakId /\ sc_userId c = userId
      /\ sc_done c = match rc_done dto with Some d => d | None => true end
      /\ In c (db_streakCheckin db')
      /\ (forall c', checkinKey c' = checkinKey c ->
            In c' (db_streakCheckin db') -> c' = c)
      /\ (forall c', checkinKey c' <> checkinKey c ->
            (In c' (db_streakCheckin db') <-> In c' (db_streakCheckin db)))
      /\ db_streak db' = db_streak db
      /\ db_streakMember db' = db_streakMember db
  | inl (NotFoundException _) => findStreak db streakId = None
  | inl (ForbiddenException _) => findMember db streakId userId = None
  | inl (BadRequestException _) =>
      rc_date dto = None
      \/ exists s day,
           findStreak db streakId = Some s
           /\ normalizeDay (rc_date dto) = inr day
           /\ (day < s_startDate s
               \/ exists e, s_endDate s = Some e /\ e < day)
  | inl _ => False
  end.
Proof.
  intros Inv. unfold recordCheckin.
  destruct (findStreak db streakId) as [s | ] eqn:F; [ | reflexivity].
  destruct (findMember db streakId userId) as [m | ] eqn:M; [ | reflexivity].
  destruct (streak_of_invariant db streakId s Inv F) as [[Cs Ce] Is].
  destruct (rc_date dto) as [t | ] eqn:D; cbn [normalizeDay bind throw ret];
    [ | now left].
  pose proof (normalizeDate_idempotent t) as Cd.
  generalize dependent (normalizeDate t). intros day Cd.
  unfold isCalendarDay in Cs. rewrite Cs.
  destruct (Z.ltb_spec day (s_startDate s)) as [L | L].
  { right. exists s, day. repeat split; auto. }
  assert (End : match option_map normalizeDate (s_endDate s) with
                | Some e => day >? e
                | None => false
                end
                = match s_endDate s with Some e => day >? e | None => false end).
  { destruct (s_endDate s) as [e | ] eqn:E; [ | reflexivity].
    cbn [option_map]. destruct (Ce e eq_refl) as [C _].
    unfold isCalendarDay in C. now rewrite C. }
  rewrite End. clear End.
  destruct (match s_endDate s with Some e => day >? e | None => false end)
    eqn:G.
  { right. exists s, day. split; [reflexivity | split; [reflexivity | right]].
    destruct (s_endDate s) as [e | ]; [ | discriminate G].
    exists e. split; [reflexivity | ]. apply Z.gtb_lt in G. lia. }
  set (done := match rc_done dto with Some d => d | None => true end).
  set (c := {| sc_streakId := streakId; sc_userId := userId; sc_date := day;
               sc_done := done |}).
  assert (Win : forall e, s_endDate s = Some e -> day <= e).
  { intros e E. rewrite E in G. destruct (Z.gtb_spec day e); [discriminate | lia]. }
  pose proof Inv as (Ns & Ws & Nm & Rm & Nc & Wc).
  assert (N' : NoDup (map checkinKey
                        (upsert streakId userId day done (db_streakCheckin db))))
    by (apply upsert_NoDup, Nc).
  split; [ | split; [exists s, m; repeat split; auto | ]].
  - unfold storeInvariant, withCheckins.
    cbn [db_streak db_streakMember db_streakCheckin].
    repeat (split; [assumption | ]).
    rewrite Forall_forall in *. intros x Hx.
    apply upsert_In in Hx. destruct Hx as [-> | Hx].
    + split; [exact Is | ]. split; [exact Cd | ].
      cbn [sc_streakId sc_date]. intros s' F'.
      change (findStreak db streakId = Some s') in F'.
      rewrite F in F'. apply Some_inj in F'. subst s'. split; [lia | exact Win].
    + destruct (Wc x Hx) as [Ix [Cx Wx]]. split; [exact Ix | ].
      split; [exact Cx | exact Wx].
  - split; [exact Cd | split; [reflexivity | ]].
    split; [reflexivity | split; [reflexivity | split; [reflexivity | ]]].
    cbn [withCheckins db_streakCheckin db_streak db_streakMember].
    split; [apply upsert_has | split; [ | split; [ | split; reflexivity]]].
    + intros c' K I.
      destruct (upsert_In _ _ _ _ _ _ I) as [E | I0]; [exact E | ].
      assert (Ic : In c (upsert streakId userId day done (db_streakCheckin db)))
        by apply upsert_has.
      clear - N' K I Ic.
      generalize dependent (upsert streakId userId day done
                              (db_streakCheckin db)).
      intros l N'. induction l as [ | x l IH]; intros I Ic; [destruct I | ].
      cbn [map] in N'. inversion N' as [ | ? ? NI N2]; subst.
      destruct I as [-> | I], Ic as [Ec | Ic]; auto.
      * exfalso. apply NI. rewrite K. apply in_map, Ic.
      * exfalso. apply NI. rewrite Ec, <- K. apply in_map, I.
    + intros c' K. apply upsert_other. exact K.
Qed.

Lemma recordCheckin_outcome_witness :
  exists db' c,
    recordCheckin "u1" "s1"
      {| rc_date := Some 1704099600000; rc_done := None |} oneStreakDb
    = inr (db', c)
    /\ storeInvariant db'
    /\ sc_date c = 1704067200000 /\ sc_done c = true.
Proof.
  pose proof (recordCheckin_outcome "u1" "s1"
                {| rc_date := Some 1704099600000; rc_done := None |}
                oneStreakDb oneStreakDb_invariant) as H.
  destruct (recordCheckin "u1" "s1"
              {| rc_date := Some 1704099600000; rc_done := None |}
              oneStreakDb) as [e | [db' c]] eqn:E;
    [vm_compute in E; discriminate E | ].
  destruct H as (I & _ & _ & N & _ & _ & D & _).
  exists db', c. split; [reflexivity | split; [exact I | split; [ | exact D]]].
  apply inr_inj in N. rewrite <- N. vm_compute. reflexivity.
Defined.

Lemma recordCheckin_inr (userId streakId : string)
  (dto : RecordStreakCheckinDto) (db db' : Db) (c : StreakCheckin) :
  recordCheckin userId streakId dto db = inr (db', c) ->
  exists s m day,
    findStreak db streakId = Some s
    /\ findMember db streakId userId = Some m
    /\ normalizeDay (rc_date dto) = inr day
    /\ (day <? normalizeDate (s_startDate s)) = false
    /\ match option_map normalizeDate (s_endDate s) with
       | Some e => day >? e
       | None => false
       end = false
    /\ db' = withCheckins db
               (upsert streakId userId day
                  (match rc_done dto with Some d => d | None => true end)
                  (db_streakCheckin db))
    /\ c = {| sc_streakId := streakId; sc_userId := userId; sc_date := day;
              sc_done := match rc_done dto with
                         | Some d => d
                         | None => true
                         end |}.
Proof.
  unfold recordCheckin.
  destruct (findStreak db streakId) as [s | ]; [ | discriminate].
  destruct (findMember db streakId userId) as [m | ]; [ | discriminate].
  destruct (normalizeDay (rc_date dto)) as [e | day]; [discriminate | ].
  cbn [bind].
  destruct (day <? normalizeDate (s_startDate s)) eqn:L; [discriminate | ].
  destruct (match option_map normalizeDate (s_endDate s) with
            | Some e => day >? e
            | None => false
            end) eqn:G; [discriminate | ].
  unfold ret. intros H. apply inr_inj in H.
  exists s, m, day.
  split; [reflexivity | split; [reflexivity | split; [reflexivity | ]]].
  split; [exact L | split; [exact G | split]].
  - apply (f_equal fst) in H. symmetry. exact H.
  - apply (f_equal snd) in H. symmetry. exact H.
Qed.

(** Recording the same check-in a second time changes nothing: the store
    and the row returned are those of the first time. *)
Theorem recordCheckin_idempotent (userId streakId : string)
  (dto : RecordStreakCheckinDto) (db db' : Db) (c : StreakCheckin) :
  recordCheckin userId streakId dto db = inr (db', c) ->
  recordCheckin userId streakId dto db' = inr (db', c).
Proof.
  intros H. apply recordCheckin_inr in H.
  destruct H as (s & m & day & F & M & D & L & G & -> & ->).
  unfold recordCheckin.
  change (findStreak (withCheckins db ?x) streakId)
    with (findStreak db streakId).
  change (findMember (withCheckins db ?x) streakId userId)
    with (findMember db streakId userId).
  rewrite F, M, D. cbn [bind]. rewrite L, G.
  unfold withCheckins. cbn [db_streak db_streakMember db_streakCheckin
                            db_chatRoom db_chatMember db_user].
  rewrite upsert_idempotent. reflexivity.
Qed.

Lemma recordCheckin_idempotent_witness :
  exists db' c,
    recordCheckin "u1" "s1"
      {| rc_date := Some 1704099600000; rc_done := Some false |} oneStreakDb
    = inr (db', c)
    /\ recordCheckin "u1" "s1"
         {| rc_date := Some 1704099600000; rc_done := Some false |} db'
       = inr (db', c).
Proof.
  destruct (recordCheckin "u1" "s1"
              {| rc_date := Some 1704099600000; rc_done := Some false |}
              oneStreakDb) as [e | [db' c]] eqn:E;
    [vm_compute in E; discriminate E | ].
  exists db', c. split; [reflexivity | ].
  apply (recordCheckin_idempotent "u1" "s1" _ oneStreakDb db' c E).
Defined.

(** Keeping some rows of a table keeps its keys distinct. *)
Lemma kept_rows_distinct {Row Key : Type} (keyOf : Row -> Key)
  (keep : Row -> bool) (rows : list Row) :
  NoDup (map keyOf rows) -> NoDup (map keyOf (filter keep rows)).
Proof.
  intros Distinct. induction rows as [ | row rows IH]; cbn [filter];
    [constructor | ].
  cbn [map] in Distinct. apply NoDup_cons_iff in Distinct.
  destruct Distinct as [Fresh Rest].
  destruct (keep row); cbn [map]; [ | now apply IH].
  apply NoDup_cons; [ | now apply IH].
  intros Again. apply Fresh. apply in_map_iff in Again.
  destruct Again as (other & Same & Kept). rewrite <- Same.
  apply in_map. apply filter_In in Kept. apply Kept.
Qed.

Lemma dates_NoDup (sid u : string) (l : list StreakCheckin) :
  NoDup (map checkinKey l) ->
  Forall (fun c => sc_streakId c = sid /\ sc_userId c = u) l ->
  NoDup (map sc_date l).
Proof.
  induction l as [ | x l IH]; intros N F; cbn [map]; [constructor | ].
  cbn [map] in N. inversion N as [ | ? ? NI N']; subst.
  inversion F as [ | ? ? [Sx Ux] F']; subst.
  constructor; [ | apply IH; assumption].
  intros I. apply NI. apply in_map_iff in I. destruct I as (y & E & I).
  apply in_map_iff. exists y. split; [ | exact I].
  rewrite Forall_forall in F'. destruct (F' y I) as [Sy Uy].
  unfold checkinKey. congruence.
Qed.

Lemma strictly_sorted (l : list Z) :
  Sorted Z.le l -> NoDup l -> StronglySorted Z.lt l.
Proof.
  intros S N. apply Sorted_StronglySorted in S; [ | intros a b c; lia].
  induction S as [ | a l S IH F]; [constructor | ].
  inversion N as [ | ? ? NI N']; subst.
  constructor; [apply IH, N' | ].
  rewrite Forall_forall in *. intros x Hx. specialize (F x Hx).
  assert (a <> x) by (intros ->; contradiction). lia.
Qed.

Lemma Sorted_map_dates (rows : list StreakCheckin) :
  Sorted (fun a b => sc_date a - sc_date b <= 0) rows ->
  Sorted Z.le (map sc_date rows).
Proof.
  induction 1 as [ | a l S IH H]; cbn [map]; constructor; [exact IH | ].
  destruct H; cbn [map]; constructor. lia.
Qed.

Lemma longestRun_ext (l l' : list Z) (n : Z) :
  (forall x, In x l <-> In x l') -> longestRun l n -> longestRun l' n.
Proof.
  intros E [[first R] U]. split.
  - exists first. intros i Hi. apply E, R, Hi.
  - intros f len R'. apply (U f). intros i Hi. apply E, R', Hi.
Qed.

Lemma runEndingAt_ext (l l' : list Z) (d n : Z) :
  (forall x, In x l <-> In x l') -> runEndingAt l d n -> runEndingAt l' d n.
Proof.
  intros E (C & R & N). split; [exact C | split].
  - intros i Hi. apply E, R, Hi.
  - intros I. apply N, E, I.
Qed.

Lemma existsb_memberKeys (db : Db) (streakId userId : string) :
  existsb (fun m => String.eqb (Streaks.sm_streakId m) streakId
                    && String.eqb (Streaks.sm_userId m) userId)
          (memberKeys db)
  = match findMember db streakId userId with
    | Some _ => true
    | None => false
    end.
Proof.
  unfold memberKeys, findMember.
  induction (db_streakMember db) as [ | m l IH]; cbn [map existsb find];
    [reflexivity | ].
  unfold isMemberRow at 1. cbn [Streaks.sm_streakId Streaks.sm_userId].
  destruct (String.eqb (m_streakId m) streakId && String.eqb (m_userId m) userId);
    [reflexivity | exact IH].
Qed.

(** The run statistics of a member, on a store that satisfies the
    invariant and for a caller who is a member of the streak: [longest]
    is the length of the longest run of consecutive days among the days
    the member has a done check-in on, [current] the length of the run
    that ends on the latest of these days (0 when there is none), and
    [totalDone] their number; a caller who is no member gets
    [ForbiddenException]. *)
Theorem statsForMember_correct (userId streakId : string)
  (memberUserId : option string) (db : Db) :
  storeInvariant db ->
  let target := match memberUserId with Some u => u | None => userId end in
  let days := doneDays db streakId target in
  match statsForMember userId streakId memberUserId db with
  | inr st =>
      findMember db streakId userId <> None
      /\ Streaks.st_userId st = target
      /\ Streaks.totalDone st = Z.of_nat (List.length days)
      /\ longestRun days (Streaks.longest st)
      /\ (days = [] -> Streaks.current st = 0)
      /\ (forall last, In last days -> (forall d, In d days -> d <= last) ->
            runEndingAt days last (Streaks.current st))
  | inl (ForbiddenException _) => findMember db streakId userId = None
  | inl _ => False
  end.
Proof.
  intros (_ & _ & _ & _ & Nc & Wc). cbv zeta.
  unfold statsForMember, Streaks.statsForMember.
  rewrite existsb_memberKeys.
  destruct (findMember db streakId userId) as [m | ]; cbn [negb];
    [ | reflexivity].
  cbn [ret]. unfold ret.
  set (target := match memberUserId with Some u => u | None => userId end).
  set (sel := filter (fun c => String.eqb (sc_streakId c) streakId
                               && String.eqb (sc_userId c) target
                               && sc_done c) (db_streakCheckin db)).
  set (rows := sort (fun a b => sc_date a - sc_date b) sel).
  change (doneDays db streakId target) with (map sc_date sel).
  pose proof (sort_Permutation (fun a b => sc_date a - sc_date b) sel) as P.
  fold rows in P.
  assert (PD : Permutation (map sc_date rows) (map sc_date sel))
    by (apply Permutation_map, P).
  assert (EQ : forall x, In x (map sc_date rows) <-> In x (map sc_date sel)).
  { intros x. split; apply Permutation_in;
      [exact PD | apply Permutation_sym, PD]. }
  assert (Cal : Forall isCalendarDay (map sc_date sel)).
  { rewrite Forall_forall. intros d Hd. apply in_map_iff in Hd.
    destruct Hd as (c & <- & Hc). unfold sel in Hc. apply filter_In in Hc.
    rewrite Forall_forall in Wc. apply (Wc c), Hc. }
  assert (ND : NoDup (map sc_date sel)).
  { apply (dates_NoDup streakId target).
    - apply kept_rows_distinct, Nc.
    - rewrite Forall_forall. intros c Hc. unfold sel in Hc.
      apply filter_In in Hc. destruct Hc as [_ B].
      apply andb_true_iff in B. destruct B as [B _].
      apply andb_true_iff in B. destruct B as [B1 B2].
      apply String.eqb_eq in B1, B2. auto. }
  assert (SS : StronglySorted Z.lt (map sc_date rows)).
  { apply strictly_sorted.
    - apply Sorted_map_dates.
      apply (sort_Sorted (fun a b => sc_date a - sc_date b)).
      intros a b. lia.
    - eapply Permutation_NoDup; [apply Permutation_sym, PD | exact ND]. }
  assert (Id : map Streaks.normalizeDate (map sc_date rows) = map sc_date rows).
  { rewrite <- (map_id (map sc_date rows)) at 2. apply map_ext_in.
    intros d Hd. apply EQ in Hd. rewrite Forall_forall in Cal.
    apply (Cal d Hd). }
  pose proof (runInvariant_fold (map sc_date rows)) as RI.
  rewrite Id in RI. specialize (RI SS).
  unfold Streaks.runTracker.
  cbn [Streaks.st_userId Streaks.totalDone Streaks.longest Streaks.current].
  destruct RI as [HL HP].
  split; [discriminate | split; [reflexivity | split]].
  - rewrite !List.length_map. f_equal.
    apply Permutation_length, P.
  - split; [apply (longestRun_ext _ _ _ EQ), HL | ].
    destruct (Streaks.rs_prev
                (fold_left Streaks.step (map sc_date rows) Streaks.initial))
      as [prev | ].
    + destruct HP as (EL & FM & RE).
      assert (Ip : In prev (map sc_date rows)) by exact (In_run_end _ _ _ RE).
      split.
      * intros E0. apply EQ in Ip. rewrite E0 in Ip. destruct Ip.
      * intros last Il Max.
        assert (last = prev).
        { apply EQ in Il. rewrite Forall_forall in FM.
          specialize (FM last Il). apply EQ in Ip. specialize (Max prev Ip).
          lia. }
        subst last. apply (runEndingAt_ext _ _ _ _ EQ), RE.
    + destruct HP as [E0 C0]. split; [intros _; exact C0 | ].
      intros last Il _. apply EQ in Il. rewrite E0 in Il. destruct Il.
Qed.

Lemma runDb_invariant : storeInvariant runDb.
Proof.
  destruct oneStreakDb_invariant as (Ns & Ws & Nm & Rm & _ & _).
  unfold storeInvariant, runDb.
  cbn [db_streak db_streakMember db_streakCheckin].
  repeat (split; [assumption | ]). split.
  - cbn [map checkinKey sc_streakId sc_userId sc_date].
    repeat (constructor; [cbn [In]; intuition discriminate | ]).
    constructor.
  - rewrite Forall_forall. cbn [map In]. intros c Hc.
    assert (W : sc_streakId c = "s1"%string
                /\ isCalendarDay (sc_date c)
                /\ 1704067200000 <= sc_date c <= 1706659200000).
    { destruct Hc as [<- | [<- | [<- | [<- | []]]]];
        (split; [reflexivity | split; [vm_compute; reflexivity | ]]);
        cbn [sc_date]; lia. }
    destruct W as (Es & Cc & Bc). rewrite Es.
    split; [cbn; now left | ].
    split; [exact Cc | ]. rewrite Es.
    intros s F. vm_compute in F. apply Some_inj in F. subst s.
    cbn [s_startDate s_endDate]. split; [lia | ].
    intros e E. apply Some_inj in E. subst e. lia.
Qed.

Lemma statsForMember_correct_witness :
  exists st,
    statsForMember "u1" "s1" None runDb = inr st
    /\ Streaks.longest st = 3 /\ Streaks.current st = 1
    /\ Streaks.totalDone st = 4
    /\ longestRun (doneDays runDb "s1" "u1") (Streaks.longest st).
Proof.
  pose proof (statsForMember_correct "u1" "s1" None runDb runDb_invariant) as H.
  cbv zeta in H.
  destruct (statsForMember "u1" "s1" None runDb) as [e | st] eqn:E;
    [vm_compute in E; discriminate E | ].
  exists st. destruct H as (_ & _ & _ & L & _).
  split; [reflexivity | ].
  vm_compute in E. apply inr_inj in E. subst st.
  split; [reflexivity | split; [reflexivity | split; [reflexivity | exact L]]].
Defined.

Section AcceptInvite.
Variable chatMemberCreate :
  ChatMember -> list ChatMember -> option (list ChatMember).

Lemma alreadyMember_find (db : Db) (streakId userId : string) :
  existsb (fun m => String.eqb (m_userId m) userId)
    (filter (fun m => String.eqb (m_streakId m) streakId)
            (db_streakMember db))
  = match findMember db streakId userId with
    | Some _ => true
    | None => false
    end.
Proof.
  unfold findMember.
  induction (db_streakMember db) as [ | m l IH]; cbn [filter existsb find];
    [reflexivity | ].
  unfold isMemberRow at 1.
  destruct (String.eqb (m_streakId m) streakId); cbn [existsb andb];
    [ | exact IH].
  destruct (String.eqb (m_userId m) userId); cbn [orb]; [reflexivity | exact IH].
Qed.

(** [acceptInvite] on a store that satisfies the invariant: for a member
    it changes nothing; otherwise it needs only that the streak exists
    and has not ended before today, no invitation, and makes the user a
    MEMBER, succeeding whether or not the row of the chat room could be
    created; streaks, check-ins and the other memberships stay as they
    are and the invariant holds again. *)
Theorem acceptInvite_outcome (now : Z) (userId streakId : string) (db : Db) :
  storeInvariant db ->
  match acceptInvite chatMemberCreate now userId streakId db with
  | inr (db', _) =>
      storeInvariant db'
      /\ findMember db' streakId userId <> None
      /\ (findMember db streakId userId <> None -> db' = db)
      /\ (findMember db streakId userId = None ->
          findMember db' streakId userId
          = Some {| m_streakId := streakId; m_userId := userId;
                    m_role := MEMBER |})
      /\ (forall sid u, (sid, u) <> (streakId, userId) ->
            findMember db' sid u = findMember db sid u)
      /\ db_streak db' = db_streak db
      /\ db_streakCheckin db' = db_streakCheckin db
  | inl (NotFoundException _) => findStreak db streakId = None
  | inl (BadRequestException _) =>
      findMember db streakId userId = None
      /\ exists s e, findStreak db streakId = Some s /\ s_endDate s = Some e
                     /\ normalizeDate e < normalizeDate now
  | inl _ => False
  end.
Proof.
  intros Inv. unfold acceptInvite.
  destruct (findStreak db streakId) as [s | ] eqn:F; [ | reflexivity].
  rewrite alreadyMember_find.
  destruct (findMember db streakId userId) as [m | ] eqn:M.
  { cbn [ret]. unfold ret. rewrite M.
    split; [exact Inv | split; [discriminate | split; [reflexivity | ]]].
    split; [discriminate | split; [reflexivity | split; reflexivity]]. }
  destruct (match s_endDate s with
            | Some e => normalizeDate e <? normalizeDate now
            | None => false
            end) eqn:G.
  { split; [reflexivity | ].
    destruct (s_endDate s) as [e | ] eqn:Ee; [ | discriminate G].
    exists s, e. apply Z.ltb_lt in G.
    split; [reflexivity | split; [exact Ee | exact G]]. }
  pose proof Inv as (Ns & Ws & Nm & Rm & Nc & Wc).
  destruct (streak_of_invariant db streakId s Inv F) as [_ Is].
  assert (NK : ~ In (streakId, userId) (map memberKey (db_streakMember db)))
    by (apply findMember_key, M).
  set (db1 := withMembers db
                (db_streakMember db
                 ++ [{| m_streakId := streakId; m_userId := userId;
                        m_role := MEMBER |}])%list).
  assert (I1 : storeInvariant db1).
  { apply storeInvariant_withMembers; [exact Inv | | ].
    - rewrite map_app. cbn [map memberKey m_streakId m_userId].
      apply NoDup_app; [exact Nm | constructor; [intros [] | constructor] | ].
      intros x Hx [<- | []]. contradiction.
    - apply Forall_app. split; [exact Rm | ].
      constructor; [exact Is | constructor]. }
  assert (M1 : findMember db1 streakId userId
               = Some {| m_streakId := streakId; m_userId := userId;
                         m_role := MEMBER |}).
  { unfold findMember, db1, withMembers. cbn [db_streakMember].
    rewrite find_app_new by exact M. cbn [find]. unfold isMemberRow. cbn.
    now rewrite !String.eqb_refl. }
  assert (O1 : forall sid u, (sid, u) <> (streakId, userId) ->
                 findMember db1 sid u = findMember db sid u).
  { intros sid u N. unfold findMember, db1, withMembers. cbn [db_streakMember].
    now apply (find_other_key _ streakId userId). }
  assert (K : forall db2 : Db,
    db_streak db2 = db_streak db1 ->
    db_streakMember db2 = db_streakMember db1 ->
    db_streakCheckin db2 = db_streakCheckin db1 ->
    storeInvariant db2
    /\ findMember db2 streakId userId <> None
    /\ (@None Member <> None -> db2 = db)
    /\ (@None Member = None ->
        findMember db2 streakId userId
        = Some {| m_streakId := streakId; m_userId := userId;
                  m_role := MEMBER |})
    /\ (forall sid u, (sid, u) <> (streakId, userId) ->
          findMember db2 sid u = findMember db sid u)
    /\ db_streak db2 = db_streak db
    /\ db_streakCheckin db2 = db_streakCheckin db).
  { intros db2 E1 E2 E3.
    assert (FM : forall sid u, findMember db2 sid u = findMember db1 sid u)
      by (intros; unfold findMember; now rewrite E2).
    split; [ | split; [rewrite FM, M1; discriminate | ]].
    - unfold storeInvariant, checkinInWindow, findStreak in *.
      rewrite E1, E2, E3. exact I1.
    - split; [intros X; now contradiction X | ].
      split; [intros _; rewrite FM; exact M1 | ].
      split; [intros sid u N; rewrite FM; apply O1, N | ].
      split; [exact E1 | exact E3]. }
  cbn [ret]. unfold ret.
  destruct (find (fun r => String.eqb (room_streakId r) streakId)
              (db_chatRoom db1)) as [chat | ]; [ | apply K; reflexivity].
  destruct (chatMemberCreate _ (db_chatMember db1)) as [cms | ];
    apply K; reflexivity.
Qed.

End AcceptInvite.

Lemma chatDb_invariant : storeInvariant chatDb.
Proof.
  destruct oneStreakDb_invariant as (Ns & Ws & Nm & Rm & Nc & Wc).
  unfold storeInvariant, chatDb.
  cbn [db_streak db_streakMember db_streakCheckin].
  repeat (split; [assumption | ]). constructor.
Qed.

Lemma acceptInvite_outcome_witness :
  exists db',
    acceptInvite chatRefuses 1704153600000 "u2" "s1" chatDb
    = inr (db', success)
    /\ storeInvariant db'
    /\ findMember db' "s1" "u2"
       = Some {| m_streakId := "s1"; m_userId := "u2"; m_role := MEMBER |}.
Proof.
  pose proof (acceptInvite_outcome chatRefuses 1704153600000 "u2" "s1" chatDb
                chatDb_invariant) as H.
  destruct (acceptInvite chatRefuses 1704153600000 "u2" "s1" chatDb)
    as [e | [db' []]] eqn:E; [vm_compute in E; discriminate E | ].
  destruct H as (I & _ & _ & M & _).
  exists db'. split; [reflexivity | split; [exact I | ]].
  apply M. reflexivity.
Defined.

End StreakStore.

(** ** The goals service *)

Section GoalsService.
Import Stats Goals.

Lemma validateDates_inr (startdate : IsoText) (enddate : option IsoText) :
  validateDates startdate enddate = inr tt
  <-> exists s, parse startdate = Some s
        /\ forall e, enddate = Some e -> given e = true ->
                     exists t, parse e = Some t /\ s <= t.
Proof.
  unfold validateDates. destruct (parse startdate) as [s | ].
  - destruct enddate as [e | ].
    + destruct (given e) eqn:G.
      * destruct (parse e) as [t | ] eqn:P.
        -- destruct (Z.ltb_spec t s) as [L | L]; split.
           ++ discriminate.
           ++ intros (s' & Es & H). apply Some_inj in Es. subst s'.
              destruct (H e eq_refl G) as (t' & Et & Le).
              rewrite P in Et. apply Some_inj in Et. lia.
           ++ intros _. exists s. split; [reflexivity | ].
              intros e' Ee _. apply Some_inj in Ee. subst e'.
              exists t. split; [exact P | exact L].
           ++ reflexivity.
        -- split; [discriminate | ].
           intros (s' & _ & H). destruct (H e eq_refl G) as (t & Et & _).
           rewrite P in Et. discriminate Et.
      * split; [ | reflexivity]. intros _. exists s.
        split; [reflexivity | ]. intros e' Ee Ge. apply Some_inj in Ee.
        subst e'. rewrite G in Ge. discriminate Ge.
    + split; [ | reflexivity]. intros _. exists s.
      split; [reflexivity | ]. intros e' Ee. discriminate Ee.
  - split; [discriminate | ]. intros (s & Es & _). discriminate Es.
Qed.

Lemma validateTarget_inr (type : GoalTargetType) (val : option Z) :
  validateTarget type val = inr tt <-> targetFits type val.
Proof.
  unfold validateTarget, targetFits.
  destruct type; cbn [andb]; try (split; [exact (fun _ => I) | reflexivity]).
  all: destruct val as [v | ].
  all: try (split; [discriminate | intros (v' & E & _); discriminate E]).
  all: destruct (Z.eqb_spec v 0) as [-> | N]; cbn [orb].
  all: try (split; [discriminate | intros (v' & E & L);
                                   apply Some_inj in E; lia]).
  all: destruct (Z.ltb_spec v 1) as [L | L].
  all: try (split; [discriminate | intros (v' & E & L');
                                   apply Some_inj in E; lia]).
  all: split; [intros _; exists v; split; [reflexivity | exact L]
              | reflexivity].
Qed.

Lemma validateDates_unit (startdate : IsoText) (enddate : option IsoText)
  (u : unit) :
  validateDates startdate enddate = inr u ->
  validateDates startdate enddate = inr tt.
Proof. destruct u. exact (fun E => E). Qed.

Lemma validate_error (A : Type) (m : Exc A) :
  match m with inl (BadRequestException _) => True | inl _ => False
             | inr _ => True end ->
  forall e, m = inl e -> exists msg, e = BadRequestException msg.
Proof.
  intros H e ->. destruct e; try contradiction. now eexists.
Qed.

Lemma validateDates_error (startdate : IsoText) (enddate : option IsoText)
  (e : Exception) :
  validateDates startdate enddate = inl e ->
  exists msg, e = BadRequestException msg.
Proof.
  apply validate_error. unfold validateDates.
  destruct (parse startdate); [ | exact I].
  destruct enddate as [x | ]; [ | exact I].
  destruct (given x); [ | exact I].
  destruct (parse x) as [t | ]; [ | exact I].
  destruct (t <? z); exact I.
Qed.

Lemma validateTarget_error (type : GoalTargetType) (val : option Z)
  (e : Exception) :
  validateTarget type val = inl e -> exists msg, e = BadRequestException msg.
Proof.
  apply validate_error. unfold validateTarget.
  destruct (_ && _); exact I.
Qed.

Lemma checkCategory_inr (categories : list string) (c : Patch string) :
  checkCategory categories c = inr tt
  <-> forall x, c = Value x -> x <> EmptyString -> In x categories.
Proof.
  unfold checkCategory. destruct c as [ | | x].
  1, 2: split; [intros _ x E; discriminate E | reflexivity].
  destruct (String.eqb_spec x EmptyString) as [-> | N]; cbn [negb].
  - split; [ | reflexivity]. intros _ y E Ny. injection E as <-.
    now contradiction Ny.
  - destruct (existsb (String.eqb x) categories) eqn:X.
    + split; [ | reflexivity]. intros _ y E _. injection E as <-.
      apply existsb_exists in X. destruct X as (y & I & E).
      apply String.eqb_eq in E. now subst y.
    + split; [discriminate | ]. intros H. exfalso.
      specialize (H x eq_refl N).
      assert (X' : existsb (String.eqb x) categories = true)
        by (apply existsb_exists; exists x; split;
            [exact H | apply String.eqb_refl]).
      rewrite X in X'. discriminate X'.
Qed.

Lemma checkCategory_error (categories : list string) (c : Patch string)
  (e : Exception) :
  checkCategory categories c = inl e -> exists msg, e = BadRequestException msg.
Proof.
  apply validate_error. unfold checkCategory.
  destruct c as [ | | x]; try exact I.
  destruct (negb _); [ | exact I]. destruct (existsb _ _); exact I.
Qed.

Lemma definedValue_Some (A : Type) (p : Patch A) (a : A) :
  definedValue p = Some a <-> p = Value a.
Proof.
  destruct p as [ | | x]; cbn [definedValue]; split; intros E;
    try discriminate E.
  - apply Some_inj in E. now subst x.
  - injection E as <-. reflexivity.
Qed.

Lemma createGoalValid_checks (categories : list string) (dto : CreateGoalDto) :
  createGoalValid categories dto
  <-> validateDates (cg_startDate dto) (definedValue (cg_endDate dto)) = inr tt
      /\ validateTarget (cg_targetType dto)
           (definedValue (cg_targetValue dto)) = inr tt
      /\ checkCategory categories (cg_categoryId dto) = inr tt.
Proof.
  unfold createGoalValid.
  rewrite validateDates_inr, validateTarget_inr, checkCategory_inr.
  split.
  - intros ((s & Es & H) & T & C). split; [ | split; assumption].
    exists s. split; [exact Es | ]. intros e Ee. apply H.
    now apply definedValue_Some.
  - intros ((s & Es & H) & T & C). split; [ | split; assumption].
    exists s. split; [exact Es | ]. intros e Ee. apply H.
    now apply definedValue_Some.
Qed.

(** [create] accepts exactly the requests whose start date parses, whose
    end date, when given, parses and is not before the start, whose
    target value is at least 1 when the type is COUNT or WEEKLY, and
    whose category, when given, exists; every other request is refused
    with a bad-request error.  The goal it appends belongs to the caller,
    has its end not before its start and the target value of the request,
    whatever the target type. *)
Theorem goal_create_outcome (categories : list string) (newId userId : string)
  (dto : CreateGoalDto) (goals : list GoalRow) :
  match Goals.create categories newId userId dto goals with
  | inr (goals', g) =>
      createGoalValid categories dto
      /\ goals' = (goals ++ [g])%list
      /\ goal_id (g_core g) = newId
      /\ goal_userId (g_core g) = userId
      /\ targetType (g_core g) = cg_targetType dto
      /\ targetValue (g_core g) = definedValue (cg_targetValue dto)
      /\ parse (cg_startDate dto) = Some (startDate (g_core g))
      /\ goalDatesOk (g_core g)
      /\ goalTargetOk (g_core g)
  | inl (BadRequestException _) => ~ createGoalValid categories dto
  | inl _ => False
  end.
Proof.
  pose proof (createGoalValid_checks categories dto) as V.
  unfold Goals.create.
  destruct (validateDates _ _) as [e | []] eqn:VD; cbn [bind].
  { destruct (validateDates_error _ _ _ VD) as (msg & ->).
    intros X. apply V in X. destruct X as (X & _). discriminate X. }
  destruct (validateTarget _ _) as [e | []] eqn:VT; cbn [bind].
  { destruct (validateTarget_error _ _ _ VT) as (msg & ->).
    intros X. apply V in X. destruct X as (_ & X & _). discriminate X. }
  destruct (checkCategory _ _) as [e | []] eqn:CC; cbn [bind].
  { destruct (checkCategory_error _ _ _ CC) as (msg & ->).
    intros X. apply V in X. destruct X as (_ & _ & X). discriminate X. }
  apply validateDates_inr in VD. destruct VD as (s & Es & H).
  rewrite Es. cbn [ret g_core goal_id goal_userId targetType targetValue
                   startDate].
  split; [apply V; split; [reflexivity | split; reflexivity] | ].
  split; [reflexivity | ]. split; [reflexivity | ]. split; [reflexivity | ].
  split; [reflexivity | ]. split; [reflexivity | ]. split; [reflexivity | ].
  split.
  - unfold goalDatesOk. cbn [endDate startDate]. intros e Ee.
    unfold newEndDate in Ee. destruct (cg_endDate dto) as [ | | x] eqn:Ed;
      try discriminate Ee.
    destruct (given x) eqn:G; [ | discriminate Ee].
    destruct (H x eq_refl G) as (t & Et & Le).
    rewrite Et in Ee. apply Some_inj in Ee. lia.
  - unfold goalTargetOk. cbn [targetType targetValue].
    now apply validateTarget_inr.
Qed.

Ltac update_accepted cur F Ow VD VT CC E :=
  unfold Goals.update;
  destruct (find _ _) as [cur | ] eqn:F; [ | discriminate];
  destruct (negb _) eqn:Ow; [discriminate | ];
  destruct (validateDates _ _) as [? | []] eqn:VD; cbn [bind];
    [discriminate | ];
  destruct (validateTarget _ _) as [? | []] eqn:VT; cbn [bind];
    [discriminate | ];
  destruct (checkCategory _ _) as [? | []] eqn:CC; cbn [bind];
    [discriminate | ];
  intros E; apply inr_inj in E; injection E as _ E.

(** An update that does not set the target value to [null] leaves a goal
    whose target value is at least 1 when its type is COUNT or WEEKLY. *)
Theorem goal_update_target (categories : list string) (userId id : string)
  (dto : UpdateGoalDto) (goals goals' : list GoalRow) (g : GoalRow) :
  Goals.update categories userId id dto goals = inr (goals', g) ->
  ug_targetValue dto <> Null ->
  goalTargetOk (g_core g).
Proof.
  update_accepted cur F Ow VD VT CC E. intros N. subst g.
  unfold goalTargetOk. cbn [g_core targetType targetValue].
  apply validateTarget_inr in VT.
  destruct (ug_targetValue dto); cbn [patched]; [exact VT | | exact VT].
  now contradiction N.
Qed.

Lemma goal_update_target_witness :
  exists goals' g,
    Goals.update [] "u1" "g1" becomeWeekly [rowOf dailyGoal]
    = inr (goals', g)
    /\ targetType (g_core g) = WEEKLY
    /\ targetValue (g_core g) = Some 3
    /\ goalTargetOk (g_core g).
Proof.
  destruct (Goals.update [] "u1" "g1" becomeWeekly [rowOf dailyGoal])
    as [e | [goals' g]] eqn:E; [vm_compute in E; discriminate E | ].
  exists goals', g. split; [reflexivity | ].
  pose proof (goal_update_target [] "u1" "g1" becomeWeekly [rowOf dailyGoal]
                goals' g E) as T.
  vm_compute in E. apply inr_inj in E. injection E as _ <-.
  split; [reflexivity | ]. split; [reflexivity | ].
  apply T. discriminate.
Defined.

(** An update whose end date is not the empty string leaves a goal whose
    end, when it has one, is not before its start. *)
Theorem goal_update_dates (categories : list string) (userId id : string)
  (dto : UpdateGoalDto) (goals goals' : list GoalRow) (g : GoalRow) :
  Goals.update categories userId id dto goals = inr (goals', g) ->
  ug_endDate dto <> Value EmptyText ->
  goalDatesOk (g_core g).
Proof.
  update_accepted cur F Ow VD VT CC E. intros N. subst g.
  unfold goalDatesOk. cbn [g_core startDate endDate].
  apply validateDates_inr in VD. destruct VD as (s & Es & H).
  assert (S : match ug_startDate dto with
              | Some x => if given x
                          then match parse x with
                               | Some t => t
                               | None => startDate (g_core cur)
                               end
                          else startDate (g_core cur)
              | None => startDate (g_core cur)
              end = s).
  { destruct (ug_startDate dto) as [x | ].
    - destruct x as [ | t]; [discriminate Es | ].
      cbn [given parse] in *. rewrite Es. reflexivity.
    - cbn [parse] in Es. now apply Some_inj in Es. }
  rewrite S. clear S Es. intros e Ee.
  destruct (ug_endDate dto) as [ | | x].
  - destruct (H (Text (Some e))) as (t & Et & Le).
    + rewrite Ee. reflexivity.
    + reflexivity.
    + cbn [parse] in Et. apply Some_inj in Et. lia.
  - discriminate Ee.
  - destruct x as [ | t]; [now contradiction N | ].
    cbn [given parse] in Ee.
    destruct (H (Text t) eq_refl eq_refl) as (t' & Et & Le).
    cbn [parse] in Et. rewrite Et in Ee. apply Some_inj in Ee. lia.
Qed.

Lemma goal_update_dates_witness :
  exists goals' g,
    Goals.update [] "u1" "g1" moveDates [rowOf dailyGoal] = inr (goals', g)
    /\ startDate (g_core g) = 1704412800000
    /\ endDate (g_core g) = Some 1705276800000
    /\ goalDatesOk (g_core g).
Proof.
  destruct (Goals.update [] "u1" "g1" moveDates [rowOf dailyGoal])
    as [e | [goals' g]] eqn:E; [vm_compute in E; discriminate E | ].
  exists goals', g. split; [reflexivity | ].
  pose proof (goal_update_dates [] "u1" "g1" moveDates [rowOf dailyGoal]
                goals' g E) as D.
  vm_compute in E. apply inr_inj in E. injection E as _ <-.
  split; [reflexivity | ]. split; [reflexivity | ].
  apply D. discriminate.
Defined.

Lemma stored_dates_valid (cur : Goal) (first : IsoText) :
  goalDatesOk cur ->
  parse first = Some (startDate cur) ->
  validateDates first
    (option_map (fun e => Text (Some e)) (endDate cur)) = inr tt.
Proof.
  intros D P. apply validateDates_inr. exists (startDate cur).
  split; [exact P | ]. intros e Ee _.
  destruct (endDate cur) as [x | ] eqn:Ex; [ | discriminate Ee].
  cbn [option_map] in Ee. apply Some_inj in Ee. subst e.
  exists x. split; [reflexivity | apply D, Ex].
Qed.

(** The request [{ targetValue: null }] on a goal of the caller whose
    dates and target are in order is accepted: the goal keeps its type
    and loses its target value, so that a goal of a type other than DAILY
    has no completion any more, and a COUNT or WEEKLY goal is left
    without the target value its type needs. *)
Theorem goal_update_null_target (categories : list string)
  (userId id : string) (goals : list GoalRow) (cur : GoalRow) :
  find (fun g => String.eqb (goal_id (g_core g)) id) goals = Some cur ->
  goal_userId (g_core cur) = userId ->
  goalDatesOk (g_core cur) ->
  goalTargetOk (g_core cur) ->
  exists goals' g,
    Goals.update categories userId id clearTarget goals = inr (goals', g)
    /\ targetType (g_core g) = targetType (g_core cur)
    /\ targetValue (g_core g) = None
    /\ (targetType (g_core cur) <> DAILY ->
        forall to doneDays valueSum,
          completionOf (g_core g) to doneDays valueSum = None)
    /\ (targetType (g_core cur) = COUNT \/ targetType (g_core cur) = WEEKLY ->
        ~ goalTargetOk (g_core g)).
Proof.
  intros F Ow D T. unfold Goals.update. rewrite F, Ow, String.eqb_refl.
  cbn [negb clearTarget ug_startDate ug_endDate ug_targetType ug_targetValue
       ug_categoryId ug_title ug_description ug_isArchived].
  rewrite (stored_dates_valid (g_core cur)
             (Text (Some (startDate (g_core cur)))) D eq_refl).
  cbn [bind].
  apply validateTarget_inr in T. rewrite T. cbn [bind checkCategory ret].
  eexists. eexists. split; [reflexivity | ].
  cbn [g_core targetType targetValue patched].
  split; [reflexivity | split; [reflexivity | split]].
  - intros N to doneDays valueSum. unfold completionOf.
    cbn [targetType targetValue].
    destruct (targetType (g_core cur)); try reflexivity. now contradiction N.
  - unfold goalTargetOk, targetFits. cbn [targetType targetValue].
    intros [-> | ->] (v & E & _); discriminate E.
Qed.

Lemma goal_update_null_target_witness :
  exists goals' g,
    Goals.update [] "u1" "g3" clearTarget [rowOf countGoal] = inr (goals', g)
    /\ targetValue (g_core g) = None.
Proof.
  destruct (goal_update_null_target [] "u1" "g3" [rowOf countGoal]
              (rowOf countGoal)) as (goals' & g & E & _ & V & _).
  - reflexivity.
  - reflexivity.
  - intros e E. discriminate E.
  - exists 20. split; [reflexivity | lia].
  - exists goals', g. split; [exact E | exact V].
Defined.

(** With the empty string as end date the dates are not compared: a
    request that moves the start of a goal beyond its stored end and
    gives the empty string as end date is accepted, and the goal is left
    with its end before its start. *)
Theorem goal_update_empty_end (categories : list string)
  (userId id : string) (goals : list GoalRow) (cur : GoalRow) (e t : Z) :
  find (fun g => String.eqb (goal_id (g_core g)) id) goals = Some cur ->
  goal_userId (g_core cur) = userId ->
  goalTargetOk (g_core cur) ->
  endDate (g_core cur) = Some e ->
  e < t ->
  exists goals' g,
    Goals.update categories userId id (moveStart t) goals = inr (goals', g)
    /\ startDate (g_core g) = t
    /\ endDate (g_core g) = Some e
    /\ ~ goalDatesOk (g_core g).
Proof.
  intros F Ow T Ee Lt. unfold Goals.update. rewrite F, Ow, String.eqb_refl.
  cbn [negb moveStart ug_startDate ug_endDate ug_targetType ug_targetValue
       ug_categoryId ug_title ug_description ug_isArchived].
  cbn [validateDates parse given bind].
  apply validateTarget_inr in T. rewrite T. cbn [bind checkCategory ret].
  eexists. eexists. split; [reflexivity | ].
  cbn [g_core startDate endDate given parse].
  split; [reflexivity | split; [exact Ee | ]].
  intros D. specialize (D e Ee). cbn [startDate] in D. lia.
Qed.

Lemma goal_update_empty_end_witness :
  exists goals' g,
    Goals.update [] "u1" "g1" (moveStart 1706659200000) [rowOf dailyGoal]
    = inr (goals', g)
    /\ ~ goalDatesOk (g_core g).
Proof.
  destruct (goal_update_empty_end [] "u1" "g1" [rowOf dailyGoal]
              (rowOf dailyGoal) 1704844800000 1706659200000)
    as (goals' & g & E & _ & _ & N).
  - reflexivity.
  - reflexivity.
  - exact I.
  - reflexivity.
  - lia.
  - exists goals', g. split; [exact E | exact N].
Defined.

End GoalsService.

(** ** The check-ins service *)

Section CheckinsService.
Import Stats Goals Checkins.

Lemma validateAccordingToGoal_inr (type : GoalTargetType) (value : Patch Z) :
  validateAccordingToGoal type value = inr tt
  <-> if needsValue type then exists v, value = Value v /\ 1 <= v
      else value = Undefined.
Proof.
  unfold validateAccordingToGoal. destruct (needsValue type).
  - destruct value as [ | | v].
    + split; [discriminate | ]. intros (v & E & _). discriminate E.
    + split; [discriminate | ]. intros (v & E & _). discriminate E.
    + destruct (Z.ltb_spec v 1) as [L | L]; split.
      * discriminate.
      * intros (v' & E & L'). injection E as <-. lia.
      * intros _. exists v. split; [reflexivity | exact L].
      * reflexivity.
  - destruct value as [ | | v]; split; try discriminate; reflexivity.
Qed.


Lemma checkWindow_inr (goal : Goal) (date : Z) :
  checkWindow goal date = inr tt
  <-> normalizeDate (startDate goal) <= date
      /\ forall e, endDate goal = Some e -> date <= normalizeDate e.
Proof.
  unfold checkWindow, normalizeDay. cbn [bind ret].
  generalize (normalizeDate (startDate goal)). intros goalStart.
  destruct (Z.ltb_spec date goalStart) as [L | L].
  - split; [discriminate | ]. intros (X & _). lia.
  - destruct (endDate goal) as [x | ].
    + cbn [bind].
      destruct (Z.gtb_spec date (normalizeDate x)) as [G | G].
      * split; [discriminate | ]. intros (_ & X).
        specialize (X x eq_refl). lia.
      * split; [ | reflexivity]. intros _. split; [exact L | ].
        intros e E. apply Some_inj in E. subst e. exact G.
    + split; [ | reflexivity]. intros _. split; [exact L | ].
      intros e E. discriminate E.
Qed.



Lemma checkin_create_inr
  (violatesUnique : list CheckinRow -> CheckinRow -> bool)
  (newId userId : string) (dto : CreateCheckinDto) (goals : list Goal)
  (table table' : list CheckinRow) (r : CheckinRow) :
  Checkins.create violatesUnique newId userId dto goals table
  = inr (table', r) ->
  exists goal t,
    findGoal goals (cc_goalId dto) = Some goal
    /\ goal_userId goal = userId
    /\ cc_date dto = Some t
    /\ checkWindow goal (normalizeDate t) = inr tt
    /\ validateAccordingToGoal (targetType goal) (cc_value dto) = inr tt
    /\ violatesUnique table r = false
    /\ table' = (table ++ [r])%list
    /\ ci_id r = newId
    /\ gc_goalId (ci_data r) = cc_goalId dto
    /\ gc_userId (ci_data r) = userId
    /\ gc_date (ci_data r) = normalizeDate t
    /\ gc_value (ci_data r) = definedValue (cc_value dto)
    /\ gc_done (ci_data r)
       = if needsValue (targetType goal) then
           match targetOf goal, comparedValue (cc_value dto) with
           | Some target, Some v => v >=? target
           | _, _ => match cc_done dto with Some d => d | None => false end
           end
         else match cc_done dto with Some d => d | None => true end.
Proof.
  unfold Checkins.create.
  destruct (findGoal goals (cc_goalId dto)) as [goal | ]; [ | discriminate].
  destruct (String.eqb_spec (goal_userId goal) userId) as [Ow | Ow];
    cbn [negb]; [ | discriminate].
  destruct (cc_date dto) as [t | ]; [ | discriminate].
  unfold normalizeDay at 1. cbn [bind ret].
  destruct (checkWindow goal (normalizeDate t)) as [e | []] eqn:W;
    cbn [bind]; [discriminate | ].
  destruct (validateAccordingToGoal _ _) as [e | []] eqn:V;
    cbn [bind]; [discriminate | ].
  destruct (violatesUnique table _) eqn:U; [discriminate | ].
  intros E. apply inr_inj in E. injection E as Et Er.
  exists goal, t. rewrite <- Er. cbn [ci_id ci_data gc_goalId gc_userId
                                        gc_date gc_value gc_done].
  split; [reflexivity | ]. split; [exact Ow | ]. split; [reflexivity | ].
  split; [exact W | ]. split; [exact V | ]. split; [exact U | ].
  split; [now symmetry | ]. split; [reflexivity | ].
  split; [reflexivity | ]. split; [reflexivity | ].
  split; [reflexivity | ]. split; reflexivity.
Qed.


Lemma needsValue_cases (type : GoalTargetType) :
  needsValue type = match type with COUNT | WEEKLY => true | _ => false end.
Proof. reflexivity. Qed.


Lemma filter_snoc (A : Type) (f : A -> bool) (l : list A) (a : A) :
  filter f (l ++ [a])%list = (filter f l ++ if f a then [a] else [])%list.
Proof. rewrite filter_app. reflexivity. Qed.

Lemma valueSum_snoc (l : list GoalCheckin) (c : GoalCheckin) (z : Z) :
  fold_left (fun acc x => acc + valueOr0 x) (l ++ [c])%list z
  = fold_left (fun acc x => acc + valueOr0 x) l z + valueOr0 c.
Proof. rewrite fold_left_app. reflexivity. Qed.

(** A check-in that [create] has stored is counted by [goalProgress]:
    over a range that has the day of the check-in, the progress of the
    goal for its owner has one check-in more than before, the value sum
    grown by the value of the check-in, and one more done check-in if the
    new one is active. *)
Theorem checkin_create_counted
  (violatesUnique : list CheckinRow -> CheckinRow -> bool)
  (newId userId : string) (dto : CreateCheckinDto) (goals : list Goal)
  (table table' : list CheckinRow) (r : CheckinRow) (now : Z) (q : RangeDto)
  (p : GoalProgress) :
  Checkins.create violatesUnique newId userId dto goals table
  = inr (table', r) ->
  goalProgress now goals (checkinsOf table) userId (cc_goalId dto) q
  = inr p ->
  gp_from p <= gc_date (ci_data r) <= gp_to p ->
  exists p',
    goalProgress now goals (checkinsOf table') userId (cc_goalId dto) q
    = inr p'
    /\ gp_from p' = gp_from p /\ gp_to p' = gp_to p
    /\ totalCheckins p' = totalCheckins p + 1
    /\ valueSum p' = valueSum p + valueOr0 (ci_data r)
    /\ doneCount p' = doneCount p + (if isActive (ci_data r) then 1 else 0).
Proof.
  intros E. apply checkin_create_inr in E.
  destruct E as (goal & t & _ & _ & _ & _ & _ & _ & -> & _ & Eg & Eu & _).
  unfold goalProgress.
  destruct (getOwnedGoal goals userId (cc_goalId dto)) as [e | g];
    cbn [bind]; [discriminate | ].
  destruct (resolveRange now q) as [e | range]; cbn [bind];
    [discriminate | ].
  intros P. apply inr_inj in P. subst p.
  cbn [gp_from gp_to totalCheckins valueSum doneCount]. intros R.
  eexists. split; [reflexivity | ].
  cbn [gp_from gp_to totalCheckins valueSum doneCount].
  assert (S : findGoalCheckins (checkinsOf (table ++ [r])) (cc_goalId dto)
                userId range
              = (findGoalCheckins (checkinsOf table) (cc_goalId dto) userId
                   range ++ [ci_data r])%list).
  { unfold findGoalCheckins, checkinsOf. rewrite map_app. cbn [map].
    rewrite filter_snoc. rewrite Eg, Eu, !String.eqb_refl.
    unfold inRange. cbn [andb].
    destruct (Z.leb_spec (from range) (gc_date (ci_data r))) as [ | X];
      [ | lia].
    destruct (Z.leb_spec (gc_date (ci_data r)) (to range)) as [ | X];
      [ | lia].
    reflexivity. }
  rewrite S. rewrite List.length_app, valueSum_snoc, filter_snoc,
    List.length_app.
  split; [reflexivity | ]. split; [reflexivity | ].
  split; [cbn [List.length]; lia | ]. split; [reflexivity | ].
  destruct (isActive (ci_data r)); cbn [List.length]; lia.
Qed.

Lemma checkin_create_counted_witness :
  exists table' r p p',
    Checkins.create onePerDay "c2" "u1" countCheckinRequest [countGoal]
      countTable = inr (table', r)
    /\ goalProgress 1706659200000 [countGoal] (checkinsOf countTable) "u1"
         "g3" january2024 = inr p
    /\ goalProgress 1706659200000 [countGoal] (checkinsOf table') "u1"
         "g3" january2024 = inr p'
    /\ totalCheckins p' = totalCheckins p + 1
    /\ valueSum p' = valueSum p + 15.
Proof.
  destruct (Checkins.create onePerDay "c2" "u1" countCheckinRequest
              [countGoal] countTable) as [e | [table' r]] eqn:E;
    [vm_compute in E; discriminate E | ].
  destruct (goalProgress 1706659200000 [countGoal] (checkinsOf countTable)
              "u1" "g3" january2024) as [e | p] eqn:P;
    [vm_compute in P; discriminate P | ].
  pose proof (checkin_create_counted onePerDay "c2" "u1" countCheckinRequest
                [countGoal] countTable table' r 1706659200000 january2024 p
                E P) as H.
  vm_compute in E. apply inr_inj in E. injection E as Et Er.
  vm_compute in P. apply inr_inj in P. subst table' r p.
  destruct H as (p' & E' & _ & _ & T & V & _).
  - split; vm_compute; discriminate.
  - eexists _, _, _, p'. split; [reflexivity | ]. split; [reflexivity | ].
    split; [exact E' | ]. split; [exact T | exact V].
Defined.

Lemma findCheckin_id (table : list CheckinRow) (id : string) (r : CheckinRow) :
  findCheckin table id = Some r -> ci_id r = id.
Proof.
  intros F. apply find_some in F. destruct F as [_ E].
  now apply String.eqb_eq in E.
Qed.

(** An accepted update keeps the id, the goal and the user of the
    check-in.  A date of the request becomes the calendar day of the new
    row and lies in the window of the goal; without one the day is kept.
    For a COUNT or WEEKLY goal the request must carry a number of at
    least 1 as value, which the new row stores, so the row is active; for
    a DAILY or BOOLEAN goal the request carries no value, not even
    [null], and the stored one is kept.  The [done] of the request is not
    [null]; a boolean is stored as it is; without one, a COUNT or WEEKLY
    row is done when its value reaches a non-zero target and a DAILY or
    BOOLEAN row keeps its [done]. *)
Theorem checkin_update_outcome
  (violatesUnique : list CheckinRow -> CheckinRow -> bool)
  (nullDone : Exception)
  (userId id : string) (dto : UpdateCheckinDto) (goals : list Goal)
  (table table' : list CheckinRow) (r : CheckinRow) :
  Checkins.update violatesUnique nullDone userId id dto goals table
  = inr (table', r) ->
  exists current goal,
    findCheckin table id = Some current
    /\ gc_userId (ci_data current) = userId
    /\ findGoal goals (gc_goalId (ci_data current)) = Some goal
    /\ table' = replaceCheckin id r table
    /\ ci_id r = ci_id current
    /\ gc_goalId (ci_data r) = gc_goalId (ci_data current)
    /\ gc_userId (ci_data r) = userId
    /\ match uc_date dto with
       | Some iso =>
           exists t, iso = Some t
             /\ gc_date (ci_data r) = normalizeDate t
             /\ normalizeDate (startDate goal) <= gc_date (ci_data r)
             /\ forall e, endDate goal = Some e ->
                          gc_date (ci_data r) <= normalizeDate e
       | None => gc_date (ci_data r) = gc_date (ci_data current)
       end
    /\ match targetType goal with
       | COUNT | WEEKLY =>
           exists v, uc_value dto = Value v
             /\ 1 <= v
             /\ gc_value (ci_data r) = Some v
             /\ isActive (ci_data r) = true
             /\ (uc_done dto = Undefined ->
                 forall target,
                   targetValue goal = Some target -> target <> 0 ->
                   gc_done (ci_data r) = (v >=? target))
       | _ =>
           uc_value dto = Undefined
           /\ gc_value (ci_data r) = gc_value (ci_data current)
           /\ (uc_done dto = Undefined ->
               gc_done (ci_data r) = gc_done (ci_data current))
       end
    /\ uc_done dto <> Null
    /\ forall d, uc_done dto = Value d -> gc_done (ci_data r) = d.
Proof.
  unfold Checkins.update.
  destruct (findCheckin table id) as [current | ] eqn:F; [ | discriminate].
  destruct (String.eqb_spec (gc_userId (ci_data current)) userId)
    as [Ow | Ow]; cbn [negb]; [ | discriminate].
  destruct (findGoal goals (gc_goalId (ci_data current))) as [goal | ] eqn:G;
    [ | discriminate].
  destruct (validateAccordingToGoal _ _) as [e | []] eqn:V; cbn [bind];
    [discriminate | ].
  apply validateAccordingToGoal_inr in V.
  assert (D : forall nextDate : option Z,
            match uc_date dto with
            | Some iso => do d <- normalizeDay iso; ret (Some d)
            | None => ret None
            end = inr nextDate ->
            match nextDate with
            | Some d => checkWindow goal d
            | None => ret tt
            end = inr tt ->
            match uc_date dto with
            | Some iso =>
                exists t, iso = Some t
                  /\ match nextDate with
                     | Some d => d
                     | None => gc_date (ci_data current)
                     end = normalizeDate t
                  /\ normalizeDate (startDate goal)
                     <= match nextDate with
                        | Some d => d
                        | None => gc_date (ci_data current)
                        end
                  /\ forall e, endDate goal = Some e ->
                       match nextDate with
                       | Some d => d
                       | None => gc_date (ci_data current)
                       end <= normalizeDate e
            | None => match nextDate with
                      | Some d => d
                      | None => gc_date (ci_data current)
                      end = gc_date (ci_data current)
            end).
  { intros nextDate N W. destruct (uc_date dto) as [iso | ].
    - destruct iso as [t | ]; [ | discriminate N].
      unfold normalizeDay in N. cbn [bind ret] in N. apply inr_inj in N.
      subst nextDate. apply checkWindow_inr in W. destruct W as [Ws We].
      exists t. split; [reflexivity | ]. split; [reflexivity | ].
      split; [exact Ws | exact We].
    - apply inr_inj in N. subst nextDate. reflexivity. }
  destruct (match uc_date dto with
            | Some iso => do d <- normalizeDay iso; ret (Some d)
            | None => ret None
            end) as [e | nextDate]; cbn [bind]; [discriminate | ].
  specialize (D nextDate eq_refl).
  destruct (match nextDate with
            | Some d => checkWindow goal d
            | None => ret tt
            end) as [e | []]; cbn [bind]; [discriminate | ].
  specialize (D eq_refl).
  destruct (match uc_done dto with
            | Value d => Some d
            | Null => None
            | Undefined => _
            end) as [done | ] eqn:Dn; [ | discriminate].
  destruct (violatesUnique _ _); [discriminate | ].
  intros E. apply inr_inj in E. injection E as Et Er.
  exists current, goal. rewrite <- Er.
  cbn [ci_id ci_data gc_goalId gc_userId gc_date gc_value gc_done].
  split; [reflexivity | ]. split; [exact Ow | ]. split; [exact G | ].
  split; [now symmetry | ].
  split; [symmetry; apply (findCheckin_id _ _ _ F) | ].
  split; [reflexivity | ]. split; [exact Ow | ]. split; [exact D | ].
  split; [ | split].
  - unfold isActive, valueOr0. cbn [ci_data gc_value gc_done].
    unfold targetOf in Dn.
    destruct (targetType goal); cbn [needsValue] in V, Dn |- *.
    all: try (rewrite V; cbn [patched]; split;
              [reflexivity | split; [reflexivity | ]];
              intros U; rewrite U in Dn; now apply Some_inj in Dn).
    all: destruct V as (v & Ec & L); rewrite Ec in Dn |- *;
      cbn [patched]; exists v.
    all: split; [reflexivity | split; [exact L | split; [reflexivity | ]]].
    all: split; [destruct (Z.gtb_spec v 0) as [P | P];
                 [apply orb_true_r | lia] | ].
    all: intros U target T N; rewrite U, T in Dn;
      destruct (Z.eqb_spec target 0) as [Z0 | _];
      [now contradiction N | now apply Some_inj in Dn].
  - intros U. rewrite U in Dn. discriminate Dn.
  - intros d U. rewrite U in Dn. now apply Some_inj in Dn.
Qed.

Lemma checkin_update_outcome_witness :
  exists table' r,
    Checkins.update onePerDay RangeError "u1" "c1" raiseValue [countGoal]
      countTable
    = inr (table', r)
    /\ gc_value (ci_data r) = Some 25
    /\ gc_done (ci_data r) = true.
Proof.
  destruct (Checkins.update onePerDay RangeError "u1" "c1" raiseValue
              [countGoal] countTable) as [e | [table' r]] eqn:E;
    [vm_compute in E; discriminate E | ].
  exists table', r. split; [reflexivity | ].
  destruct (checkin_update_outcome onePerDay RangeError "u1" "c1" raiseValue
              [countGoal] countTable table' r E)
    as (current & goal & F & _ & G & _ & _ & _ & _ & _ & T & _).
  vm_compute in F. apply Some_inj in F. subst current.
  vm_compute in G. apply Some_inj in G. subst goal.
  cbn [targetType countGoal] in T.
  destruct T as (v & Ev & _ & -> & _ & Dn).
  injection Ev as <-. split; [reflexivity | ].
  apply (Dn eq_refl 20 eq_refl). discriminate.
Defined.

Lemma findCheckin_without (table : list CheckinRow) (id id' : string) :
  findCheckin (withoutCheckin id table) id'
  = if String.eqb id' id then None else findCheckin table id'.
Proof.
  unfold findCheckin, withoutCheckin.
  induction table as [ | r table IH]; cbn [filter find].
  - now destruct (String.eqb id' id).
  - destruct (String.eqb_spec (ci_id r) id) as [E | N]; cbn [negb find].
    + rewrite IH. destruct (String.eqb_spec id' id) as [E2 | N'];
        [reflexivity | ].
      destruct (String.eqb_spec (ci_id r) id') as [E' | _];
        [congruence | reflexivity].
    + destruct (String.eqb_spec (ci_id r) id') as [E' | N'].
      * destruct (String.eqb_spec id' id) as [E2 | _];
          [congruence | reflexivity].
      * exact IH.
Qed.

(** [remove] deletes a check-in of the caller: afterwards no row has its
    id and every other id finds the row it found before.  An unknown id
    gives a not-found error and a check-in of another user a forbidden
    error, the table staying as it is. *)
Theorem checkin_remove_outcome (userId id : string)
  (table : list CheckinRow) :
  match Checkins.remove userId id table with
  | inr (table', r) =>
      findCheckin table id = Some r
      /\ gc_userId (ci_data r) = userId
      /\ findCheckin table' id = None
      /\ (forall id', id' <> id ->
                      findCheckin table' id' = findCheckin table id')
      /\ forall x, In x table' <-> In x table /\ ci_id x <> id
  | inl (NotFoundException _) => findCheckin table id = None
  | inl (ForbiddenException _) =>
      exists r, findCheckin table id = Some r
                /\ gc_userId (ci_data r) <> userId
  | inl _ => False
  end.
Proof.
  unfold Checkins.remove.
  destruct (findCheckin table id) as [current | ]; [ | reflexivity].
  destruct (String.eqb_spec (gc_userId (ci_data current)) userId)
    as [Ow | Ow]; cbn [negb].
  - cbn [ret]. split; [reflexivity | ]. split; [exact Ow | ].
    split; [rewrite findCheckin_without, String.eqb_refl; reflexivity | ].
    split.
    + intros id' N. rewrite findCheckin_without.
      destruct (String.eqb_spec id' id) as [E | _];
        [now contradiction N | reflexivity].
    + intros x. unfold withoutCheckin. rewrite filter_In.
      destruct (String.eqb_spec (ci_id x) id) as [E | N]; cbn [negb];
        split; intros [I X]; try discriminate X; try (now contradiction X);
        split; try assumption; reflexivity.
  - exists current. split; [reflexivity | exact Ow].
Qed.

End CheckinsService.
